(** * Risk-gated order execution: a shallow embedding of the trading package

    The development follows the Python sources module by module:
    [types.py], [risk_controls.py], [base_trader.py], [futu_trader.py],
    [live_executor.py] and the trade loop of [live_main.py].

    Modelling conventions.
    - Python [float] values are exact rationals ([Q]); comparisons are the
      rational ones and rounding is not modelled.
    - Python [int] values are [Z]; [str] values are [string], one byte per
      character: text is ASCII.
    - A method that mutates [self] is a function in the state-and-exception
      monad [M S A := S -> S * result A]; a raised exception keeps the
      mutations made so far, as in Python.
    - Values are what the declarations make them at run time.  [TradeOrder]
      and [TradeResult] set [use_enum_values = True], so a validated model
      stores the value of an enum field: [order.side] and [result.status] are
      plain [str] objects, equal to the members they came from but without
      an attribute [value].  An [AccountInfo] is a [TypedDict], hence a plain
      [dict].
    - A log line ([self.logger...]) has no effect on the state; it is kept
      where building its message can raise, and left out elsewhere.
    - A name is looked up in the module that reads it: [base_trader.py]
      imports no [MarketType] at module level.  Annotations are not
      evaluated.
    - [datetime.now()], [uuid.uuid4()] and the broker SDK are inputs of the
      model: a clock reading, a fresh identifier and a record of answers. *)

From Stdlib Require Import ZArith QArith Qabs Qround Qminmax Lqa Lia.
From Stdlib Require Import Morphisms Setoid.
From Stdlib Require Import Bool List String Ascii DecimalString.
Import ListNotations.

Local Open Scope string_scope.
Local Open Scope Z_scope.

(** ** Python run-time notions *)

Module Py.

(** The exceptions the modelled code can raise. *)
Inductive Exc : Type :=
| AttributeError (attribute : string)
| ValueError (detail : string)
| BrokerError (detail : string)
| NameError (name : string).

(** [str(e)]; for an [AttributeError] the text that follows the name of the
    object's type. *)
Definition str_of_exc (e : Exc) : string :=
  match e with
  | AttributeError a => "object has no attribute '" ++ a ++ "'"
  | ValueError d => d
  | BrokerError d => d
  | NameError n => "name '" ++ n ++ "' is not defined"
  end.

Inductive result (A : Type) : Type :=
| Ret (a : A)
| Raise (e : Exc).
Arguments Ret {A} a.
Arguments Raise {A} e.

(** State-and-exception monad for methods of a mutable object. *)
Definition M (S A : Type) : Type := S -> S * result A.

Definition ret {S A} (a : A) : M S A := fun s => (s, Ret a).
Definition raise {S A} (e : Exc) : M S A := fun s => (s, Raise e).
Definition bind {S A B} (m : M S A) (k : A -> M S B) : M S B :=
  fun s => match m s with
           | (s', Ret a) => k a s'
           | (s', Raise e) => (s', Raise e)
           end.
Definition get {S} : M S S := fun s => (s, Ret s).
Definition gets {S A} (f : S -> A) : M S A := fun s => (s, Ret (f s)).
Definition modify {S} (f : S -> S) : M S unit := fun s => (f s, Ret tt).

(** An expression that reads no state: it returns or raises. *)
Definition of_result {S A} (r : result A) : M S A := fun s => (s, r).

Definition bind_result {A B} (r : result A) (k : A -> result B) : result B :=
  match r with
  | Ret a => k a
  | Raise e => Raise e
  end.

(** [try: body  except Exception as e: handler e] *)
Definition try_except {S A} (body : M S A) (handler : Exc -> M S A) : M S A :=
  fun s => match body s with
           | (s', Ret a) => (s', Ret a)
           | (s', Raise e) => handler e s'
           end.

(** Truthiness of an [Optional[float]]: [None] and [0.0] are falsy. *)
Definition truthy (x : option Q) : bool :=
  match x with
  | Some v => negb (Qeq_bool v 0)
  | None => false
  end.

(** [x or d] for an [Optional[float]] [x]. *)
Definition or_else (x : option Q) (d : Q) : Q :=
  match x with
  | Some v => if Qeq_bool v 0 then d else v
  | None => d
  end.

(** Truthiness of an [Optional[str]]: [None] and the empty string are falsy. *)
Definition truthy_str (x : option string) : bool :=
  match x with
  | Some s => negb (String.eqb s "")
  | None => false
  end.

(** [int(x)] on a float: truncation towards zero. *)
Definition int (x : Q) : Z := Z.quot (Qnum x) (Zpos (Qden x)).

Definition Qltb (a b : Q) : bool := negb (Qle_bool b a).
Definition Qleb (a b : Q) : bool := Qle_bool a b.

(** [str(n)] for an int. *)
Definition str_of_nonneg (n : Z) : string :=
  NilZero.string_of_uint (N.to_uint (Z.to_N n)).
Definition str_of_int (n : Z) : string :=
  if n <? 0 then "-" ++ str_of_nonneg (- n) else str_of_nonneg n.

(** Rounding to the nearest integer, ties to even, as the format
    specifications [.Nf] and [.N%] do. *)
Definition round_half_even (q : Q) : Z :=
  let f := Qfloor q in
  match Qcompare ((q - inject_Z f) * 2) 1 with
  | Lt => f
  | Gt => f + 1
  | Eq => if Z.even f then f else f + 1
  end.

Fixpoint zero_pad (width : nat) (s : string) : string :=
  match width with
  | O => s
  | S w => if (String.length s <? S w)%nat then zero_pad w ("0" ++ s) else s
  end.

(** [f"{q:.<digits>f}"] *)
Definition format_f (digits : nat) (q : Q) : string :=
  let scale := 10 ^ Z.of_nat digits in
  let m := round_half_even (Qabs q * inject_Z scale) in
  let sign := if Qltb q 0 then "-" else "" in
  let whole := str_of_nonneg (m / scale) in
  match digits with
  | O => sign ++ whole
  | _ => sign ++ whole ++ "." ++ zero_pad digits (str_of_nonneg (m mod scale))
  end.

(** [f"{q:.<digits>%}"] *)
Definition format_pct (digits : nat) (q : Q) : string :=
  format_f digits (q * 100) ++ "%".

(** ["; ".join(parts)] *)
Definition join (sep : string) (parts : list string) : string :=
  String.concat sep parts.

(** Text is modelled one byte per character, which is exact for ASCII
    text. *)
Definition is_ascii (s : string) : bool :=
  forallb (fun c => (nat_of_ascii c <? 128)%nat) (list_ascii_of_string s).

(** [str.isdigit()] on ASCII text: non-empty and all decimal digits.
    (Python also accepts digits outside ASCII; [String.length] is [len()]
    on ASCII text only.) *)
Definition is_digit_char (c : ascii) : bool :=
  let n := nat_of_ascii c in ((48 <=? n) && (n <=? 57))%nat.
Fixpoint all_digits (s : string) : bool :=
  match s with
  | EmptyString => true
  | String c rest => is_digit_char c && all_digits rest
  end.
Definition isdigit (s : string) : bool :=
  negb (String.eqb s "") && all_digits s.

(** [xs[-n:]] *)
Definition last_n {A} (n : nat) (xs : list A) : list A :=
  skipn (List.length xs - n) xs.

End Py.

Import Py.

Declare Scope py_scope.
Delimit Scope py_scope with py.
Notation "x <- m ;; k" := (Py.bind m (fun x => k))
  (at level 61, m at next level, right associativity) : py_scope.
Notation "m ;;; k" := (Py.bind m (fun _ => k))
  (at level 61, right associativity) : py_scope.

(** ** [types.py] *)

Module Types.

Inductive TradeSide : Type := BUY | SELL.

Inductive OrderType : Type := MARKET | LIMIT | STOP | STOP_LIMIT.

Inductive OrderStatus : Type :=
| PENDING | SUBMITTED | FILLED | PARTIALLY_FILLED | CANCELLED | REJECTED | FAILED.

Inductive MarketType : Type := HK | US | CN.

Definition TradeSide_eqb (a b : TradeSide) : bool :=
  match a, b with
  | BUY, BUY | SELL, SELL => true
  | _, _ => false
  end.

(** [<model>.<field>.value] on an enum field of a validated [TradeOrder] or
    [TradeResult].  Both classes set [use_enum_values = True], so the field
    holds the member's value, a plain [str]: it compares equal to the
    member (the enums derive from [str]), which is what matching on
    [TradeSide] and [OrderStatus] stands for below, but it has no attribute
    [value], and the read raises. *)
Definition enum_field_value {A : Type} (field : A) : result string :=
  Raise (AttributeError "value").

Record TradeOrder : Type := mkTradeOrder {
  symbol : string;
  side : TradeSide;
  quantity : Z;
  order_type : OrderType;
  price : option Q;
  stop_price : option Q;
  market : MarketType;
  time_in_force : string
}.

(** The messages of [base_trader.py] and [futu_trader.py]: one variant per
    message template, carrying the interpolated values.  The first two are
    the notes that accompany a passed validation, the others are what
    [error_msg] can hold. *)
Inductive ErrorMsg : Type :=
| DryRunMode
| ValidationPassed
| NotConnected
| NoAccountInformation
| InsufficientBuyingPower (required available : Q)
| InsufficientShares (required available : Z)
| OrderValueExceedsLimit (value limit : Q)
| NoTradingAccount
| UnlockFailed
| OrderSubmissionFailed (data : string)
| TradeContextNotAvailable
| NoMarketPriceForSimulation
| ExceptionText (text : string).

Record TradeResult : Type := mkTradeResult {
  order_id : string;
  r_symbol : string;
  r_side : TradeSide;
  r_quantity : Z;
  filled_quantity : Z;
  avg_price : option Q;
  status : OrderStatus;
  submit_time : Z;
  update_time : option Z;
  error_msg : option ErrorMsg;
  commission : option Q
}.

Record TradeConfig : Type := mkTradeConfig {
  futu_host : string;
  futu_port : Z;
  trading_account : option string;
  trading_pwd : option string;
  cfg_max_position_size : Q;
  max_daily_trades : Z;
  max_order_value : Q;
  dry_run : bool;
  enable_short_selling : bool;
  default_market : MarketType;
  log_trades : bool;
  log_level : string
}.

(** [AccountInfo(TypedDict)]: the keys of the dictionary. *)
Record AccountInfo : Type := mkAccountInfo {
  account_id : string;
  total_assets : Q;
  cash : Q;
  market_value : Q;
  unrealized_pnl : Q;
  realized_pnl : Q;
  buying_power : Q
}.

Definition AccountInfo_keys : list string :=
  ["account_id"; "total_assets"; "cash"; "market_value";
   "unrealized_pnl"; "realized_pnl"; "buying_power"].

(** [Position(TypedDict)] *)
Record Position : Type := mkPosition {
  p_symbol : string;
  p_quantity : Z;
  p_avg_cost : Q;
  p_market_value : Q;
  p_unrealized_pnl : Q;
  p_market_price : Q
}.

(** What a caller can pass where an account is expected: a dictionary of
    the [AccountInfo] shape, or some other object carrying float
    attributes. *)
Inductive AccountArg : Type :=
| AccountDict (d : AccountInfo)
| AccountObject (attributes : list (string * Q)).

Fixpoint lookup_attr (name : string) (attributes : list (string * Q)) : option Q :=
  match attributes with
  | [] => None
  | (k, v) :: rest => if String.eqb k name then Some v else lookup_attr name rest
  end.

(** [account_info.<name>]: attribute access.  A [dict] has no attribute
    named after one of its keys, so the access raises [AttributeError]. *)
Definition getattr (a : AccountArg) (name : string) : result Q :=
  match a with
  | AccountDict _ => Raise (AttributeError name)
  | AccountObject attributes =>
      match lookup_attr name attributes with
      | Some v => Ret v
      | None => Raise (AttributeError name)
      end
  end.

(** [account_info[<name>]] on a dictionary of the declared shape, for the
    float-valued keys. *)
Definition getitem (d : AccountInfo) (name : string) : option Q :=
  if String.eqb name "total_assets" then Some (total_assets d)
  else if String.eqb name "cash" then Some (cash d)
  else if String.eqb name "market_value" then Some (market_value d)
  else if String.eqb name "unrealized_pnl" then Some (unrealized_pnl d)
  else if String.eqb name "realized_pnl" then Some (realized_pnl d)
  else if String.eqb name "buying_power" then Some (buying_power d)
  else None.

End Types.

Import Types.

(** ** [risk_controls.py] *)

Module RiskControls.

Local Open Scope Q_scope.

Inductive RiskLevel : Type := LOW | MEDIUM | HIGH | CRITICAL.

Definition RiskLevel_eqb (a b : RiskLevel) : bool :=
  match a, b with
  | LOW, LOW | MEDIUM, MEDIUM | HIGH, HIGH | CRITICAL, CRITICAL => true
  | _, _ => false
  end.

(** [self.limits] *)
Record Limits : Type := mkLimits {
  max_position_size : Q;
  max_portfolio_value : Q;
  max_daily_loss : Q;
  max_position_concentration : Q;
  max_trades_per_day : Q;
  min_cash_reserve : Q
}.

Record TradeRecord : Type := mkTradeRecord {
  tr_timestamp : Z;
  tr_symbol : string;
  tr_side : TradeSide;
  tr_quantity : Z;
  tr_price : Q
}.

Record RiskEvent : Type := mkRiskEvent {
  ev_timestamp : Z;
  ev_order : TradeOrder;
  ev_message : string;
  ev_risk_level : RiskLevel
}.

Record RiskManager : Type := mkRiskManager {
  limits : Limits;
  daily_pnl : Q;
  daily_trades : Z;
  trade_history : list TradeRecord;
  last_reset : Z;
  risk_events : list RiskEvent;
  circuit_breaker_active : bool
}.

(** The clock is a count of seconds; [datetime.now().date()] is its day. *)
Definition date (now : Z) : Z := (now / 86400)%Z.

(** [config.get(key, default)] on the configuration mapping. *)
Fixpoint config_get (config : list (string * Q)) (key : string) (default : Q) : Q :=
  match config with
  | [] => default
  | (k, v) :: rest => if String.eqb k key then v else config_get rest key default
  end.

(** [RiskManager.__init__] *)
Definition init (config : list (string * Q)) (now : Z) : RiskManager :=
  {| limits :=
       {| max_position_size := config_get config "max_position_size" 100000;
          max_portfolio_value := config_get config "max_portfolio_value" 1000000;
          max_daily_loss := config_get config "max_daily_loss" 10000;
          max_position_concentration :=
            config_get config "max_position_concentration" (2 # 10);
          max_trades_per_day := config_get config "max_trades_per_day" 100;
          min_cash_reserve := config_get config "min_cash_reserve" 10000 |};
     daily_pnl := 0;
     daily_trades := 0%Z;
     trade_history := [];
     last_reset := date now;
     risk_events := [];
     circuit_breaker_active := false |}.

Definition set_circuit_breaker (b : bool) (rm : RiskManager) : RiskManager :=
  {| limits := limits rm; daily_pnl := daily_pnl rm;
     daily_trades := daily_trades rm; trade_history := trade_history rm;
     last_reset := last_reset rm; risk_events := risk_events rm;
     circuit_breaker_active := b |}.

Definition set_daily_pnl (v : Q) (rm : RiskManager) : RiskManager :=
  {| limits := limits rm; daily_pnl := v;
     daily_trades := daily_trades rm; trade_history := trade_history rm;
     last_reset := last_reset rm; risk_events := risk_events rm;
     circuit_breaker_active := circuit_breaker_active rm |}.

(** A check returns [(is_valid, risk_level, message)]. *)
Definition Check : Type := bool * RiskLevel * string.

(** [_check_daily_reset] *)
Definition _check_daily_reset (now : Z) (rm : RiskManager) : RiskManager :=
  let today := date now in
  if (last_reset rm <? today)%Z then
    {| limits := limits rm; daily_pnl := 0; daily_trades := 0%Z;
       trade_history := trade_history rm; last_reset := today;
       risk_events := risk_events rm; circuit_breaker_active := false |}
  else rm.

(** [_check_position_size] *)
Definition _check_position_size (rm : RiskManager) (order : TradeOrder)
    (account_info : AccountArg) : Check :=
  let position_value :=
    match price order with
    | Some p => if truthy (Some p)
                then inject_Z (quantity order) * p
                else inject_Z (quantity order) * 100
    | None => inject_Z (quantity order) * 100
    end in
  let max_size := max_position_size (limits rm) in
  if Qltb max_size position_value then
    (false, CRITICAL,
     "Position size $" ++ format_f 2 position_value
       ++ " exceeds limit $" ++ format_f 2 max_size)
  else if Qltb (max_size * (8 # 10)) position_value then
    (true, HIGH, "Position size approaching limit")
  else
    (true, LOW, "Position size OK").

(** [_check_cash_reserve] *)
Definition _check_cash_reserve (rm : RiskManager) (order : TradeOrder)
    (account_info : AccountArg) : result Check :=
  match side order with
  | SELL => Ret (true, LOW, "Sell order - increases cash")
  | BUY =>
      let required_cash := inject_Z (quantity order) * or_else (price order) 0 in
      match getattr account_info "cash" with
      | Raise e => Raise e
      | Ret account_cash =>
          let remaining_cash := account_cash - required_cash in
          let min_reserve := min_cash_reserve (limits rm) in
          if Qltb remaining_cash min_reserve then
            Ret (false, CRITICAL,
                 "Insufficient cash reserve: $" ++ format_f 2 remaining_cash
                   ++ " < $" ++ format_f 2 min_reserve)
          else if Qltb remaining_cash (min_reserve * (15 # 10)) then
            Ret (true, MEDIUM, "Cash reserve low")
          else
            Ret (true, LOW, "Cash reserve OK")
      end
  end.

(** [_check_daily_loss]; it arms the circuit breaker as a side effect. *)
Definition _check_daily_loss (account_info : AccountArg) : M RiskManager Check :=
  fun rm =>
    let max_loss := max_daily_loss (limits rm) in
    if Qltb (daily_pnl rm) (- max_loss) then
      (set_circuit_breaker true rm,
       Ret (false, CRITICAL,
            "Daily loss limit exceeded: $" ++ format_f 2 (Qabs (daily_pnl rm))))
    else if Qltb (daily_pnl rm) (- max_loss * (8 # 10)) then
      (rm, Ret (true, HIGH, "Approaching daily loss limit"))
    else
      (rm, Ret (true, LOW, "Daily P&L within limits")).

(** [_check_trading_frequency] *)
Definition _check_trading_frequency (rm : RiskManager) : Check :=
  let max_trades := max_trades_per_day (limits rm) in
  if Qleb max_trades (inject_Z (daily_trades rm)) then
    (false, CRITICAL,
     "Daily trade limit reached: " ++ str_of_int (daily_trades rm))
  else if Qleb (max_trades * (9 # 10)) (inject_Z (daily_trades rm)) then
    (true, MEDIUM, "Approaching daily trade limit")
  else
    (true, LOW, "Trading frequency OK").

(** [next((p for p in positions if p['symbol'] == order.symbol), default)],
    reduced to the two keys the caller reads. *)
Definition current_position_of (positions : list Position) (sym : string) : Z * Q :=
  match find (fun p => String.eqb (p_symbol p) sym) positions with
  | Some p => (p_quantity p, p_market_value p)
  | None => (0%Z, 0)
  end.

(** The projected position value of [_check_position_concentration]. *)
Definition new_position_value (order : TradeOrder) (positions : list Position) : Q :=
  let '(cur_quantity, cur_market_value) := current_position_of positions (symbol order) in
  let new_quantity :=
    match side order with
    | BUY => (cur_quantity + quantity order)%Z
    | SELL => (cur_quantity - quantity order)%Z
    end in
  let estimated_price :=
    or_else (price order) (cur_market_value / inject_Z (Z.max cur_quantity 1)) in
  Qabs (inject_Z new_quantity * estimated_price).

(** [_check_position_concentration].  The attribute read comes before the
    [try] block; nothing inside the block can raise on these data, so its
    handler is not reached. *)
Definition _check_position_concentration (rm : RiskManager) (order : TradeOrder)
    (account_info : AccountArg) (positions : list Position) : result Check :=
  match getattr account_info "net_liquidation" with
  | Raise e => Raise e
  | Ret portfolio_value =>
      if Qleb portfolio_value 0 then
        Ret (true, LOW, "No portfolio value to check")
      else
        let concentration :=
          if Qltb 0 portfolio_value
          then new_position_value order positions / portfolio_value
          else 0 in
        let limit := max_position_concentration (limits rm) in
        if Qltb limit concentration then
          Ret (false, HIGH,
               "Position concentration " ++ format_pct 1 concentration
                 ++ " exceeds limit " ++ format_pct 1 limit)
        else if Qltb (limit * (8 # 10)) concentration then
          Ret (true, MEDIUM, "Position concentration approaching limit")
        else
          Ret (true, LOW, "Position concentration OK")
  end.

(** [_log_risk_event] *)
Definition _log_risk_event (now : Z) (order : TradeOrder) (message : string)
    (risk_level : RiskLevel) (rm : RiskManager) : RiskManager :=
  {| limits := limits rm; daily_pnl := daily_pnl rm;
     daily_trades := daily_trades rm; trade_history := trade_history rm;
     last_reset := last_reset rm;
     risk_events :=
       (risk_events rm ++ [ {| ev_timestamp := now; ev_order := order;
                               ev_message := message;
                               ev_risk_level := risk_level |} ])%list;
     circuit_breaker_active := circuit_breaker_active rm |}.

(** One step of the level tracking in the loop of [validate_order]. *)
Definition raise_level (max_risk_level risk_level : RiskLevel) : RiskLevel :=
  if RiskLevel_eqb risk_level CRITICAL then CRITICAL
  else if RiskLevel_eqb risk_level HIGH
          && negb (RiskLevel_eqb max_risk_level CRITICAL) then HIGH
  else if RiskLevel_eqb risk_level MEDIUM
          && RiskLevel_eqb max_risk_level LOW then MEDIUM
  else max_risk_level.

(** The loop [for is_valid, risk_level, message in checks]. *)
Fixpoint scan_checks (now : Z) (order : TradeOrder) (checks : list Check)
    (max_risk_level : RiskLevel) (failed_checks : list string)
    (rm : RiskManager) : RiskManager * (RiskLevel * list string) :=
  match checks with
  | [] => (rm, (max_risk_level, failed_checks))
  | (is_valid, risk_level, message) :: rest =>
      let failed' := if is_valid then failed_checks
                     else (failed_checks ++ [message])%list in
      let rm' := if is_valid then rm
                 else _log_risk_event now order message risk_level rm in
      scan_checks now order rest (raise_level max_risk_level risk_level) failed' rm'
  end.

(** The verdict [(is_valid, reason, risk_level)]. *)
Definition Verdict : Type := bool * string * RiskLevel.

Definition lift {A} (r : result A) : M RiskManager A := fun rm => (rm, r).

(** [validate_order] after the daily reset: breaker test, the five checks
    in the order the list literal evaluates them, then the loop. *)
Definition evaluate_order (order : TradeOrder) (account_info : AccountArg)
    (positions : list Position) (now : Z) : M RiskManager Verdict :=
  (cb <- gets circuit_breaker_active ;;
   if cb then ret (false, "Circuit breaker active - trading halted", CRITICAL)
   else
     c1 <- (fun rm => (rm, Ret (_check_position_size rm order account_info))) ;;
     c2 <- (fun rm => (rm, _check_cash_reserve rm order account_info)) ;;
     c3 <- _check_daily_loss account_info ;;
     c4 <- gets _check_trading_frequency ;;
     c5 <- (fun rm => (rm, _check_position_concentration rm order account_info positions)) ;;
     scanned <- (fun rm =>
                   let '(rm', out) := scan_checks now order [c1; c2; c3; c4; c5] LOW [] rm in
                   (rm', Ret out)) ;;
     let '(max_risk_level, failed_checks) := scanned in
     match failed_checks with
     | _ :: _ => ret (false, join "; " failed_checks, max_risk_level)
     | [] => ret (true, "All risk checks passed", max_risk_level)
     end)%py.

(** [validate_order] *)
Definition validate_order (order : TradeOrder) (account_info : AccountArg)
    (positions : list Position) (now : Z) : M RiskManager Verdict :=
  fun rm => evaluate_order order account_info positions now (_check_daily_reset now rm).

(** [record_trade] *)
Definition record_trade (order : TradeOrder) (executed_qty : Z)
    (execution_price : Q) (now : Z) (rm : RiskManager) : RiskManager :=
  {| limits := limits rm; daily_pnl := daily_pnl rm;
     daily_trades := (daily_trades rm + 1)%Z;
     trade_history :=
       (trade_history rm ++ [ {| tr_timestamp := now; tr_symbol := symbol order;
                                 tr_side := side order; tr_quantity := executed_qty;
                                 tr_price := execution_price |} ])%list;
     last_reset := last_reset rm; risk_events := risk_events rm;
     circuit_breaker_active := circuit_breaker_active rm |}.

(** [update_pnl] *)
Definition update_pnl (pnl_change : Q) (rm : RiskManager) : RiskManager :=
  let rm' := set_daily_pnl (daily_pnl rm + pnl_change) rm in
  if Qltb (daily_pnl rm') (- max_daily_loss (limits rm'))
  then set_circuit_breaker true rm'
  else rm'.

(** [reset_circuit_breaker] *)
Definition reset_circuit_breaker (rm : RiskManager) : RiskManager :=
  set_circuit_breaker false rm.

(** The attribute whose read fails first on a dictionary account. *)
Definition first_failing_attribute (order : TradeOrder) : string :=
  match side order with
  | BUY => "cash"
  | SELL => "net_liquidation"
  end.

(** The message of the failing concentration check. *)
Definition concentration_message (concentration limit : Q) : string :=
  "Position concentration " ++ format_pct 1 concentration
    ++ " exceeds limit " ++ format_pct 1 limit.

End RiskControls.

(** ** [base_trader.py] *)

Module BaseTrader.

Local Open Scope Q_scope.

(** The fields of [BaseTrader.__init__], with the state a subclass adds. *)
Record Trader (B : Type) : Type := mkTrader {
  config : TradeConfig;
  is_connected : bool;
  trade_history : list TradeResult;
  backend : B
}.
Arguments mkTrader {B}.
Arguments config {B}.
Arguments is_connected {B}.
Arguments trade_history {B}.
Arguments backend {B}.

Definition set_connected {B} (c : bool) (t : Trader B) : Trader B :=
  mkTrader (config t) c (trade_history t) (backend t).
Definition set_backend {B} (b : B) (t : Trader B) : Trader B :=
  mkTrader (config t) (is_connected t) (trade_history t) b.
Definition append_trade {B} (r : TradeResult) (t : Trader B) : Trader B :=
  mkTrader (config t) (is_connected t) (trade_history t ++ [r])%list (backend t).

(** The abstract query methods. *)
Class Queries (B : Type) : Type := {
  get_account_info : M (Trader B) (option AccountInfo);
  get_positions : M (Trader B) (list Position);
  get_market_price : string -> M (Trader B) (option Q)
}.

(** The abstract [submit_order]. *)
Class Submission (B : Type) : Type := {
  submit_order : TradeOrder -> M (Trader B) TradeResult
}.

(** The name [MarketType] read at module level of [base_trader.py].  The
    module imports [TradeOrder], [TradeResult], [TradeConfig],
    [AccountInfo], [Position] and [ActionLiteral] from [types.py]; the
    import of [MarketType] inside [_convert_action_to_order] binds the name
    in that function only.  So [MarketType.<member>] in any other function
    of the module raises [NameError]. *)
Definition global_MarketType (member : MarketType) : result MarketType :=
  Raise (NameError "MarketType").

(** [_detect_market] *)
Definition _detect_market (sym : string) : result MarketType :=
  if isdigit sym && (String.length sym =? 5)%nat then global_MarketType HK
  else if isdigit sym && (String.length sym =? 6)%nat then global_MarketType CN
  else global_MarketType US.

(** [_convert_action_to_order] *)
Definition _convert_action_to_order (ticker action : string) (quantity : Z)
    (current_price : option Q) : result (option TradeOrder) :=
  let build (s : TradeSide) :=
    bind_result (_detect_market ticker) (fun detected =>
      Ret (Some {| symbol := ticker; side := s; quantity := quantity;
                   order_type := MARKET;
                   price := if truthy current_price then current_price else None;
                   stop_price := None;
                   market := detected;
                   time_in_force := "DAY" |})) in
  if String.eqb action "buy" then build BUY
  else if String.eqb action "sell" then build SELL
  else if String.eqb action "short" then build SELL
  else if String.eqb action "cover" then build BUY
  else Ret None.

Section Methods.
Context {B : Type}.

(** [execute_trade] *)
Definition execute_trade `{Submission B} (ticker action : string) (quantity : Z)
    (current_price : option Q) : M (Trader B) Z :=
  (if String.eqb action "hold" || (quantity <=? 0)%Z then ret 0%Z
   else
     converted <- of_result (_convert_action_to_order ticker action quantity
                               current_price) ;;
     match converted with
     | None => ret 0%Z
     | Some order =>
         result <- submit_order order ;;
         modify (append_trade result) ;;;
         ret (filled_quantity result)
     end)%py.

(** [order.price or await self.get_market_price(order.symbol) or 0]:
    the price is fetched only when the order carries none. *)
Definition price_or_market `{Queries B} (order : TradeOrder) : M (Trader B) Q :=
  (if truthy (price order) then ret (or_else (price order) 0)
   else
     fetched <- get_market_price (symbol order) ;;
     ret (or_else fetched 0))%py.

(** The buying-power test, [if order.side.value == "BUY": ...]:
    [Some msg] when it rejects. *)
Definition check_buying_power `{Queries B} (order : TradeOrder)
    (account : AccountInfo) : M (Trader B) (option ErrorMsg) :=
  (side_value <- of_result (enum_field_value (side order)) ;;
   if String.eqb side_value "BUY" then
     unit_price <- price_or_market order ;;
     let estimated_cost := inject_Z (quantity order) * unit_price in
     if Qltb (buying_power account) estimated_cost
     then ret (Some (InsufficientBuyingPower estimated_cost (buying_power account)))
     else ret None
   else ret None)%py.

(** The held-shares test, [if order.side.value == "SELL": ...]:
    [Some msg] when it rejects. *)
Definition check_held_shares `{Queries B} (order : TradeOrder)
    : M (Trader B) (option ErrorMsg) :=
  (side_value <- of_result (enum_field_value (side order)) ;;
   if String.eqb side_value "SELL" then
     positions <- get_positions ;;
     cfg <- gets config ;;
     let position := find (fun p => String.eqb (p_symbol p) (symbol order)) positions in
     let short_of_shares :=
       match position with
       | None => true
       | Some p => (p_quantity p <? quantity order)%Z
       end in
     if short_of_shares && negb (enable_short_selling cfg)
     then ret (Some (InsufficientShares (quantity order)
                       match position with Some p => p_quantity p | None => 0%Z end))
     else ret None
   else ret None)%py.

(** [validate_trade].  In live mode the first statement after the account
    test reads [order.side.value]. *)
Definition validate_trade `{Queries B} (order : TradeOrder)
    : M (Trader B) (bool * ErrorMsg) :=
  (connected <- gets is_connected ;;
   if negb connected then ret (false, NotConnected)
   else
     cfg <- gets config ;;
     if dry_run cfg then ret (true, DryRunMode)
     else
       account <- get_account_info ;;
       match account with
       | None => ret (false, NoAccountInformation)
       | Some account =>
           buying <- check_buying_power order account ;;
           match buying with
           | Some msg => ret (false, msg)
           | None =>
               holding <- check_held_shares order ;;
               match holding with
               | Some msg => ret (false, msg)
               | None =>
                   unit_price <- price_or_market order ;;
                   let estimated_value := inject_Z (quantity order) * unit_price in
                   if Qltb (max_order_value cfg) estimated_value
                   then ret (false, OrderValueExceedsLimit estimated_value
                                      (max_order_value cfg))
                   else ret (true, ValidationPassed)
               end
           end
       end)%py.

End Methods.

(** [trader.execute_trade] as the holder of a [BaseTrader] object calls it:
    the method of the object's class, which is [execute_trade] above unless
    a subclass overrides it. *)
Class Execution (B : Type) : Type := {
  trader_execute_trade : string -> string -> Z -> option Q -> M (Trader B) Z
}.

#[export] Instance inherited_execution {B : Type} `{Submission B} : Execution B :=
  {| trader_execute_trade := execute_trade |}.

(** The actions for which [_convert_action_to_order] sets out to build an
    order. *)
Definition names_order (action : string) : bool :=
  String.eqb action "buy" || String.eqb action "sell"
  || String.eqb action "short" || String.eqb action "cover".

End BaseTrader.

(** ** [futu_trader.py] *)

Module FutuTrader.

Import BaseTrader.
Local Open Scope Q_scope.

(** What a call into the broker SDK ([ft]) can do: return [RET_OK] with
    data, return an error code with a text, or raise. *)
Inductive sdk_result (A : Type) : Type :=
| SdkOk (data : A)
| SdkErr (text : string)
| SdkRaise (detail : string).
Arguments SdkOk {A} data.
Arguments SdkErr {A} text.
Arguments SdkRaise {A} detail.

(** The first row of [order_list_query], reduced to the keys read. *)
Record OrderRow : Type := mkOrderRow {
  dealt_qty : Z;
  dealt_avg_price : Q;
  row_order_status : string
}.

(** The arguments of one [trade_ctx.place_order] call. *)
Record PlaceOrderCall : Type := mkPlaceOrderCall {
  po_price : Q;
  po_qty : Z;
  po_code : string;
  po_side : TradeSide;
  po_order_type : OrderType;
  po_acc_id : string
}.

(** The world outside the process: clock, identifier source and the
    answers of the OpenD gateway.  Empty data frames are [None] / [[]]. *)
Record Gateway : Type := mkGateway {
  clock : Z;
  uuid4 : string;
  open_quote_context : sdk_result unit;
  open_trade_context : sdk_result unit;
  subscribe : string -> sdk_result unit;
  get_stock_quote : string -> sdk_result (option Q);
  get_acc_list : sdk_result (list string);
  accinfo_query : string -> sdk_result (option AccountInfo);
  position_list_query : string -> sdk_result (list Position);
  unlock_trade : string -> sdk_result unit;
  place_order : PlaceOrderCall -> sdk_result (option string);
  order_list_query : string -> string -> sdk_result (option OrderRow)
}.

(** What [FutuTrader.__init__] adds to the base fields.  [quote_ctx] and
    [trade_ctx] record whether the context object is present;
    [placed_orders] is the trace of [place_order] calls sent to the
    gateway. *)
Record Futu : Type := mkFutu {
  gateway : Gateway;
  quote_ctx : bool;
  trade_ctx : bool;
  placed_orders : list PlaceOrderCall
}.

Definition FutuTrader : Type := Trader Futu.

(** [FutuTrader(config)] *)
Definition init (cfg : TradeConfig) (gw : Gateway) : FutuTrader :=
  mkTrader cfg false [] (mkFutu gw false false []).

Definition set_quote_ctx (b : bool) (f : Futu) : Futu :=
  mkFutu (gateway f) b (trade_ctx f) (placed_orders f).
Definition set_trade_ctx (b : bool) (f : Futu) : Futu :=
  mkFutu (gateway f) (quote_ctx f) b (placed_orders f).
Definition record_placed (c : PlaceOrderCall) (f : Futu) : Futu :=
  mkFutu (gateway f) (quote_ctx f) (trade_ctx f) (placed_orders f ++ [c])%list.

(** A call into the SDK inside a [try] block: a raise becomes an exception,
    an error code or data come back as a value. *)
Definition call {A} (answer : sdk_result A) : M FutuTrader (string + A) :=
  match answer with
  | SdkOk data => ret (inr data)
  | SdkErr text => ret (inl text)
  | SdkRaise detail => raise (BrokerError detail)
  end.

(** [connect] *)
Definition connect : M FutuTrader bool :=
  try_except
    (opened <- (fun t => call (open_quote_context (gateway (backend t))) t) ;;
     modify (fun t => set_backend (set_quote_ctx true (backend t)) t) ;;;
     subscribed <- (fun t => call (subscribe (gateway (backend t)) "HK.00700") t) ;;
     cfg <- gets config ;;
     (if dry_run cfg then ret tt
      else
        fun t =>
          match open_trade_context (gateway (backend t)) with
          | SdkRaise _ => (t, Ret tt)
          | _ => (set_backend (set_trade_ctx true (backend t)) t, Ret tt)
          end) ;;;
     modify (set_connected true) ;;;
     ret true)%py
    (fun _ => ret false).

Definition demo_account : AccountInfo :=
  {| account_id := "DEMO_ACCOUNT"; total_assets := 100000; cash := 50000;
     market_value := 50000; unrealized_pnl := 0; realized_pnl := 0;
     buying_power := 50000 |}.

(** The account row of the live branch of [get_account_info]. *)
Definition live_account_info (cfg : TradeConfig) (gw : Gateway) : option AccountInfo :=
  match get_acc_list gw with
  | SdkOk acc_list =>
      let account_id :=
        if truthy_str (trading_account cfg) then trading_account cfg
        else match acc_list with
             | first :: _ => Some first
             | [] => trading_account cfg
             end in
      match account_id with
      | Some acc =>
          if negb (truthy_str account_id) then None
          else
            match accinfo_query gw acc with
            | SdkOk (Some info) =>
                Some {| account_id := acc; total_assets := total_assets info;
                        cash := cash info; market_value := market_value info;
                        unrealized_pnl := unrealized_pnl info;
                        realized_pnl := realized_pnl info;
                        buying_power := buying_power info |}
            | _ => None
            end
      | None => None
      end
  | _ => None
  end.

(** [get_account_info]: it reads the trader and the gateway and changes
    neither; every exception is turned into [None]. *)
Definition current_account_info (t : FutuTrader) : option AccountInfo :=
  if negb (is_connected t) then None
  else if dry_run (config t) then Some demo_account
  else if trade_ctx (backend t)
       then live_account_info (config t) (gateway (backend t))
       else Some demo_account.

Definition get_account_info : M FutuTrader (option AccountInfo) :=
  gets current_account_info.

(** The live branch of [get_positions]. *)
Definition live_positions (cfg : TradeConfig) (gw : Gateway) : list Position :=
  let account_id :=
    if truthy_str (trading_account cfg) then trading_account cfg
    else match get_acc_list gw with
         | SdkOk (first :: _) => Some first
         | _ => None
         end in
  match account_id with
  | Some acc =>
      match position_list_query gw acc with
      | SdkOk rows => rows
      | _ => []
      end
  | None => []
  end.

(** [get_positions] *)
Definition current_positions (t : FutuTrader) : list Position :=
  if negb (is_connected t) then []
  else if dry_run (config t) then []
  else if trade_ctx (backend t)
       then live_positions (config t) (gateway (backend t))
       else [].

Definition get_positions : M FutuTrader (list Position) :=
  gets current_positions.

(** [_convert_to_futu_symbol] *)
Definition _convert_to_futu_symbol (sym : string) : string :=
  if isdigit sym && (String.length sym =? 5)%nat then "HK." ++ sym
  else if isdigit sym && (String.length sym =? 6)%nat then
    match sym with
    | String "6"%char _ => "SH." ++ sym
    | _ => "SZ." ++ sym
    end
  else "US." ++ sym.

(** [get_market_price] *)
Definition quoted_price (sym : string) (t : FutuTrader) : option Q :=
  if negb (is_connected t) || negb (quote_ctx (backend t)) then None
  else
    let gw := gateway (backend t) in
    let futu_symbol := _convert_to_futu_symbol sym in
    match subscribe gw futu_symbol with
    | SdkRaise _ => None
    | _ =>
        match get_stock_quote gw futu_symbol with
        | SdkOk (Some last_price) => Some last_price
        | _ => None
        end
    end.

Definition get_market_price (sym : string) : M FutuTrader (option Q) :=
  gets (quoted_price sym).

#[export] Instance futu_queries : Queries Futu :=
  {| BaseTrader.get_account_info := get_account_info;
     BaseTrader.get_positions := get_positions;
     BaseTrader.get_market_price := get_market_price |}.

(** A result with nothing filled. *)
Definition unfilled (order : TradeOrder) (order_id : string) (submit_time : Z)
    (st : OrderStatus) (msg : option ErrorMsg) : TradeResult :=
  {| order_id := order_id; r_symbol := symbol order; r_side := side order;
     r_quantity := quantity order; filled_quantity := 0%Z; avg_price := None;
     status := st; submit_time := submit_time; update_time := None;
     error_msg := msg; commission := Some 0 |}.

Definition slippage : Q := 1 # 1000.

(** The fill price of a simulated order. *)
Definition fill_price (s : TradeSide) (market_price : Q) : Q :=
  match s with
  | BUY => market_price * (1 + slippage)
  | SELL => market_price * (1 - slippage)
  end.

(** [_simulate_order].  The log line between the computation of the
    commission and the construction of the result formats
    [order.side.value]; it stands inside the [try] block. *)
Definition _simulate_order (order : TradeOrder) (order_id : string)
    (submit_time : Z) : M FutuTrader TradeResult :=
  try_except
    (market_price <- get_market_price (symbol order) ;;
     match market_price with
     | Some mp =>
         if truthy (Some mp) then
           let fill := fill_price (side order) mp in
           let commission := Qmax 1 (inject_Z (quantity order) * fill * (1 # 1000)) in
           side_value <- of_result (enum_field_value (side order)) ;;
           now <- gets (fun t => clock (gateway (backend t))) ;;
           ret {| order_id := order_id; r_symbol := symbol order;
                  r_side := side order; r_quantity := quantity order;
                  filled_quantity := quantity order;
                  avg_price := Some fill;
                  status := FILLED; submit_time := submit_time;
                  update_time := Some now; error_msg := None;
                  commission := Some commission |}
         else ret (unfilled order order_id submit_time FAILED
                     (Some NoMarketPriceForSimulation))
     | None => ret (unfilled order order_id submit_time FAILED
                      (Some NoMarketPriceForSimulation))
     end)%py
    (fun e => ret (unfilled order order_id submit_time FAILED
                     (Some (ExceptionText (str_of_exc e))))).

(** The status mapping of the live branch. *)
Definition map_status (futu_status : string) : OrderStatus :=
  if String.eqb futu_status "FILLED_ALL" then FILLED
  else if String.eqb futu_status "FILLED_PART" then PARTIALLY_FILLED
  else if String.eqb futu_status "CANCELLED_ALL"
          || String.eqb futu_status "CANCELLED_PART" then CANCELLED
  else if String.eqb futu_status "FAILED"
          || String.eqb futu_status "DISABLED" then FAILED
  else SUBMITTED.

(** The body of the [try] block of [submit_order]: the real trade. *)
Definition place_real_order (order : TradeOrder) (order_id : string)
    (submit_time : Z) : M FutuTrader TradeResult :=
  (t <- get ;;
   let cfg := config t in
   let gw := gateway (backend t) in
   if negb (trade_ctx (backend t)) then
     ret (unfilled order order_id submit_time FAILED (Some TradeContextNotAvailable))
   else
     account_id <-
       (if truthy_str (trading_account cfg) then ret (trading_account cfg)
        else
          listed <- call (get_acc_list gw) ;;
          match listed with
          | inr (first :: _) => ret (Some first)
          | _ => ret None
          end) ;;
     match account_id with
     | None =>
         ret (unfilled order order_id submit_time REJECTED (Some NoTradingAccount))
     | Some acc =>
         unlocked <-
           (match trading_pwd cfg with
            | Some pwd =>
                if truthy_str (Some pwd) then
                  answer <- call (unlock_trade gw pwd) ;;
                  match answer with
                  | inr _ => ret true
                  | inl _ => ret false
                  end
                else ret true
            | None => ret true
            end) ;;
         if negb unlocked then
           ret (unfilled order order_id submit_time REJECTED (Some UnlockFailed))
         else
           let request :=
             {| po_price := or_else (price order) 0;
                po_qty := quantity order;
                po_code := _convert_to_futu_symbol (symbol order);
                po_side := side order;
                po_order_type := order_type order;
                po_acc_id := acc |} in
           modify (fun t => set_backend (record_placed request (backend t)) t) ;;;
           placed <- call (place_order gw request) ;;
           match placed with
           | inl data =>
               ret (unfilled order order_id submit_time REJECTED
                      (Some (OrderSubmissionFailed data)))
           | inr None =>
               ret (unfilled order order_id submit_time SUBMITTED None)
           | inr (Some futu_order_id) =>
               queried <- call (order_list_query gw futu_order_id acc) ;;
               match queried with
               | inr (Some row) =>
                   ret {| order_id := futu_order_id; r_symbol := symbol order;
                          r_side := side order; r_quantity := quantity order;
                          filled_quantity := dealt_qty row;
                          avg_price := if Qltb 0 (dealt_avg_price row)
                                       then Some (dealt_avg_price row) else None;
                          status := map_status (row_order_status row);
                          submit_time := submit_time;
                          update_time := Some (clock gw);
                          error_msg := None; commission := Some 0 |}
               | _ => ret (unfilled order order_id submit_time SUBMITTED None)
               end
           end
     end)%py.

(** [submit_order].  The validation is awaited before the [try] block, so
    what it raises leaves the method. *)
Definition submit_order (order : TradeOrder) : M FutuTrader TradeResult :=
  (t0 <- get ;;
   let order_id := uuid4 (gateway (backend t0)) in
   let submit_time := clock (gateway (backend t0)) in
   verdict <- validate_trade order ;;
   let '(is_valid, msg) := verdict in
   if negb is_valid then
     ret (unfilled order order_id submit_time REJECTED (Some msg))
   else
     cfg <- gets config ;;
     if dry_run cfg then _simulate_order order order_id submit_time
     else
       try_except (place_real_order order order_id submit_time)
         (fun e => ret (unfilled order order_id submit_time FAILED
                          (Some (ExceptionText (str_of_exc e))))))%py.

#[export] Instance futu_submission : Submission Futu :=
  {| BaseTrader.submit_order := submit_order |}.

(** The result [submit_order] builds for an order it could not fill. *)
Definition refusal (t : FutuTrader) (order : TradeOrder) (st : OrderStatus)
    (msg : ErrorMsg) : TradeResult :=
  unfilled order (uuid4 (gateway (backend t))) (clock (gateway (backend t)))
    st (Some msg).

(** The text of the exception raised by reading [.value] on a [str]. *)
Definition no_value_attribute : string := str_of_exc (AttributeError "value").


End FutuTrader.

(** ** [live_executor.py] *)

Module LiveExecutor.

Import BaseTrader.
Local Open Scope Q_scope.

(** Modelled from the spec: the enumeration [Action] of
    [backtesting/types.py] is not among the sources; its members are the
    five actions the spec lists (buy, sell, short, cover, hold), each with
    the lower-case action string as value. *)
Inductive Action : Type :=
| ActBuy | ActSell | ActShort | ActCover | ActHold.

(** [Action(action)]: raises [ValueError] on any other string. *)
Definition Action_of (action : string) : result Action :=
  if String.eqb action "buy" then Ret ActBuy
  else if String.eqb action "sell" then Ret ActSell
  else if String.eqb action "short" then Ret ActShort
  else if String.eqb action "cover" then Ret ActCover
  else if String.eqb action "hold" then Ret ActHold
  else Raise (ValueError ("'" ++ action ++ "' is not a valid Action")).

(** The four mutators of the [Portfolio] class of
    [backtesting/portfolio.py], which is not among the sources: they are an
    interface here.  Each takes [(ticker, quantity, price)], mutates the
    portfolio and may raise. *)
Class PortfolioOps (P : Type) : Type := {
  apply_long_buy : string -> Z -> Q -> M P Z;
  apply_long_sell : string -> Z -> Q -> M P Z;
  apply_short_open : string -> Z -> Q -> M P Z;
  apply_short_cover : string -> Z -> Q -> M P Z
}.

(** An entry of [failed_trades]; [ft_error] is absent from the entries
    written outside the exception handler. *)
Record FailedTrade : Type := mkFailedTrade {
  ft_timestamp : Z;
  ft_ticker : string;
  ft_action : string;
  ft_requested_qty : Q;
  ft_executed_qty : Z;
  ft_price : Q;
  ft_error : option string
}.

Record LiveTradeExecutor (B : Type) : Type := mkExecutor {
  trader : Trader B;
  sync_portfolio : bool;
  execution_history : list TradeResult;
  failed_trades : list FailedTrade;
  total_trades : Z;
  successful_trades : Z
}.
Arguments mkExecutor {B}.
Arguments trader {B}.
Arguments sync_portfolio {B}.
Arguments execution_history {B}.
Arguments failed_trades {B}.
Arguments total_trades {B}.
Arguments successful_trades {B}.

(** [LiveTradeExecutor(trader, sync_portfolio)] *)
Definition init {B} (t : Trader B) (sync : bool) : LiveTradeExecutor B :=
  mkExecutor t sync [] [] 0%Z 0%Z.

(** [create_live_executor] *)
Definition create_live_executor (cfg : TradeConfig) (gw : FutuTrader.Gateway)
    : LiveTradeExecutor FutuTrader.Futu :=
  init (FutuTrader.init cfg gw) true.

Section Methods.
Context {B P : Type}.

(** The objects a trade touches: the executor and the portfolio passed
    to it. *)
Definition Store : Type := LiveTradeExecutor B * P.

Definition on_trader {A} (m : M (Trader B) A) : M Store A :=
  fun '(ex, pf) =>
    let '(t', r) := m (trader ex) in
    ((mkExecutor t' (sync_portfolio ex) (execution_history ex)
        (failed_trades ex) (total_trades ex) (successful_trades ex), pf), r).

Definition on_portfolio {A} (m : M P A) : M Store A :=
  fun '(ex, pf) => let '(pf', r) := m pf in ((ex, pf'), r).

Definition count_trade : M Store unit :=
  modify (fun '(ex, pf) =>
    (mkExecutor (trader ex) (sync_portfolio ex) (execution_history ex)
       (failed_trades ex) (total_trades ex + 1)%Z (successful_trades ex), pf)).

Definition count_success : M Store unit :=
  modify (fun '(ex, pf) =>
    (mkExecutor (trader ex) (sync_portfolio ex) (execution_history ex)
       (failed_trades ex) (total_trades ex) (successful_trades ex + 1)%Z, pf)).

Definition log_failed (entry : FailedTrade) : M Store unit :=
  modify (fun '(ex, pf) =>
    (mkExecutor (trader ex) (sync_portfolio ex) (execution_history ex)
       (failed_trades ex ++ [entry])%list (total_trades ex)
       (successful_trades ex), pf)).

(** [_update_local_portfolio] *)
Definition _update_local_portfolio `{PortfolioOps P} (ticker action : string)
    (quantity : Z) (price : Q) : M P unit :=
  try_except
    (match Action_of action with
     | Raise e => raise e
     | Ret ActBuy => apply_long_buy ticker quantity price ;;; ret tt
     | Ret ActSell => apply_long_sell ticker quantity price ;;; ret tt
     | Ret ActShort => apply_short_open ticker quantity price ;;; ret tt
     | Ret ActCover => apply_short_cover ticker quantity price ;;; ret tt
     | Ret ActHold => ret tt
     end)%py
    (fun _ => ret tt).

(** [execute_trade_async]; [now] is the reading of [datetime.now()]. *)
Definition execute_trade_async `{Execution B} `{PortfolioOps P} (now : Z)
    (ticker action : string) (quantity : option Q) (current_price : Q)
    : M Store Z :=
  match quantity with
  | None => ret 0%Z
  | Some requested =>
      if Qleb requested 0 then ret 0%Z
      else if String.eqb action "hold" then ret 0%Z
      else
        (count_trade ;;;
         try_except
           (executed_qty <-
              on_trader (trader_execute_trade ticker action (int requested)
                           (Some current_price)) ;;
            if (0 <? executed_qty)%Z then
              count_success ;;;
              on_portfolio
                (_update_local_portfolio ticker action executed_qty current_price) ;;;
              ret executed_qty
            else
              log_failed {| ft_timestamp := now; ft_ticker := ticker;
                            ft_action := action; ft_requested_qty := requested;
                            ft_executed_qty := executed_qty;
                            ft_price := current_price; ft_error := None |} ;;;
              ret executed_qty)
           (fun e =>
              log_failed {| ft_timestamp := now; ft_ticker := ticker;
                            ft_action := action; ft_requested_qty := requested;
                            ft_executed_qty := 0%Z;
                            ft_price := current_price;
                            ft_error := Some (str_of_exc e) |} ;;;
              ret 0%Z))%py
  end.

(** The entry [execute_trade_async] appends to [failed_trades]. *)
Definition failure_entry (now : Z) (ticker action : string) (requested : Q)
    (executed : Z) (price : Q) (error : option string) : FailedTrade :=
  {| ft_timestamp := now; ft_ticker := ticker; ft_action := action;
     ft_requested_qty := requested; ft_executed_qty := executed;
     ft_price := price; ft_error := error |}.

(** The portfolio mutator that belongs to an action string. *)
Definition mutator `{PortfolioOps P} (action : string)
    : option (string -> Z -> Q -> M P Z) :=
  if String.eqb action "buy" then Some apply_long_buy
  else if String.eqb action "sell" then Some apply_long_sell
  else if String.eqb action "short" then Some apply_short_open
  else if String.eqb action "cover" then Some apply_short_cover
  else None.

End Methods.

(** The part of [get_execution_report] that concerns the trade counters
    and the failure log. *)
Record ExecutionReport : Type := mkReport {
  rep_total_trades : Z;
  rep_successful_trades : Z;
  rep_failed_trades : nat;
  rep_success_rate : Q;
  rep_recent_failures : list FailedTrade
}.

Definition get_execution_report {B} (ex : LiveTradeExecutor B) : ExecutionReport :=
  {| rep_total_trades := total_trades ex;
     rep_successful_trades := successful_trades ex;
     rep_failed_trades := List.length (failed_trades ex);
     rep_success_rate :=
       inject_Z (successful_trades ex) / inject_Z (Z.max 1 (total_trades ex));
     rep_recent_failures := last_n 10 (failed_trades ex) |}.

End LiveExecutor.

(** ** The trade loop of [live_main.py] *)

Module LiveMain.

Import BaseTrader LiveExecutor.
Local Open Scope Q_scope.

(** An entry of [execution_results]. *)
Inductive Outcome : Type :=
| OutFailed (reason : string)
| OutExecuted (quantity : Z) (price value : Q)
| OutError (reason : string).

(** The objects alive during the loop of [run_live_hedge_fund]. *)
Record Session (B P : Type) : Type := mkSession {
  executor : LiveTradeExecutor B;
  portfolio_obj : P;
  risk_manager : RiskControls.RiskManager;
  execution_results : list (string * Outcome);
  total_executed_value : Q;
  successful_trades : Z
}.
Arguments mkSession {B P}.
Arguments executor {B P}.
Arguments portfolio_obj {B P}.
Arguments risk_manager {B P}.
Arguments execution_results {B P}.
Arguments total_executed_value {B P}.
Arguments successful_trades {B P}.

Section Loop.
Context {B P : Type} `{Queries B} `{Submission B} `{PortfolioOps P}.

(** [execution_results[ticker] = outcome] *)
Fixpoint set_result (ticker : string) (o : Outcome)
    (rs : list (string * Outcome)) : list (string * Outcome) :=
  match rs with
  | [] => [(ticker, o)]
  | (k, v) :: rest =>
      if String.eqb k ticker then (k, o) :: rest
      else (k, v) :: set_result ticker o rest
  end.

(** The [try] block of the loop body, on the executor and portfolio. *)
Definition attempt (now : Z) (ticker action : string) (quantity : Q)
    : M (@Store B P) (option (Z * Q)) :=
  (current_price <- on_trader (get_market_price ticker) ;;
   match current_price with
   | Some cp =>
       if truthy (Some cp) then
         executed_qty <- execute_trade_async now ticker action (Some quantity) cp ;;
         ret (Some (executed_qty, cp))
       else ret None
   | None => ret None
   end)%py.

(** One iteration of [for ticker, decision in decisions.items()]. *)
Definition process_decision (now : Z) (ticker action : string) (quantity : Q)
    (s : Session B P) : Session B P :=
  if String.eqb action "hold" || Qleb quantity 0 then s
  else
    let '((ex, pf), r) := attempt now ticker action quantity
                            (executor s, portfolio_obj s) in
    let rebuild (o : Outcome) (value : Q) (wins : Z) :=
      mkSession ex pf (risk_manager s)
        (set_result ticker o (execution_results s))
        (total_executed_value s + value) (successful_trades s + wins)%Z in
    match r with
    | Raise e => rebuild (OutError (str_of_exc e)) 0 0%Z
    | Ret None => rebuild (OutFailed "No market price") 0 0%Z
    | Ret (Some (executed_qty, cp)) =>
        if (0 <? executed_qty)%Z then
          let executed_value := inject_Z executed_qty * cp in
          rebuild (OutExecuted executed_qty cp executed_value) executed_value 1%Z
        else rebuild (OutFailed "Execution failed") 0 0%Z
    end.

(** The whole loop over the decisions, in order. *)
Fixpoint process_decisions (now : Z) (decisions : list (string * (string * Q)))
    (s : Session B P) : Session B P :=
  match decisions with
  | [] => s
  | (ticker, (action, quantity)) :: rest =>
      process_decisions now rest (process_decision now ticker action quantity s)
  end.

End Loop.

End LiveMain.

(** ** Concrete objects for the scenarios *)

Module Scenario.

Import BaseTrader LiveExecutor.
Local Open Scope Q_scope.

(** [TradeConfig()] with the defaults of [types.py]. *)
Definition default_config : TradeConfig :=
  {| futu_host := "127.0.0.1"; futu_port := 11111;
     trading_account := None; trading_pwd := None;
     cfg_max_position_size := 10000; max_daily_trades := 100;
     max_order_value := 50000; dry_run := true;
     enable_short_selling := false; default_market := HK;
     log_trades := true; log_level := "INFO" |}.

(** The same configuration with [dry_run=False] and an account name. *)
Definition live_config : TradeConfig :=
  {| futu_host := "127.0.0.1"; futu_port := 11111;
     trading_account := Some "ACC1"; trading_pwd := None;
     cfg_max_position_size := 10000; max_daily_trades := 100;
     max_order_value := 50000; dry_run := false;
     enable_short_selling := false; default_market := HK;
     log_trades := true; log_level := "INFO" |}.

(** A gateway that answers every quote with [quote], holds the positions
    [held] and would fill any order it is sent. *)
Definition gateway_with (quote : option Q) (held : list Position)
    : FutuTrader.Gateway :=
  {| FutuTrader.clock := 1700000000;
     FutuTrader.uuid4 := "0b0e7a52-order";
     FutuTrader.open_quote_context := FutuTrader.SdkOk tt;
     FutuTrader.open_trade_context := FutuTrader.SdkOk tt;
     FutuTrader.subscribe := fun _ => FutuTrader.SdkOk tt;
     FutuTrader.get_stock_quote := fun _ => FutuTrader.SdkOk quote;
     FutuTrader.get_acc_list := FutuTrader.SdkOk ["ACC1"];
     FutuTrader.accinfo_query := fun _ => FutuTrader.SdkOk (Some FutuTrader.demo_account);
     FutuTrader.position_list_query := fun _ => FutuTrader.SdkOk held;
     FutuTrader.unlock_trade := fun _ => FutuTrader.SdkOk tt;
     FutuTrader.place_order := fun _ => FutuTrader.SdkOk (Some "F-1");
     FutuTrader.order_list_query := fun _ _ =>
       FutuTrader.SdkOk (Some (FutuTrader.mkOrderRow 100 150 "FILLED_ALL")) |}.

(** A portfolio double that keeps the list of mutator calls it received. *)
Inductive PortfolioCall : Type :=
| LongBuy (ticker : string) (quantity : Z) (price : Q)
| LongSell (ticker : string) (quantity : Z) (price : Q)
| ShortOpen (ticker : string) (quantity : Z) (price : Q)
| ShortCover (ticker : string) (quantity : Z) (price : Q).

Definition CallLog : Type := list PortfolioCall.

#[export] Instance call_log_ops : PortfolioOps CallLog :=
  {| apply_long_buy := fun t q p log => ((log ++ [LongBuy t q p])%list, Ret q);
     apply_long_sell := fun t q p log => ((log ++ [LongSell t q p])%list, Ret q);
     apply_short_open := fun t q p log => ((log ++ [ShortOpen t q p])%list, Ret q);
     apply_short_cover := fun t q p log => ((log ++ [ShortCover t q p])%list, Ret q) |}.

(** A connected executor over the gateway above: [create_live_executor]
    followed by [connect]. *)
Definition connected_executor (cfg : TradeConfig) (gw : FutuTrader.Gateway)
    : LiveTradeExecutor FutuTrader.Futu :=
  let ex := create_live_executor cfg gw in
  mkExecutor (fst (FutuTrader.connect (trader ex))) (sync_portfolio ex)
    (execution_history ex) (failed_trades ex) (total_trades ex)
    (successful_trades ex).

(** The session of [run_live_hedge_fund] after its set-up, with the
    risk configuration of [main]. *)
Definition main_risk_config : list (string * Q) :=
  [("max_portfolio_value", 50000); ("max_daily_loss", 2000);
   ("max_position_concentration", 15 # 100); ("max_sector_concentration", 25 # 100);
   ("max_daily_trades", 20); ("max_leverage", 15 # 10); ("max_drawdown", 10 # 100)].

Definition session (cfg : TradeConfig) (gw : FutuTrader.Gateway)
    : LiveMain.Session FutuTrader.Futu CallLog :=
  LiveMain.mkSession (connected_executor cfg gw) []
    (RiskControls.init main_risk_config (FutuTrader.clock gw)) [] 0 0%Z.

Definition aapl_position (held : Z) : Position :=
  {| p_symbol := "AAPL"; p_quantity := held; p_avg_cost := 100;
     p_market_value := inject_Z held * 150; p_unrealized_pnl := 0;
     p_market_price := 150 |}.

Definition market_order (sym : string) (s : TradeSide) (qty : Z) (p : option Q)
    : TradeOrder :=
  {| symbol := sym; side := s; quantity := qty; order_type := MARKET;
     price := p; stop_price := None; market := US; time_in_force := "DAY" |}.

(** A risk manager built with the default limits. *)
Definition default_risk_manager : RiskControls.RiskManager :=
  RiskControls.init [] 1700000000.

(** An account object (not a dictionary) with the two attributes the risk
    checks read. *)
Definition account_object : AccountArg :=
  AccountObject [("cash", 50000); ("net_liquidation", 100000)].

(** A stand-in for a trader that fills orders: a subclass of [BaseTrader]
    whose [execute_trade] is overridden to book every order as filled in
    full at [paper_fill_price] and to return the quantity.  It is an input
    for statements about the executor alone; it is not a class of the
    package. *)
Record Paper : Type := mkPaper { paper_fill_price : Q }.

Definition paper_result (ticker action : string) (quantity : Z) (fill : Q)
    : TradeResult :=
  {| order_id := "paper"; r_symbol := ticker;
     r_side := if String.eqb action "sell" || String.eqb action "short"
               then SELL else BUY;
     r_quantity := quantity; filled_quantity := quantity;
     avg_price := Some fill; status := FILLED; submit_time := 1700000000%Z;
     update_time := Some 1700000000%Z; error_msg := None; commission := Some 0 |}.

#[export] Instance paper_execution : Execution Paper :=
  {| trader_execute_trade := fun ticker action quantity _ =>
       (t <- get ;;
        modify (append_trade
                  (paper_result ticker action quantity
                     (paper_fill_price (backend t)))) ;;;
        ret quantity)%py |}.

Definition paper_executor (fill : Q) : LiveTradeExecutor Paper :=
  LiveExecutor.init (mkTrader default_config true [] (mkPaper fill)) true.

End Scenario.

(** ** Sequences of calls on a risk manager *)

Module RiskTrace.

Import RiskControls.

(** The calls a client can make on a [RiskManager], apart from the manual
    [reset_circuit_breaker]. *)
Inductive Call : Type :=
| CallValidate (order : TradeOrder) (account_info : AccountArg)
    (positions : list Position) (now : Z)
| CallRecordTrade (order : TradeOrder) (executed_qty : Z)
    (execution_price : Q) (now : Z)
| CallUpdatePnl (pnl_change : Q).

Definition run_call (c : Call) (rm : RiskManager) : RiskManager :=
  match c with
  | CallValidate order account_info positions now =>
      fst (validate_order order account_info positions now rm)
  | CallRecordTrade order executed_qty execution_price now =>
      record_trade order executed_qty execution_price now rm
  | CallUpdatePnl pnl_change => update_pnl pnl_change rm
  end.

Definition run_calls (calls : list Call) (rm : RiskManager) : RiskManager :=
  fold_left (fun acc c => run_call c acc) calls rm.

(** The call does not cross into a day after [day]. *)
Definition within_day (day : Z) (c : Call) : Prop :=
  match c with
  | CallValidate _ _ _ now => (date now <= day)%Z
  | _ => True
  end.

End RiskTrace.

(** ** [risk_controls.py]: the [RiskLimit] dataclass and the summary *)

Module RiskLimit.

Import RiskControls.
Local Open Scope Q_scope.

Record RiskLimit : Type := mkRiskLimit {
  name : string;
  max_value : Q;
  current_value : Q;
  warning_threshold : Q;
  enabled : bool
}.

(** [RiskLimit(name, max_value)] with the dataclass defaults. *)
Definition make (n : string) (max : Q) : RiskLimit :=
  {| name := n; max_value := max; current_value := 0;
     warning_threshold := 8 # 10; enabled := true |}.

(** [check_limit] *)
Definition check_limit (l : RiskLimit) (additional_value : Q) : Check :=
  if negb (enabled l) then (true, LOW, "Risk control disabled")
  else
    let total_value := current_value l + additional_value in
    let utilization :=
      if Qltb 0 (max_value l) then total_value / max_value l else 0 in
    if Qleb 1 utilization then
      (false, CRITICAL,
       name l ++ " limit exceeded: " ++ format_f 2 total_value
         ++ " >= " ++ format_f 2 (max_value l))
    else if Qleb (warning_threshold l) utilization then
      (true, HIGH,
       name l ++ " approaching limit: " ++ format_pct 1 utilization ++ " used")
    else if Qleb (5 # 10) utilization then
      (true, MEDIUM,
       name l ++ " moderate usage: " ++ format_pct 1 utilization ++ " used")
    else
      (true, LOW,
       name l ++ " within limits: " ++ format_pct 1 utilization ++ " used").

(** [update_current] *)
Definition update_current (value : Q) (l : RiskLimit) : RiskLimit :=
  {| name := name l; max_value := max_value l; current_value := value;
     warning_threshold := warning_threshold l; enabled := enabled l |}.

End RiskLimit.

Module RiskSummary.

Import RiskControls.
Local Open Scope Q_scope.

(** An entry of the ["circuit_breakers"] list. *)
Record BreakerInfo : Type := mkBreakerInfo {
  b_type : string;
  b_active : bool;
  b_threshold : Q;
  b_current_value : Q
}.

(** The ["current_session"] dictionary; [start_time] is the day of the last
    reset. *)
Record SessionInfo : Type := mkSessionInfo {
  trades_count : Z;
  total_volume : Q;
  pnl : Q;
  start_time : Z
}.

(** The dictionary [get_risk_summary] returns, one field per key. *)
Record Summary : Type := mkSummary {
  s_circuit_breaker_active : bool;
  emergency_stop : bool;
  circuit_breakers : list BreakerInfo;
  current_session : SessionInfo;
  s_daily_pnl : Q;
  s_daily_trades : Z;
  s_limits : Limits;
  recent_risk_events : list RiskEvent;
  s_last_reset : Z
}.

(** The keys of that dictionary. *)
Definition summary_keys : list string :=
  ["circuit_breaker_active"; "emergency_stop"; "circuit_breakers";
   "current_session"; "daily_pnl"; "daily_trades"; "limits";
   "recent_risk_events"; "last_reset"].

(** The loop over [trade_history]; every record written by [record_trade]
    has both keys. *)
Definition volume_of (history : list TradeRecord) : Q :=
  fold_left (fun total trade => total + inject_Z (tr_quantity trade) * tr_price trade)
    history 0.

(** [get_risk_summary] *)
Definition get_risk_summary (rm : RiskManager) : Summary :=
  {| s_circuit_breaker_active := circuit_breaker_active rm;
     emergency_stop := circuit_breaker_active rm;
     circuit_breakers :=
       if circuit_breaker_active rm then
         [ {| b_type := "daily_loss";
              b_active := circuit_breaker_active rm;
              b_threshold := max_daily_loss (limits rm);
              b_current_value :=
                if Qltb (daily_pnl rm) 0 then Qabs (daily_pnl rm) else 0 |} ]
       else [];
     current_session :=
       {| trades_count := daily_trades rm;
          total_volume := volume_of (trade_history rm);
          pnl := daily_pnl rm;
          start_time := last_reset rm |};
     s_daily_pnl := daily_pnl rm;
     s_daily_trades := daily_trades rm;
     s_limits := limits rm;
     recent_risk_events := last_n 10 (risk_events rm);
     s_last_reset := last_reset rm |}.

(** The rank of a level in the order LOW < MEDIUM < HIGH < CRITICAL. *)
Definition severity (l : RiskLevel) : nat :=
  match l with LOW => 0 | MEDIUM => 1 | HIGH => 2 | CRITICAL => 3 end%nat.

(** The position value [_check_position_size] compares with the limit. *)
Definition estimated_position_value (order : TradeOrder) : Q :=
  if truthy (price order)
  then inject_Z (quantity order) * or_else (price order) 0
  else inject_Z (quantity order) * 100.

(** [n] consecutive [record_trade] calls with the same arguments. *)
Fixpoint record_trades (n : nat) (order : TradeOrder) (executed_qty : Z)
    (execution_price : Q) (now : Z) (rm : RiskManager) : RiskManager :=
  match n with
  | O => rm
  | S k => record_trades k order executed_qty execution_price now
             (record_trade order executed_qty execution_price now rm)
  end.

(** A sequence of [update_pnl] calls. *)
Definition update_pnls (changes : list Q) (rm : RiskManager) : RiskManager :=
  fold_left (fun acc change => update_pnl change acc) changes rm.

(** The running P&L after the changes, starting from [start]. *)
Definition running_pnl (start : Q) (changes : list Q) : Q :=
  fold_left Qplus changes start.

(** The checks of a list that did not pass. *)
Definition failing (checks : list Check) : list Check :=
  filter (fun c => negb (fst (fst c))) checks.

End RiskSummary.

(** ** [base_trader.py]: the trade summary *)

Module TradeSummary.

Import BaseTrader.
Local Open Scope Q_scope.

(** [x in [..]] on strings. *)
Definition str_in (x : string) (xs : list string) : bool :=
  existsb (String.eqb x) xs.

(** The dictionary of [get_trade_summary]; [success_rate] is absent when no
    trade was made. *)
Record Summary : Type := mkSummary {
  total_trades : nat;
  successful_trades : nat;
  failed_trades : nat;
  success_rate : option Q
}.

(** [len([t for t in history if t.status.value in names])]: the
    comprehension reads [t.status.value] for each result in turn. *)
Fixpoint count_status_in (names : list string) (history : list TradeResult)
    : result nat :=
  match history with
  | [] => Ret 0%nat
  | t :: rest =>
      bind_result (enum_field_value (status t)) (fun status_value =>
      bind_result (count_status_in names rest) (fun counted =>
        Ret (if str_in status_value names then S counted else counted)))
  end.

(** The summary of a trader without trades. *)
Definition no_trades : Summary :=
  {| total_trades := 0; successful_trades := 0; failed_trades := 0;
     success_rate := None |}.

(** [get_trade_summary] *)
Definition get_trade_summary {B} (t : Trader B) : result Summary :=
  match trade_history t with
  | [] => Ret no_trades
  | _ :: _ =>
      bind_result (count_status_in ["FILLED"; "PARTIALLY_FILLED"] (trade_history t))
        (fun successful =>
      bind_result (count_status_in ["REJECTED"; "FAILED"; "CANCELLED"] (trade_history t))
        (fun failed =>
        Ret {| total_trades := List.length (trade_history t);
               successful_trades := successful;
               failed_trades := failed;
               success_rate :=
                 Some (inject_Z (Z.of_nat successful)
                       / inject_Z (Z.of_nat (List.length (trade_history t)))) |}))
  end.

End TradeSummary.

(** ** [live_executor.py]: session check, report totals, runs of trades *)

Module ExecutorSession.

Import BaseTrader LiveExecutor.
Local Open Scope Q_scope.

Definition with_trader {B A} (m : M (Trader B) A) : M (LiveTradeExecutor B) A :=
  fun ex =>
    let '(t', r) := m (trader ex) in
    (mkExecutor t' (sync_portfolio ex) (execution_history ex)
       (failed_trades ex) (total_trades ex) (successful_trades ex), r).

(** [validate_trading_session] *)
Definition validate_trading_session {B} `{Queries B}
    : M (LiveTradeExecutor B) (bool * string) :=
  try_except
    (connected <- gets (fun ex => is_connected (trader ex)) ;;
     if negb connected then ret (false, "Not connected to trading platform")
     else
       account_info <- with_trader get_account_info ;;
       match account_info with
       | None => ret (false, "Unable to get account information")
       | Some account =>
           if Qleb (buying_power account) 0
           then ret (false, "No buying power available")
           else ret (true, "Trading session is ready")
       end)%py
    (fun e => ret (false, "Validation error: " ++ str_of_exc e)).


(** The arguments of one [execute_trade_async] call. *)
Record TradeCall : Type := mkTradeCall {
  c_now : Z;
  c_ticker : string;
  c_action : string;
  c_quantity : option Q;
  c_price : Q
}.

(** A run of [execute_trade_async] calls on the same executor and portfolio. *)
Definition execute_all {B P} `{Submission B} `{PortfolioOps P}
    (calls : list TradeCall) (store : @Store B P) : @Store B P :=
  fold_left
    (fun st c =>
       fst (execute_trade_async (c_now c) (c_ticker c) (c_action c)
              (c_quantity c) (c_price c) st))
    calls store.


(** What [validate_trade] comes to on the Futu trader, whose queries only
    read: a verdict, or the exception of the [order.side.value] read that
    follows a successful account query in live mode. *)
Definition live_verdict (order : TradeOrder) (t : FutuTrader.FutuTrader)
    : result (bool * ErrorMsg) :=
  if negb (is_connected t) then Ret (false, NotConnected)
  else if dry_run (config t) then Ret (true, DryRunMode)
  else
    match FutuTrader.current_account_info t with
    | None => Ret (false, NoAccountInformation)
    | Some _ => Raise (AttributeError "value")
    end.

(** A result that answers an order. *)
Definition describes (order : TradeOrder) (r : TradeResult) : Prop :=
  r_quantity r = quantity order /\ r_symbol r = symbol order /\ r_side r = side order.

End ExecutorSession.

(** ** [validator.py]: configuration and risk sections, report *)

Module Validator.

Import RiskControls.
Local Open Scope Q_scope.

Record ValidationResult : Type := mkValidationResult {
  test_name : string;
  passed : bool;
  message : string;
  details : option (list (string * string));
  timestamp : Z
}.

(** [needle in text] on strings. *)
Fixpoint contains (needle text : string) : bool :=
  String.prefix needle text
  || match text with
     | EmptyString => false
     | String _ rest => contains needle rest
     end.

(** The field names of a [TradeConfig], for [hasattr]. *)
Definition TradeConfig_fields : list string :=
  ["futu_host"; "futu_port"; "trading_account"; "trading_pwd";
   "max_position_size"; "max_daily_trades"; "max_order_value"; "dry_run";
   "enable_short_selling"; "default_market"; "log_trades"; "log_level"].

Definition hasattr_config (field : string) : bool :=
  TradeSummary.str_in field TradeConfig_fields.

(** [repr] of a list of strings. *)
Definition repr_names (names : list string) : string :=
  "[" ++ join ", " (map (fun n => "'" ++ n ++ "'") names) ++ "]".

(** [_validate_configuration]; [results] is [self.results] before the call. *)
Definition _validate_configuration (now : Z) (cfg : TradeConfig)
    (results : list ValidationResult) : list ValidationResult :=
  let required_fields := ["futu_host"; "futu_port"; "dry_run"] in
  let missing_fields := filter (fun f => negb (hasattr_config f)) required_fields in
  let completeness :=
    match missing_fields with
    | _ :: _ =>
        mkValidationResult "Configuration Completeness" false
          ("Missing required fields: " ++ repr_names missing_fields) None now
    | [] =>
        mkValidationResult "Configuration Completeness" true
          "All required configuration fields present" None now
    end in
  let port :=
    if (futu_port cfg <=? 0)%Z || (65535 <? futu_port cfg)%Z then
      mkValidationResult "Port Configuration" false
        ("Invalid port number: " ++ str_of_int (futu_port cfg)) None now
    else
      mkValidationResult "Port Configuration" true
        ("Port configuration valid: " ++ str_of_int (futu_port cfg)) None now in
  let limits :=
    if Qleb (cfg_max_position_size cfg) 0 then
      mkValidationResult "Risk Limits" false "Invalid max_position_size" None now
    else
      mkValidationResult "Risk Limits" true "Risk limits configuration valid" None now in
  (results ++ [completeness; port; limits])%list.

(** The names an instance of [RiskManager] answers to: the attributes set
    by [__init__] and the methods of the class. *)
Definition RiskManager_attributes : list string :=
  ["config"; "logger"; "limits"; "daily_pnl"; "daily_trades"; "trade_history";
   "last_reset"; "risk_events"; "circuit_breaker_active";
   "_setup_logger"; "validate_order"; "_check_position_size";
   "_check_cash_reserve"; "_check_daily_loss"; "_check_trading_frequency";
   "_check_position_concentration"; "_check_daily_reset"; "record_trade";
   "update_pnl"; "_log_risk_event"; "get_risk_summary"; "reset_circuit_breaker"].

(** [risk_manager.<name>] *)
Definition RiskManager_getattr (name : string) : result unit :=
  if TradeSummary.str_in name RiskManager_attributes then Ret tt
  else Raise (AttributeError name).

(** The configuration [_validate_risk_controls] builds its manager from. *)
Definition validator_risk_config : list (string * Q) :=
  [("max_portfolio_value", 100000); ("max_daily_loss", 5000);
   ("max_position_concentration", 20 # 100); ("max_daily_trades", 50);
   ("max_leverage", 2); ("max_drawdown", 10 # 100)].

(** [_validate_risk_controls].  The second test looks up
    [risk_manager.validate_trade]; what the code does with the looked-up
    method is behind that lookup. *)
Definition _validate_risk_controls (now : Z) (results : list ValidationResult)
    : list ValidationResult :=
  let risk_manager := RiskControls.init validator_risk_config now in
  let risk_summary := RiskSummary.get_risk_summary risk_manager in
  let initialization :=
    if TradeSummary.str_in "risk_limits" RiskSummary.summary_keys then
      mkValidationResult "Risk Limits Initialization" true
        "Risk limits initialized successfully" None now
    else
      mkValidationResult "Risk Limits Initialization" false
        "Failed to initialize risk limits" None now in
  match RiskManager_getattr "validate_trade" with
  | Ret _ =>
      (results
         ++ [initialization;
             mkValidationResult "Trade Risk Validation" true
               "Risk validation completed" None now])%list
  | Raise e =>
      (results
         ++ [initialization;
             mkValidationResult "Risk Controls" false
               ("Risk control validation error: " ++ str_of_exc e) None now])%list
  end.

Definition rec_address : string :=
  "Address failed validation tests before proceeding with live trading".
Definition rec_connection : string := "Ensure Futu OpenD is running and accessible".
Definition rec_configuration : string := "Review and correct trading configuration".
Definition rec_risk : string := "Review risk control settings".
Definition rec_all_passed : string :=
  "All validations passed - system ready for trading".

(** [_generate_recommendations] *)
Definition _generate_recommendations (results : list ValidationResult) : list string :=
  let failed_tests := filter (fun r => negb (passed r)) results in
  let named (word : string) := existsb (fun r => contains word (test_name r)) failed_tests in
  ((match failed_tests with _ :: _ => [rec_address] | [] => [] end)
   ++ (if named "Connection" then [rec_connection] else [])
   ++ (if named "Configuration" then [rec_configuration] else [])
   ++ (if named "Risk" then [rec_risk] else [])
   ++ (match failed_tests with [] => [rec_all_passed] | _ :: _ => [] end))%list.

Record ReportSummary : Type := mkReportSummary {
  total_tests : nat;
  passed_tests : nat;
  failed_tests : nat;
  success_rate : Q;
  report_time : Z
}.

Record Report : Type := mkReport {
  summary : ReportSummary;
  results : list ValidationResult;
  recommendations : list string
}.

(** [_generate_report] *)
Definition _generate_report (now : Z) (rs : list ValidationResult) : Report :=
  let total := List.length rs in
  let passed_count := List.length (filter passed rs) in
  {| summary :=
       {| total_tests := total;
          passed_tests := passed_count;
          failed_tests := (total - passed_count)%nat;
          success_rate :=
            if (0 <? total)%nat
            then inject_Z (Z.of_nat passed_count) / inject_Z (Z.of_nat total)
            else 0;
          report_time := now |};
     results := rs;
     recommendations := _generate_recommendations rs |}.

End Validator.

(** ** More concrete objects *)

Module MoreScenarios.

Import BaseTrader LiveExecutor Scenario.
Local Open Scope Q_scope.

(** A run of three calls: a buy, a hold and a sell. *)
Definition three_calls : list ExecutorSession.TradeCall :=
  [ExecutorSession.mkTradeCall 1700000000 "AAPL" "buy" (Some 10) 150;
   ExecutorSession.mkTradeCall 1700000001 "MSFT" "hold" (Some 5) 300;
   ExecutorSession.mkTradeCall 1700000002 "AAPL" "sell" (Some 4) 151].

(** A risk manager whose daily loss is past the limit. *)
Definition losing_risk_manager : RiskControls.RiskManager :=
  RiskControls.update_pnl (- 10001) default_risk_manager.

End MoreScenarios.

(** * Properties *)

(** ** Arithmetic and formatting helpers *)

Section Helpers.

Local Open Scope Q_scope.

Lemma Qltb_lt (a b : Q) : Qltb a b = true <-> a < b.
Proof.
  unfold Qltb. rewrite negb_true_iff. split; intro Hab.
  - apply Qnot_le_lt. intro Hle. apply Qle_bool_iff in Hle. congruence.
  - destruct (Qle_bool b a) eqn:E; [|reflexivity].
    apply Qle_bool_iff in E. exfalso. apply (Qlt_not_le _ _ Hab E).
Qed.

Lemma Qltb_ge (a b : Q) : Qltb a b = false <-> b <= a.
Proof.
  unfold Qltb. rewrite negb_false_iff. apply Qle_bool_iff.
Qed.

Lemma Qleb_le (a b : Q) : Qleb a b = true <-> a <= b.
Proof. apply Qle_bool_iff. Qed.

Lemma Qleb_gt (a b : Q) : Qleb a b = false <-> b < a.
Proof.
  unfold Qleb. split; intro Hab.
  - apply Qnot_le_lt. intro Hle. apply Qle_bool_iff in Hle. congruence.
  - destruct (Qle_bool a b) eqn:E; [|reflexivity].
    apply Qle_bool_iff in E. exfalso. apply (Qlt_not_le _ _ Hab E).
Qed.

Lemma truthy_some (v : Q) : truthy (Some v) = true <-> ~ v == 0.
Proof.
  unfold truthy. rewrite negb_true_iff. split; intro Hv.
  - intro Heq. apply Qeq_bool_iff in Heq. congruence.
  - destruct (Qeq_bool v 0) eqn:E; [|reflexivity].
    apply Qeq_bool_iff in E. contradiction.
Qed.

End Helpers.

Example format_pct_sample : format_pct 1 (1 # 5) = "20.0%".
Proof. reflexivity. Qed.

Example format_f_sample : format_f 2 (-(1234567 # 1000)) = "-1234.57".
Proof. reflexivity. Qed.

Example format_f_ties_to_even : format_f 1 (25 # 100) = "0.2".
Proof. reflexivity. Qed.

(** ** The risk manager *)

Section RiskManagerProperties.

Import RiskControls RiskTrace.
Local Open Scope Q_scope.

Lemma daily_reset_same_day (now : Z) (rm : RiskManager) :
  (date now <= last_reset rm)%Z -> _check_daily_reset now rm = rm.
Proof.
  intro Hday. unfold _check_daily_reset.
  destruct (Z.ltb_spec (last_reset rm) (date now)); [lia | reflexivity].
Qed.

Lemma validate_order_halted order account_info positions now rm :
  circuit_breaker_active rm = true ->
  (date now <= last_reset rm)%Z ->
  validate_order order account_info positions now rm
  = (rm, Ret (false, "Circuit breaker active - trading halted", CRITICAL)).
Proof.
  intros Hcb Hday. unfold validate_order.
  rewrite daily_reset_same_day by assumption.
  unfold evaluate_order, bind, gets. rewrite Hcb. reflexivity.
Qed.

Lemma update_pnl_keeps_breaker delta rm :
  circuit_breaker_active rm = true ->
  circuit_breaker_active (update_pnl delta rm) = true.
Proof.
  intro Hcb. unfold update_pnl.
  destruct (Qltb _ _); simpl; [reflexivity | assumption].
Qed.

Lemma update_pnl_last_reset delta rm :
  last_reset (update_pnl delta rm) = last_reset rm.
Proof. unfold update_pnl. destruct (Qltb _ _); reflexivity. Qed.

Lemma update_pnl_daily_pnl delta rm :
  daily_pnl (update_pnl delta rm) = daily_pnl rm + delta.
Proof. unfold update_pnl. destruct (Qltb _ _); reflexivity. Qed.

Lemma update_pnl_limits delta rm :
  limits (update_pnl delta rm) = limits rm.
Proof. unfold update_pnl. destruct (Qltb _ _); reflexivity. Qed.

(** A halted manager stays halted, on the same day, under every call that
    is neither a manual reset nor a day rollover. *)
Lemma halted_invariant (c : Call) (rm : RiskManager) :
  circuit_breaker_active rm = true ->
  within_day (last_reset rm) c ->
  circuit_breaker_active (run_call c rm) = true
  /\ last_reset (run_call c rm) = last_reset rm.
Proof.
  intros Hcb Hday. destruct c as [o a ps now | o q p now | delta]; simpl in *.
  - rewrite validate_order_halted by assumption. simpl. auto.
  - auto.
  - split; [apply update_pnl_keeps_breaker; assumption
           | apply update_pnl_last_reset].
Qed.

Lemma halted_invariant_calls (calls : list Call) :
  forall rm,
    circuit_breaker_active rm = true ->
    Forall (within_day (last_reset rm)) calls ->
    circuit_breaker_active (run_calls calls rm) = true
    /\ last_reset (run_calls calls rm) = last_reset rm.
Proof.
  induction calls as [|c calls IH]; intros rm Hcb Hall; simpl.
  - auto.
  - inversion Hall as [|c' calls' Hc Hrest]; subst.
    destruct (halted_invariant c rm Hcb Hc) as [Hcb' Hday'].
    unfold run_calls in *. simpl.
    destruct (IH (run_call c rm) Hcb') as [H1 H2].
    + rewrite Hday'. assumption.
    + split; [assumption | congruence].
Qed.

(** C6. When [update_pnl] leaves [daily_pnl] strictly below
    [-max_daily_loss], the circuit breaker is active afterwards, and every
    later [validate_order] whose clock has not passed the day of the last
    reset (no day rollover), after any calls other than a manual reset,
    returns [approved = False] with level [CRITICAL], whatever the order,
    the account and the positions are. *)
Theorem circuit_breaker_halts_trading
    (rm : RiskManager) (delta : Q) (calls : list Call)
    (order : TradeOrder) (account_info : AccountArg)
    (positions : list Position) (now : Z) :
  daily_pnl (update_pnl delta rm) < - max_daily_loss (limits rm) ->
  Forall (within_day (last_reset rm)) calls ->
  (date now <= last_reset rm)%Z ->
  circuit_breaker_active (update_pnl delta rm) = true
  /\ snd (validate_order order account_info positions now
            (run_calls calls (update_pnl delta rm)))
     = Ret (false, "Circuit breaker active - trading halted", CRITICAL).
Proof.
  intros Hloss Hcalls Hday.
  assert (Hcb : circuit_breaker_active (update_pnl delta rm) = true).
  { unfold update_pnl in *.
    destruct (Qltb _ _) eqn:E; [reflexivity|].
    apply Qltb_ge in E. simpl in *. exfalso.
    apply (Qlt_not_le _ _ Hloss E). }
  split; [exact Hcb|].
  destruct (halted_invariant_calls calls (update_pnl delta rm) Hcb) as [Hcb' Hlr].
  - rewrite update_pnl_last_reset. assumption.
  - rewrite validate_order_halted; [reflexivity | assumption |].
    rewrite Hlr, update_pnl_last_reset. assumption.
Qed.


Lemma daily_reset_idempotent (now : Z) (rm : RiskManager) :
  _check_daily_reset now (_check_daily_reset now rm) = _check_daily_reset now rm.
Proof.
  unfold _check_daily_reset.
  destruct (Z.ltb_spec (last_reset rm) (date now)) as [Hlt | Hge]; simpl.
  - rewrite Z.ltb_irrefl. reflexivity.
  - destruct (Z.ltb_spec (last_reset rm) (date now)); [lia | reflexivity].
Qed.

(** C7, as amended. Day rollover.  A [validate_order] call on a calendar
    date later than the last-reset date first sets [daily_trades] and
    [daily_pnl] to 0 and [circuit_breaker_active] to [False], whatever they
    were, and evaluates the order on that state.  On a date that is not
    later (the same day, or an earlier one) the reset check changes
    nothing.  Running the reset check again for the same day changes
    nothing. *)
Theorem daily_reset_on_rollover
    (rm : RiskManager) (order : TradeOrder) (account_info : AccountArg)
    (positions : list Position) (now : Z) :
  let rm' := _check_daily_reset now rm in
  ((last_reset rm < date now)%Z ->
   daily_trades rm' = 0%Z
   /\ daily_pnl rm' = 0
   /\ circuit_breaker_active rm' = false
   /\ last_reset rm' = date now
   /\ limits rm' = limits rm
   /\ validate_order order account_info positions now rm
      = evaluate_order order account_info positions now rm')
  /\ ((date now <= last_reset rm)%Z -> rm' = rm)
  /\ _check_daily_reset now rm' = rm'.
Proof.
  intro rm'. split; [|split].
  - intro Hlater.
    assert (Hrm' : rm' = {| limits := limits rm; daily_pnl := 0; daily_trades := 0%Z;
                           trade_history := trade_history rm; last_reset := date now;
                           risk_events := risk_events rm;
                           circuit_breaker_active := false |}).
    { unfold rm', _check_daily_reset.
      destruct (Z.ltb_spec (last_reset rm) (date now)); [reflexivity | lia]. }
    repeat split; try (rewrite Hrm'; reflexivity).
  - intro Hday. apply daily_reset_same_day. exact Hday.
  - apply daily_reset_idempotent.
Qed.

Lemma daily_reset_keeps_breaker_off (now : Z) (rm : RiskManager) :
  circuit_breaker_active rm = false ->
  circuit_breaker_active (_check_daily_reset now rm) = false.
Proof.
  intro Hcb. unfold _check_daily_reset.
  destruct (last_reset rm <? date now)%Z; [reflexivity | assumption].
Qed.

Lemma evaluate_order_on_dict order (d : AccountInfo) positions now rm :
  circuit_breaker_active rm = false ->
  snd (evaluate_order order (AccountDict d) positions now rm)
  = Raise (AttributeError (first_failing_attribute order)).
Proof.
  intro Hcb. unfold evaluate_order, first_failing_attribute, bind, gets.
  rewrite Hcb. unfold _check_cash_reserve.
  destruct (side order); simpl.
  - reflexivity.
  - unfold _check_daily_loss.
    destruct (Qltb (daily_pnl rm) _); [reflexivity|].
    destruct (Qltb (daily_pnl rm) _); reflexivity.
Qed.

(** C3. On an account that is a dictionary of the [AccountInfo] shape,
    [validate_order] with the circuit breaker off raises [AttributeError]:
    for a BUY order on [account_info.cash] in the cash-reserve check, for a
    SELL order on [account_info.net_liquidation] in the concentration check,
    whose read is outside the handler of that check.  [net_liquidation] is
    not among the keys of [AccountInfo].  Hence no call with a dictionary
    account returns an approval. *)
Theorem validate_order_raises_on_dict_account
    (rm : RiskManager) (order : TradeOrder) (d : AccountInfo)
    (positions : list Position) (now : Z) :
  (circuit_breaker_active rm = false ->
   snd (validate_order order (AccountDict d) positions now rm)
   = Raise (AttributeError (first_failing_attribute order)))
  /\ ~ In "net_liquidation" AccountInfo_keys
  /\ (forall reason level,
        snd (validate_order order (AccountDict d) positions now rm)
        <> Ret (true, reason, level)).
Proof.
  split; [|split].
  - intro Hcb. unfold validate_order.
    apply evaluate_order_on_dict, daily_reset_keeps_breaker_off, Hcb.
  - simpl. intuition discriminate.
  - intros reason level. unfold validate_order.
    destruct (circuit_breaker_active (_check_daily_reset now rm)) eqn:Hcb.
    + unfold evaluate_order, bind, gets. rewrite Hcb. simpl. discriminate.
    + rewrite evaluate_order_on_dict by assumption. discriminate.
Qed.

(** *** Formatting is a function of the rational, not of its representation *)

Lemma round_half_even_comp (q q' : Q) :
  q == q' -> round_half_even q = round_half_even q'.
Proof.
  intro Heq. unfold round_half_even.
  rewrite (Qfloor_comp _ _ Heq).
  assert (Hc : ((q - inject_Z (Qfloor q')) * 2 ?= 1)
               = ((q' - inject_Z (Qfloor q')) * 2 ?= 1)).
  { apply Qcompare_comp; [rewrite Heq|]; reflexivity. }
  rewrite Hc. reflexivity.
Qed.

Lemma format_f_comp (digits : nat) (q q' : Q) :
  q == q' -> format_f digits q = format_f digits q'.
Proof.
  intro Heq. unfold format_f.
  assert (Hr : round_half_even (Qabs q * inject_Z (10 ^ Z.of_nat digits))
               = round_half_even (Qabs q' * inject_Z (10 ^ Z.of_nat digits))).
  { apply round_half_even_comp. rewrite Heq. reflexivity. }
  assert (Hs : Qltb q 0 = Qltb q' 0).
  { unfold Qltb. f_equal. apply Qleb_comp; [reflexivity | assumption]. }
  rewrite Hr, Hs. reflexivity.
Qed.

Lemma format_pct_comp (digits : nat) (q q' : Q) :
  q == q' -> format_pct digits q = format_pct digits q'.
Proof.
  intro Heq. unfold format_pct. f_equal.
  apply format_f_comp. rewrite Heq. reflexivity.
Qed.

Lemma string_append_assoc (a b c : string) :
  ((a ++ b) ++ c = a ++ (b ++ c))%string.
Proof. induction a as [|ch a IH]; simpl; [reflexivity | rewrite IH; reflexivity]. Qed.

Lemma join_ends_with_last (sep : string) (parts : list string) (last : string) :
  exists before, join sep (parts ++ [last])%list = (before ++ last)%string.
Proof.
  unfold join. induction parts as [|x parts IH]; simpl.
  - exists ""%string. reflexivity.
  - destruct IH as [before IH]. rewrite IH.
    destruct (parts ++ [last])%list eqn:E.
    + destruct parts; discriminate.
    + exists (x ++ sep ++ before)%string.
      rewrite !string_append_assoc. reflexivity.
Qed.

(** *** The loop of [validate_order] on a failing last check *)

Lemma scan_checks_failing_last now order (checks : list Check) :
  forall level failed rm message risk_level,
    scan_checks now order (checks ++ [(false, risk_level, message)])%list level failed rm
    = let '(rm1, (level1, failed1)) := scan_checks now order checks level failed rm in
      (_log_risk_event now order message risk_level rm1,
       (raise_level level1 risk_level, (failed1 ++ [message])%list)).
Proof.
  induction checks as [|[[ok lv] msg] checks IH]; intros; simpl.
  - reflexivity.
  - apply IH.
Qed.

Lemma raise_level_high (level : RiskLevel) :
  raise_level level HIGH = HIGH \/ raise_level level HIGH = CRITICAL.
Proof. destruct level; simpl; auto. Qed.

Lemma daily_reset_limits now rm : limits (_check_daily_reset now rm) = limits rm.
Proof. unfold _check_daily_reset. destruct (_ <? _)%Z; reflexivity. Qed.

Lemma cash_reserve_returns rm order attributes (cash_value : Q) :
  lookup_attr "cash" attributes = Some cash_value ->
  exists check, _check_cash_reserve rm order (AccountObject attributes) = Ret check.
Proof.
  intro Hcash. unfold _check_cash_reserve. destruct (side order).
  - simpl. rewrite Hcash.
    destruct (Qltb _ _); [eauto|]. destruct (Qltb _ _); eauto.
  - eauto.
Qed.

Lemma daily_loss_returns account_info rm :
  exists rm' check,
    _check_daily_loss account_info rm = (rm', Ret check) /\ limits rm' = limits rm.
Proof.
  unfold _check_daily_loss.
  destruct (Qltb _ _); [eauto|]. destruct (Qltb _ _); eauto.
Qed.

Lemma concentration_check_fails rm order attributes positions (portfolio_value : Q) :
  lookup_attr "net_liquidation" attributes = Some portfolio_value ->
  portfolio_value == 100000 ->
  max_position_concentration (limits rm) == 15 # 100 ->
  new_position_value order positions == 20000 ->
  _check_position_concentration rm order (AccountObject attributes) positions
  = Ret (false, HIGH, concentration_message (20 # 100) (15 # 100)).
Proof.
  intros Hattr Hpv Hlimit Hvalue. unfold _check_position_concentration. simpl.
  rewrite Hattr.
  assert (H0 : Qleb portfolio_value 0 = false).
  { apply Qleb_gt. rewrite Hpv. reflexivity. }
  assert (H1 : Qltb 0 portfolio_value = true).
  { apply Qltb_lt. rewrite Hpv. reflexivity. }
  assert (Hc : new_position_value order positions / portfolio_value == 20 # 100).
  { rewrite Hvalue, Hpv. reflexivity. }
  rewrite H0, H1.
  assert (H2 : Qltb (max_position_concentration (limits rm))
                 (new_position_value order positions / portfolio_value) = true).
  { apply Qltb_lt. rewrite Hc, Hlimit. reflexivity. }
  rewrite H2. unfold concentration_message.
  rewrite (format_pct_comp 1 _ _ Hc), (format_pct_comp 1 _ _ Hlimit).
  reflexivity.
Qed.

(** C9. The concentration check reads the portfolio value as the attribute
    [account_info.net_liquidation], outside its [try] block.  On an account
    of the declared type, a dictionary, that read raises [AttributeError],
    whatever the order and the positions are, and [validate_order] with the
    circuit breaker off raises with it: the order is not rejected at level
    [HIGH], no verdict is returned at all.  Only on an object that carries
    the attribute does the check compute what is expected of it: with a
    portfolio value of 100,000, a limit of 0.15 and a projected position
    value of 20,000 it fails at [HIGH] with the message
    "Position concentration 20.0% exceeds limit 15.0%". *)
Theorem concentration_check_raises_on_dict_account
    (rm : RiskManager) (order : TradeOrder) (d : AccountInfo)
    (positions : list Position) (now : Z) :
  _check_position_concentration rm order (AccountDict d) positions
  = Raise (AttributeError "net_liquidation")
  /\ (circuit_breaker_active (_check_daily_reset now rm) = false ->
      exists attribute,
        snd (validate_order order (AccountDict d) positions now rm)
        = Raise (AttributeError attribute))
  /\ (forall level,
        snd (validate_order order (AccountDict d) positions now rm)
        <> Ret (false, "Position concentration 20.0% exceeds limit 15.0%", level))
  /\ (forall attributes portfolio_value,
        lookup_attr "net_liquidation" attributes = Some portfolio_value ->
        portfolio_value == 100000 ->
        max_position_concentration (limits rm) == 15 # 100 ->
        new_position_value order positions == 20000 ->
        _check_position_concentration rm order (AccountObject attributes) positions
        = Ret (false, HIGH, "Position concentration 20.0% exceeds limit 15.0%")).
Proof.
  split; [reflexivity|]. split; [|split].
  - intro Hcb. eexists. unfold validate_order.
    apply evaluate_order_on_dict. exact Hcb.
  - intro level. unfold validate_order.
    destruct (circuit_breaker_active (_check_daily_reset now rm)) eqn:Hcb.
    + unfold evaluate_order, bind, gets. rewrite Hcb. simpl. discriminate.
    + rewrite evaluate_order_on_dict by assumption. discriminate.
  - intros attributes portfolio_value Hattr Hpv Hlimit Hvalue.
    apply (concentration_check_fails rm order attributes positions portfolio_value);
      assumption.
Qed.

End RiskManagerProperties.

(** ** The trader *)

Section TraderProperties.

Import BaseTrader.
Local Open Scope Q_scope.

Lemma validate_trade_dry_run {B : Type} `{Queries B} (t : Trader B) (order : TradeOrder) :
  is_connected t = true ->
  dry_run (config t) = true ->
  validate_trade order t = (t, Ret (true, DryRunMode)).
Proof.
  intros Hconn Hdry. unfold validate_trade, bind, gets.
  rewrite Hconn. simpl. rewrite Hdry. reflexivity.
Qed.

Lemma submit_order_dry_run (t : FutuTrader.FutuTrader) (order : TradeOrder) :
  is_connected t = true ->
  dry_run (config t) = true ->
  FutuTrader.submit_order order t
  = FutuTrader._simulate_order order
      (FutuTrader.uuid4 (FutuTrader.gateway (backend t)))
      (FutuTrader.clock (FutuTrader.gateway (backend t))) t.
Proof.
  intros Hconn Hdry. unfold FutuTrader.submit_order.
  unfold bind at 1. unfold get. unfold bind at 1.
  rewrite (validate_trade_dry_run t order Hconn Hdry). simpl.
  unfold bind, gets. rewrite Hdry. reflexivity.
Qed.

(** What the simulation comes to: the price guard, then the log line. *)
Lemma simulate_order_outcome (t : FutuTrader.FutuTrader) (order : TradeOrder)
    (order_id : string) (submit_time : Z) :
  FutuTrader._simulate_order order order_id submit_time t
  = (t, Ret (FutuTrader.unfilled order order_id submit_time FAILED
               (Some (if truthy (FutuTrader.quoted_price (symbol order) t)
                      then ExceptionText FutuTrader.no_value_attribute
                      else NoMarketPriceForSimulation)))).
Proof.
  unfold FutuTrader._simulate_order, FutuTrader.get_market_price, try_except,
    bind, gets, of_result, ret.
  destruct (FutuTrader.quoted_price (symbol order) t) as [mp|]; [|reflexivity].
  destruct (truthy (Some mp)); reflexivity.
Qed.

Lemma submit_order_simulated (t : FutuTrader.FutuTrader) (order : TradeOrder) :
  is_connected t = true ->
  dry_run (config t) = true ->
  FutuTrader.submit_order order t
  = (t, Ret (FutuTrader.refusal t order FAILED
               (if truthy (FutuTrader.quoted_price (symbol order) t)
                then ExceptionText FutuTrader.no_value_attribute
                else NoMarketPriceForSimulation))).
Proof.
  intros Hconn Hdry.
  rewrite submit_order_dry_run by assumption.
  apply simulate_order_outcome.
Qed.

(** C4. In dry-run mode on a connected trader, [validate_trade] approves at
    once, whatever the account, position and price queries would answer and
    whatever [max_order_value] is: none of the three checks is run and the
    trader is unchanged.  A dry-run SELL on a trader with short selling
    disabled, which holds no shares in dry-run mode, therefore reaches the
    simulation; but the simulation does not report a fill: with a market
    price quoted, its log line reads [order.side.value] on a [str] inside
    the [try] block, and [submit_order] returns [FAILED] with nothing
    filled and the text of that exception. *)
Theorem dry_run_validation_is_skipped :
  (forall (B : Type) (queries : Queries B) (t : Trader B) (order : TradeOrder),
      is_connected t = true ->
      dry_run (config t) = true ->
      validate_trade order t = (t, Ret (true, DryRunMode)))
  /\ (forall (t : FutuTrader.FutuTrader) (order : TradeOrder) (mp : Q),
         is_connected t = true ->
         dry_run (config t) = true ->
         enable_short_selling (config t) = false ->
         side order = SELL ->
         FutuTrader.quoted_price (symbol order) t = Some mp ->
         ~ mp == 0 ->
         FutuTrader.current_positions t = []
         /\ FutuTrader.submit_order order t
            = (t, Ret (FutuTrader.refusal t order FAILED
                         (ExceptionText FutuTrader.no_value_attribute)))
         /\ forall r, snd (FutuTrader.submit_order order t) = Ret r ->
                      status r = FAILED /\ filled_quantity r = 0%Z).
Proof.
  split.
  - intros B queries t order. apply validate_trade_dry_run.
  - intros t order mp Hconn Hdry _ _ Hquote Hnz.
    assert (Hrun : FutuTrader.submit_order order t
                   = (t, Ret (FutuTrader.refusal t order FAILED
                                (ExceptionText FutuTrader.no_value_attribute)))).
    { rewrite submit_order_simulated by assumption.
      rewrite Hquote. apply truthy_some in Hnz. rewrite Hnz. reflexivity. }
    split; [|split].
    + unfold FutuTrader.current_positions. rewrite Hconn, Hdry. reflexivity.
    + exact Hrun.
    + intros r Hr. rewrite Hrun in Hr. injection Hr as <-. split; reflexivity.
Qed.




End TraderProperties.

(** ** The executor *)

Section ExecutorProperties.

Import BaseTrader LiveExecutor.
Local Open Scope Q_scope.

Context {B P : Type} `{Execution B} `{PortfolioOps P}.

Lemma update_local_portfolio_returns ticker action (quantity : Z) (price : Q) (pf : P) :
  snd (_update_local_portfolio ticker action quantity price pf) = Ret tt.
Proof.
  unfold _update_local_portfolio, try_except.
  destruct (Action_of action) as [[| | | |] | e]; unfold bind, ret, raise; simpl;
    try reflexivity.
  - destruct (apply_long_buy ticker quantity price pf) as [pf' [k | e]]; reflexivity.
  - destruct (apply_long_sell ticker quantity price pf) as [pf' [k | e]]; reflexivity.
  - destruct (apply_short_open ticker quantity price pf) as [pf' [k | e]]; reflexivity.
  - destruct (apply_short_cover ticker quantity price pf) as [pf' [k | e]]; reflexivity.
Qed.

Lemma update_local_portfolio_dispatch ticker action (quantity : Z) (price : Q)
    (pf : P) mutate :
  mutator action = Some mutate ->
  fst (_update_local_portfolio ticker action quantity price pf)
  = fst (mutate ticker quantity price pf).
Proof.
  unfold mutator, _update_local_portfolio, Action_of, try_except.
  destruct (String.eqb action "buy");
    [intro E; injection E as <-; unfold bind, ret;
     destruct (apply_long_buy ticker quantity price pf) as [pf' [k | e]]; reflexivity|].
  destruct (String.eqb action "sell");
    [intro E; injection E as <-; unfold bind, ret;
     destruct (apply_long_sell ticker quantity price pf) as [pf' [k | e]]; reflexivity|].
  destruct (String.eqb action "short");
    [intro E; injection E as <-; unfold bind, ret;
     destruct (apply_short_open ticker quantity price pf) as [pf' [k | e]]; reflexivity|].
  destruct (String.eqb action "cover");
    [intro E; injection E as <-; unfold bind, ret;
     destruct (apply_short_cover ticker quantity price pf) as [pf' [k | e]]; reflexivity|].
  discriminate.
Qed.

(** For an action string without a mutator, [Action(action)] is [HOLD] or
    raises [ValueError], which the handler swallows: the portfolio is left
    alone. *)
Lemma update_local_portfolio_without_mutator ticker action (quantity : Z)
    (price : Q) (pf : P) :
  mutator (P:=P) action = None ->
  fst (_update_local_portfolio ticker action quantity price pf) = pf.
Proof.
  unfold mutator, _update_local_portfolio, Action_of, try_except.
  destruct (String.eqb action "buy"); [discriminate|].
  destruct (String.eqb action "sell"); [discriminate|].
  destruct (String.eqb action "short"); [discriminate|].
  destruct (String.eqb action "cover"); [discriminate|].
  intros _. destruct (String.eqb action "hold"); reflexivity.
Qed.

(** What one call of [execute_trade_async] does once the guards are passed,
    by the outcome of the trader's [execute_trade]. *)
Lemma execute_trade_async_cases now ticker action (requested current_price : Q)
    (ex : LiveTradeExecutor B) (pf : P) :
  Qleb requested 0 = false ->
  String.eqb action "hold" = false ->
  execute_trade_async now ticker action (Some requested) current_price (ex, pf)
  = match trader_execute_trade ticker action (int requested) (Some current_price)
            (trader ex) with
    | (t', Ret k) =>
        if (0 <? k)%Z then
          ((mkExecutor t' (sync_portfolio ex) (execution_history ex)
              (failed_trades ex) (total_trades ex + 1)%Z (successful_trades ex + 1)%Z,
            fst (_update_local_portfolio ticker action k current_price pf)), Ret k)
        else
          ((mkExecutor t' (sync_portfolio ex) (execution_history ex)
              (failed_trades ex
                 ++ [failure_entry now ticker action requested k current_price None])%list
              (total_trades ex + 1)%Z (successful_trades ex), pf), Ret k)
    | (t', Raise e) =>
        ((mkExecutor t' (sync_portfolio ex) (execution_history ex)
            (failed_trades ex
               ++ [failure_entry now ticker action requested 0 current_price
                     (Some (str_of_exc e))])%list
            (total_trades ex + 1)%Z (successful_trades ex), pf), Ret 0%Z)
    end.
Proof.
  intros Hq Hhold. unfold execute_trade_async. rewrite Hq, Hhold.
  unfold bind at 1. unfold count_trade, modify at 1. unfold try_except.
  unfold bind at 1. unfold on_trader at 1. cbn [trader].
  destruct (trader_execute_trade ticker action (int requested) (Some current_price)
              (trader ex)) as [t' [k | e]].
  - destruct (0 <? k)%Z.
    + unfold bind, count_success, modify, on_portfolio, ret. cbn.
      pose proof (update_local_portfolio_returns ticker action k current_price pf) as Hret.
      destruct (_update_local_portfolio ticker action k current_price pf) as [pf' r].
      simpl in Hret. subst r. reflexivity.
    + reflexivity.
  - reflexivity.
Qed.

Lemma int_positive (q : Q) : (0 < int q)%Z -> Qleb q 0 = false.
Proof.
  intro Hpos. apply Qleb_gt. destruct q as [n d]. unfold int in Hpos. simpl in Hpos.
  unfold Qlt. simpl. rewrite Z.mul_1_r.
  destruct n as [|p|p].
  - rewrite Z.quot_0_l in Hpos by lia. lia.
  - lia.
  - exfalso.
    change (Z.neg p) with (- Z.pos p)%Z in Hpos.
    rewrite Z.quot_opp_l in Hpos by lia.
    pose proof (Z.quot_pos (Z.pos p) (Z.pos d)). lia.
Qed.

Lemma last_n_length {A : Type} (n : nat) (xs : list A) :
  (List.length (last_n n xs) <= n)%nat.
Proof. unfold last_n. rewrite List.length_skipn. lia. Qed.

Lemma last_n_exact_length {A : Type} (n : nat) (xs : list A) :
  List.length (last_n n xs) = Nat.min n (List.length xs).
Proof. unfold last_n. rewrite List.length_skipn. lia. Qed.

Lemma last_n_suffix {A : Type} (n : nat) (xs : list A) :
  exists older, xs = (older ++ last_n n xs)%list.
Proof.
  exists (firstn (List.length xs - n) xs). unfold last_n.
  symmetry. apply firstn_skipn.
Qed.

(** C10. [execute_trade_async] never raises: for every trader, portfolio
    and argument it returns an integer.  Past the guards, when the trader's
    [execute_trade] raises, an entry with timestamp, requested and executed
    (0) quantities, price and the error text is appended to [failed_trades]
    and 0 is returned; when it returns a quantity that is not positive, an
    entry with timestamp, quantities and price (and no error text) is
    appended and that quantity is returned; when it returns a positive
    quantity, that quantity is returned and nothing is appended.  The
    report exposes the last 10 entries of [failed_trades]: a suffix of the
    log, of length 10 or the whole log when it is shorter. *)
Theorem executor_never_raises now ticker action (quantity : option Q)
    (current_price : Q) (ex : LiveTradeExecutor B) (pf : P) :
  exists ex' pf' n,
    execute_trade_async now ticker action quantity current_price (ex, pf)
    = ((ex', pf'), Ret n)
    /\ (forall requested,
          quantity = Some requested ->
          0 < requested ->
          action <> "hold"%string ->
          match snd (trader_execute_trade ticker action (int requested)
                       (Some current_price) (trader ex)) with
          | Raise e =>
              n = 0%Z
              /\ failed_trades ex'
                 = (failed_trades ex
                      ++ [failure_entry now ticker action requested 0 current_price
                            (Some (str_of_exc e))])%list
          | Ret k =>
              n = k
              /\ ((k <= 0)%Z ->
                  failed_trades ex'
                  = (failed_trades ex
                       ++ [failure_entry now ticker action requested k current_price
                             None])%list)
              /\ ((0 < k)%Z -> failed_trades ex' = failed_trades ex)
          end)
    /\ (exists older,
          failed_trades ex'
          = (older ++ rep_recent_failures (get_execution_report ex'))%list)
    /\ List.length (rep_recent_failures (get_execution_report ex'))
       = Nat.min 10 (List.length (failed_trades ex')).
Proof.
  assert (Hreport : forall ex' : LiveTradeExecutor B,
             (exists older,
                 failed_trades ex'
                 = (older ++ rep_recent_failures (get_execution_report ex'))%list)
             /\ List.length (rep_recent_failures (get_execution_report ex'))
                = Nat.min 10 (List.length (failed_trades ex'))).
  { intro ex'. split; [apply last_n_suffix | apply last_n_exact_length]. }
  destruct quantity as [requested|].
  2:{ exists ex, pf, 0%Z. split; [reflexivity|]. split; [|apply Hreport].
      intros requested Hq. discriminate Hq. }
  destruct (Qleb requested 0) eqn:Hq.
  { exists ex, pf, 0%Z. split; [unfold execute_trade_async; rewrite Hq; reflexivity|].
    split; [|apply Hreport].
    intros requested' Heq Hpos. injection Heq as <-.
    apply Qleb_le in Hq. exfalso. apply (Qlt_not_le _ _ Hpos Hq). }
  destruct (String.eqb_spec action "hold") as [-> | Hhold].
  { exists ex, pf, 0%Z.
    split; [unfold execute_trade_async; rewrite Hq; reflexivity|].
    split; [|apply Hreport].
    intros requested' _ _ Hne. exfalso. apply Hne. reflexivity. }
  apply String.eqb_neq in Hhold.
  rewrite (execute_trade_async_cases now ticker action requested current_price ex pf Hq Hhold).
  destruct (trader_execute_trade ticker action (int requested) (Some current_price)
              (trader ex)) as [t' [k | e]] eqn:Hexec.
  - destruct (Z.ltb_spec 0 k) as [Hk | Hk].
    + eexists _, _, k. split; [reflexivity|]. split; [|apply Hreport].
      intros requested' Heq _ _. injection Heq as <-. rewrite Hexec. simpl.
      split; [reflexivity|]. split; [lia | reflexivity].
    + eexists _, _, k. split; [reflexivity|]. split; [|apply Hreport].
      intros requested' Heq _ _. injection Heq as <-. rewrite Hexec. simpl.
      split; [reflexivity|]. split; [reflexivity | lia].
  - eexists _, _, 0%Z. split; [reflexivity|]. split; [|apply Hreport].
    intros requested' Heq _ _. injection Heq as <-. rewrite Hexec. simpl.
    split; reflexivity.
Qed.

(** C2, as amended. For every trade on which the trader's [execute_trade]
    returns a positive executed quantity, the executor updates the local
    portfolio exactly once, by the mutator of the action, with that
    executed quantity and the pre-trade [current_price] it was called
    with.  The method returns the quantity alone, so the [avg_price] of the
    submission result never reaches the executor.  (For an action string
    without a mutator the portfolio is left alone.) *)
Theorem portfolio_updated_once_at_current_price now ticker action
    (requested current_price : Q) (ex : LiveTradeExecutor B) (pf : P)
    (t' : Trader B) (k : Z) :
  0 < requested ->
  action <> "hold"%string ->
  trader_execute_trade ticker action (int requested) (Some current_price) (trader ex)
  = (t', Ret k) ->
  (0 < k)%Z ->
  exists ex',
    execute_trade_async now ticker action (Some requested) current_price (ex, pf)
    = ((ex', fst (_update_local_portfolio ticker action k current_price pf)), Ret k)
    /\ trader ex' = t'
    /\ successful_trades ex' = (successful_trades ex + 1)%Z
    /\ failed_trades ex' = failed_trades ex
    /\ (forall mutate,
          mutator action = Some mutate ->
          fst (_update_local_portfolio ticker action k current_price pf)
          = fst (mutate ticker k current_price pf))
    /\ (mutator (P:=P) action = None ->
        fst (_update_local_portfolio ticker action k current_price pf) = pf).
Proof.
  intros Hpos Hhold Hexec Hk.
  rewrite (execute_trade_async_cases now ticker action requested current_price ex pf).
  - rewrite Hexec. destruct (Z.ltb_spec 0 k) as [_ | Hle]; [|lia].
    eexists. split; [reflexivity|]. simpl.
    split; [reflexivity|]. split; [reflexivity|]. split; [reflexivity|]. split.
    + intros mutate Hmut. apply update_local_portfolio_dispatch. exact Hmut.
    + apply update_local_portfolio_without_mutator.
  - apply Qleb_gt. exact Hpos.
  - apply String.eqb_neq. exact Hhold.
Qed.

End ExecutorProperties.

(** ** The inherited [execute_trade] *)

Section InheritedExecution.

Import BaseTrader LiveExecutor.
Local Open Scope Q_scope.

Context {B P : Type} `{Submission B} `{PortfolioOps P}.

Lemma detect_market_raises (sym : string) :
  _detect_market sym = Raise (NameError "MarketType").
Proof.
  unfold _detect_market, global_MarketType.
  destruct (isdigit sym && (String.length sym =? 5)%nat); [reflexivity|].
  destruct (isdigit sym && (String.length sym =? 6)%nat); reflexivity.
Qed.

Lemma convert_outcome ticker action (quantity : Z) (current_price : option Q) :
  _convert_action_to_order ticker action quantity current_price
  = if names_order action then Raise (NameError "MarketType") else Ret None.
Proof.
  unfold _convert_action_to_order, names_order. rewrite detect_market_raises.
  destruct (String.eqb action "buy"); [reflexivity|].
  destruct (String.eqb action "sell"); [reflexivity|].
  destruct (String.eqb action "short"); [reflexivity|].
  destruct (String.eqb action "cover"); reflexivity.
Qed.

Lemma names_order_not_hold (action : string) :
  names_order action = true -> String.eqb action "hold" = false.
Proof.
  intro Hn. destruct (String.eqb_spec action "hold") as [-> | _];
    [discriminate Hn | reflexivity].
Qed.

Lemma names_order_iff (action : string) :
  names_order action = true <-> In action ["buy"; "sell"; "short"; "cover"]%string.
Proof.
  unfold names_order. simpl.
  destruct (String.eqb_spec action "buy") as [-> | Hb]; [simpl; tauto|].
  destruct (String.eqb_spec action "sell") as [-> | Hs]; [simpl; tauto|].
  destruct (String.eqb_spec action "short") as [-> | Hsh]; [simpl; tauto|].
  destruct (String.eqb_spec action "cover") as [-> | Hc]; [simpl; tauto|].
  simpl. split; [discriminate|].
  intros [E | [E | [E | [E | []]]]]; symmetry in E; contradiction.
Qed.

(** The inherited [execute_trade] returns at a guard or raises in
    [_detect_market]; it does not get as far as [submit_order]. *)
Lemma execute_trade_outcome ticker action (quantity : Z) (current_price : option Q)
    (t : Trader B) :
  execute_trade ticker action quantity current_price t
  = (t, if (0 <? quantity)%Z && names_order action
        then Raise (NameError "MarketType") else Ret 0%Z).
Proof.
  unfold execute_trade. rewrite convert_outcome.
  destruct (Z.ltb_spec 0 quantity) as [Hpos | Hle].
  - destruct (Z.leb_spec quantity 0) as [Hle | _]; [lia|].
    rewrite orb_false_r. simpl.
    destruct (names_order action) eqn:Hn.
    + rewrite (names_order_not_hold _ Hn). reflexivity.
    + destruct (String.eqb action "hold"); reflexivity.
  - destruct (Z.leb_spec quantity 0) as [_ | Hgt]; [|lia].
    rewrite orb_true_r. reflexivity.
Qed.

Lemma inherited_trade_outcome ticker action (quantity : Z)
    (current_price : option Q) (t : Trader B) :
  trader_execute_trade ticker action quantity current_price t
  = (t, if (0 <? quantity)%Z && names_order action
        then Raise (NameError "MarketType") else Ret 0%Z).
Proof. apply execute_trade_outcome. Qed.

(** One call of the executor over a trader that inherits [execute_trade]. *)
Lemma inherited_call_outcome now ticker action (quantity : option Q)
    (current_price : Q) (ex : LiveTradeExecutor B) (pf : P) :
  exists ex',
    execute_trade_async now ticker action quantity current_price (ex, pf)
    = ((ex', pf), Ret 0%Z)
    /\ trader ex' = trader ex
    /\ successful_trades ex' = successful_trades ex
    /\ sync_portfolio ex' = sync_portfolio ex.
Proof.
  destruct quantity as [requested|]; [|exists ex; repeat split].
  destruct (Qleb requested 0) eqn:Hq.
  { exists ex. unfold execute_trade_async. rewrite Hq. repeat split. }
  destruct (String.eqb action "hold") eqn:Hhold.
  { exists ex. unfold execute_trade_async. rewrite Hq, Hhold. repeat split. }
  rewrite (execute_trade_async_cases now ticker action requested current_price ex pf
             Hq Hhold).
  rewrite inherited_trade_outcome.
  destruct ((0 <? int requested)%Z && names_order action).
  - eexists. split; [reflexivity|]. repeat split.
  - simpl. eexists. split; [reflexivity|]. repeat split.
Qed.

End InheritedExecution.

(** ** The executor over the Futu trader, and the trade loop *)

Section LiveSessionProperties.

Import BaseTrader LiveExecutor LiveMain.
Import FutuTrader.
Local Open Scope Q_scope.

Context {P : Type} `{PortfolioOps P}.

Lemma submit_order_rejected (t : FutuTrader) (order : TradeOrder) msg :
  validate_trade order t = (t, Ret (false, msg)) ->
  submit_order order t
  = (t, Ret (unfilled order (uuid4 (gateway (backend t))) (clock (gateway (backend t)))
               REJECTED (Some msg))).
Proof.
  intro Hval. unfold submit_order.
  unfold bind at 1. unfold get. unfold bind at 1. rewrite Hval. reflexivity.
Qed.


Lemma process_decision_keeps_risk_manager now ticker action (quantity : Q)
    (s : Session Futu P) :
  risk_manager (process_decision now ticker action quantity s) = risk_manager s.
Proof.
  unfold process_decision.
  destruct (String.eqb action "hold" || Qleb quantity 0); [reflexivity|].
  destruct (attempt now ticker action quantity (executor s, portfolio_obj s))
    as [[ex pf] [[[k cp]|] | e]]; try reflexivity.
  destruct (0 <? k)%Z; reflexivity.
Qed.

(** C1, as amended. A buy of 10 AAPL at a current price of 150.00, in
    particular in dry-run mode on a connected trader with a market price
    quoted: the executor returns an integer and does not raise; the local
    portfolio is left as it is or receives one
    [apply_long_buy("AAPL", q, 150.00)] for the positive quantity [q]
    returned, at the pre-trade price, so neither slippage nor commission
    enters it; the Risk Manager is not consulted and is left as it was, so
    its [daily_trades] does not change. *)
Theorem dry_run_buy_scenario now (s : Session Futu P) :
  exists ex' pf' q,
    execute_trade_async now "AAPL" "buy" (Some 10) 150 (executor s, portfolio_obj s)
    = ((ex', pf'), Ret q)
    /\ (pf' = portfolio_obj s
        \/ ((0 < q)%Z /\ pf' = fst (apply_long_buy "AAPL" q 150 (portfolio_obj s))))
    /\ risk_manager (process_decision now "AAPL" "buy" 10 s) = risk_manager s
    /\ RiskControls.daily_trades (risk_manager (process_decision now "AAPL" "buy" 10 s))
       = RiskControls.daily_trades (risk_manager s).
Proof.
  rewrite (execute_trade_async_cases now "AAPL" "buy" 10 150 (executor s)
             (portfolio_obj s) eq_refl eq_refl).
  destruct (trader_execute_trade "AAPL" "buy" (int 10) (Some 150) (trader (executor s)))
    as [t' [k | e]].
  - destruct (Z.ltb_spec 0 k) as [Hk | Hk].
    + eexists _, _, k. split; [reflexivity|]. split.
      * right. split; [exact Hk|].
        apply (update_local_portfolio_dispatch "AAPL" "buy" k 150 (portfolio_obj s)
                 apply_long_buy eq_refl).
      * rewrite process_decision_keeps_risk_manager. split; reflexivity.
    + eexists _, _, k. split; [reflexivity|]. split; [left; reflexivity|].
      rewrite process_decision_keeps_risk_manager. split; reflexivity.
  - eexists _, _, 0%Z. split; [reflexivity|]. split; [left; reflexivity|].
    rewrite process_decision_keeps_risk_manager. split; reflexivity.
Qed.

End LiveSessionProperties.

(** ** The scenarios, evaluated *)

Section Scenarios.

Import BaseTrader LiveExecutor LiveMain Scenario.
Import FutuTrader.
Local Open Scope Q_scope.

(** C1, counterexample. The scenario, run through one iteration of the
    trade loop: the Risk Manager's [daily_trades] is what it was, not one
    more, and the manager has recorded no trade.  (The iteration ends with
    "Execution failed" and an untouched portfolio: the inherited
    [execute_trade] raises in [_detect_market].) *)
Lemma dry_run_buy_leaves_daily_trades :
  let s := session default_config (gateway_with (Some 150) []) in
  let s' := process_decision 1700000000 "AAPL" "buy" 10 s in
  RiskControls.daily_trades (risk_manager s')
  <> (RiskControls.daily_trades (risk_manager s) + 1)%Z
  /\ RiskControls.daily_trades (risk_manager s') = 0%Z
  /\ RiskControls.trade_history (risk_manager s') = []
  /\ execution_results s' = [("AAPL", OutFailed "Execution failed")]
  /\ portfolio_obj s' = [].
Proof.
  vm_compute. repeat split. discriminate.
Qed.

Lemma dry_run_buy_scenario_witness :
  let s := session default_config (gateway_with (Some 150) []) in
  is_connected (trader (executor s)) = true
  /\ dry_run (config (trader (executor s))) = true
  /\ quoted_price "AAPL" (trader (executor s)) = Some 150
  /\ exists ex' pf' q,
       execute_trade_async 1700000000 "AAPL" "buy" (Some 10) 150
         (executor s, portfolio_obj s)
       = ((ex', pf'), Ret q)
       /\ RiskControls.daily_trades
            (risk_manager (process_decision 1700000000 "AAPL" "buy" 10 s))
          = 0%Z.
Proof.
  intro s.
  destruct (dry_run_buy_scenario (P:=CallLog) 1700000000 s)
    as (ex' & pf' & q & Hrun & _ & _ & Hdaily).
  split; [reflexivity|]. split; [reflexivity|]. split; [reflexivity|].
  exists ex', pf', q. split; [exact Hrun | exact Hdaily].
Defined.

(** C2, counterexample. An executor over a trader that fills a buy of 10 at
    150.15: the result in the trader's history carries the fill price
    150.15, and the portfolio is updated at the pre-trade price 150. *)
Lemma portfolio_update_ignores_fill_price :
  let store := (paper_executor (150150 # 1000), ([] : CallLog)) in
  let out := execute_trade_async 1700000000 "AAPL" "buy" (Some 10) 150 store in
  exists r,
    BaseTrader.trade_history (trader (fst (fst out))) = [r]
    /\ (0 < filled_quantity r)%Z
    /\ avg_price r = Some (150150 # 1000)
    /\ snd (fst out) = [LongBuy "AAPL" 10 150]
    /\ ~ 150 == 150150 # 1000.
Proof.
  vm_compute. eexists. repeat split. discriminate.
Qed.

Lemma portfolio_updated_once_at_current_price_witness :
  let ex := paper_executor (150150 # 1000) in
  exists ex',
    execute_trade_async 1700000000 "AAPL" "buy" (Some 10) 150 (ex, ([] : CallLog))
    = ((ex', [LongBuy "AAPL" 10 150]), Ret 10%Z).
Proof.
  intro ex.
  destruct (portfolio_updated_once_at_current_price (B:=Paper) (P:=CallLog)
              1700000000 "AAPL" "buy" 10 150 ex []
              (fst (trader_execute_trade "AAPL" "buy" 10%Z (Some 150) (trader ex)))
              10%Z)
    as (ex' & Hrun & _ & _ & _ & Hmut & _).
  - reflexivity.
  - discriminate.
  - reflexivity.
  - reflexivity.
  - exists ex'. rewrite Hrun. rewrite (Hmut apply_long_buy eq_refl). reflexivity.
Defined.

Lemma validate_order_raises_on_dict_account_witness :
  snd (RiskControls.validate_order (market_order "AAPL" BUY 10 (Some 150))
         (AccountDict demo_account) [] 1700000000 default_risk_manager)
  = Raise (AttributeError "cash").
Proof.
  exact (proj1 (validate_order_raises_on_dict_account default_risk_manager
                  (market_order "AAPL" BUY 10 (Some 150)) demo_account []
                  1700000000) eq_refl).
Defined.

Lemma dry_run_validation_is_skipped_witness :
  let t := trader (connected_executor default_config (gateway_with (Some 150) [])) in
  let order := market_order "AAPL" SELL 100 (Some 150) in
  validate_trade order t = (t, Ret (true, DryRunMode))
  /\ current_positions t = []
  /\ exists r, submit_order order t = (t, Ret r)
               /\ status r = FAILED /\ filled_quantity r = 0%Z
               /\ error_msg r = Some (ExceptionText no_value_attribute).
Proof.
  intros t order. split.
  - apply (proj1 dry_run_validation_is_skipped Futu _ t order); reflexivity.
  - destruct (proj2 dry_run_validation_is_skipped t order 150) as (Hpos & Hrun & _);
      try reflexivity.
    + unfold Qeq. simpl. lia.
    + split; [exact Hpos|]. eexists. split; [exact Hrun|]. repeat split.
Defined.



Lemma circuit_breaker_halts_trading_witness :
  let rm := RiskControls.update_pnl (- 10001) default_risk_manager in
  let calls :=
    [RiskTrace.CallRecordTrade (market_order "AAPL" BUY 10 (Some 150)) 10 150 1700000050;
     RiskTrace.CallUpdatePnl 20000;
     RiskTrace.CallValidate (market_order "MSFT" SELL 5 None) account_object []
       1700000060] in
  RiskControls.circuit_breaker_active rm = true
  /\ snd (RiskControls.validate_order (market_order "AAPL" BUY 10 (Some 150))
            account_object [] 1700000100 (RiskTrace.run_calls calls rm))
     = Ret (false, "Circuit breaker active - trading halted", RiskControls.CRITICAL).
Proof.
  intros rm calls.
  apply (circuit_breaker_halts_trading default_risk_manager (- 10001) calls).
  - reflexivity.
  - repeat constructor. vm_compute. discriminate.
  - vm_compute. discriminate.
Defined.

(** C7, counterexample. A halted manager whose last reset is dated one day
    after the clock of the call: the date differs from the last-reset date,
    yet nothing is reset and the order is refused by the circuit breaker. *)
Lemma daily_reset_skipped_on_earlier_date :
  let rm := RiskControls.update_pnl (- 10001) default_risk_manager in
  let now := (1700000000 - 86400)%Z in
  RiskControls.date now <> RiskControls.last_reset rm
  /\ RiskControls._check_daily_reset now rm = rm
  /\ RiskControls.circuit_breaker_active (RiskControls._check_daily_reset now rm) = true
  /\ ~ RiskControls.daily_pnl (RiskControls._check_daily_reset now rm) == 0
  /\ snd (RiskControls.validate_order (market_order "AAPL" BUY 10 (Some 150))
            account_object [] now rm)
     = Ret (false, "Circuit breaker active - trading halted", RiskControls.CRITICAL).
Proof.
  vm_compute. repeat split; discriminate.
Qed.

Lemma daily_reset_on_rollover_witness :
  let rm := RiskControls.update_pnl (- 10001) default_risk_manager in
  let rm' := RiskControls._check_daily_reset (1700000000 + 86400) rm in
  RiskControls.circuit_breaker_active rm = true
  /\ RiskControls.daily_trades rm' = 0%Z
  /\ RiskControls.daily_pnl rm' = 0
  /\ RiskControls.circuit_breaker_active rm' = false
  /\ RiskControls._check_daily_reset (1700000000 + 86400) rm' = rm'.
Proof.
  intros rm rm'.
  destruct (daily_reset_on_rollover rm (market_order "AAPL" BUY 10 (Some 150))
              account_object [] (1700000000 + 86400))
    as (Hlater & _ & Hidem).
  destruct Hlater as (Ht & Hp & Hcb & _).
  - vm_compute. reflexivity.
  - split; [reflexivity|]. repeat split; assumption.
Defined.



Lemma concentration_check_raises_on_dict_account_witness :
  let rm := RiskControls.init main_risk_config 1700000000 in
  let order := market_order "AAPL" SELL 100 (Some 200) in
  let held := [aapl_position 200] in
  snd (RiskControls.validate_order order
         (AccountDict {| account_id := "ACC1"; total_assets := 100000;
                         cash := 50000; market_value := 50000;
                         unrealized_pnl := 0; realized_pnl := 0;
                         buying_power := 50000 |})
         held 1700000000 rm)
  = Raise (AttributeError "net_liquidation")
  /\ RiskControls._check_position_concentration rm order
       (AccountObject [("cash", 50000); ("net_liquidation", 100000)]) held
     = Ret (false, RiskControls.HIGH,
            "Position concentration 20.0% exceeds limit 15.0%").
Proof.
  intros rm order held.
  destruct (concentration_check_raises_on_dict_account rm order
              {| account_id := "ACC1"; total_assets := 100000;
                 cash := 50000; market_value := 50000;
                 unrealized_pnl := 0; realized_pnl := 0; buying_power := 50000 |}
              held 1700000000)
    as (_ & Hraise & _ & Hobject).
  split.
  - destruct (Hraise eq_refl) as [attribute Hattr]. rewrite Hattr.
    assert (Hsame : snd (RiskControls.validate_order order
                           (AccountDict {| account_id := "ACC1"; total_assets := 100000;
                                           cash := 50000; market_value := 50000;
                                           unrealized_pnl := 0; realized_pnl := 0;
                                           buying_power := 50000 |})
                           held 1700000000 rm)
                    = Raise (AttributeError "net_liquidation"))
      by (vm_compute; reflexivity).
    rewrite Hattr in Hsame. exact Hsame.
  - apply (Hobject [("cash", 50000); ("net_liquidation", 100000)] 100000);
      vm_compute; reflexivity.
Defined.

Lemma executor_never_raises_witness :
  exists ex' pf' n,
    execute_trade_async 1700000000 "AAPL" "buy" (Some 10) 150
      (connected_executor default_config (gateway_with (Some 150) []), ([] : CallLog))
    = ((ex', pf'), Ret n)
    /\ n = 0%Z
    /\ failed_trades ex'
       = [failure_entry 1700000000 "AAPL" "buy" 10 0 150
            (Some "name 'MarketType' is not defined")]
    /\ rep_recent_failures (get_execution_report ex') = failed_trades ex'.
Proof.
  destruct (executor_never_raises (B:=Futu) (P:=CallLog) 1700000000 "AAPL" "buy"
              (Some 10) 150
              (connected_executor default_config (gateway_with (Some 150) [])) [])
    as (ex' & pf' & n & Hrun & Hcases & _ & _).
  assert (Hpos : 0 < 10) by reflexivity.
  assert (Hne : "buy"%string <> "hold"%string) by discriminate.
  specialize (Hcases 10 eq_refl Hpos Hne).
  simpl in Hcases. destruct Hcases as [Hn Hlog].
  exists ex', pf', n. split; [exact Hrun|]. split; [exact Hn|].
  split; [exact Hlog|].
  unfold get_execution_report. simpl. rewrite Hlog. reflexivity.
Defined.

End Scenarios.

(** ** More on the risk manager *)

Section RiskLimitProperties.

Import RiskControls RiskLimit RiskSummary.
Local Open Scope Q_scope.

Lemma ratio_reaches_one (total max : Q) :
  0 < max -> (1 <= total / max <-> max <= total).
Proof.
  intro Hmax.
  assert (Hne : ~ max == 0) by (intro Hz; rewrite Hz in Hmax; apply (Qlt_irrefl 0 Hmax)).
  rewrite <- (Qmult_le_r 1 (total / max) max Hmax).
  assert (Hdiv : total / max * max == total) by (field; exact Hne).
  rewrite Hdiv, Qmult_1_l. reflexivity.
Qed.

(** X1. [RiskLimit.check_limit] rejects exactly when the limit is enabled,
    its ceiling is positive and the current value plus the addition reaches
    the ceiling; a disabled limit and a limit whose ceiling is zero or
    negative never reject. *)
Theorem check_limit_rejects_iff (l : RiskLimit) (additional_value : Q) :
  fst (fst (check_limit l additional_value)) = false
  <-> (enabled l = true /\ 0 < max_value l
       /\ max_value l <= current_value l + additional_value).
Proof.
  unfold check_limit. destruct (enabled l); simpl.
  2:{ split; [discriminate | intros [Hf _]; discriminate Hf]. }
  destruct (Qltb 0 (max_value l)) eqn:Hmax.
  - apply Qltb_lt in Hmax.
    destruct (Qleb 1 ((current_value l + additional_value) / max_value l)) eqn:Hone.
    + apply Qleb_le in Hone. apply (proj1 (ratio_reaches_one _ _ Hmax)) in Hone.
      simpl. tauto.
    + apply Qleb_gt in Hone.
      assert (Hlow : ~ max_value l <= current_value l + additional_value).
      { intro Hle. apply (proj2 (ratio_reaches_one _ _ Hmax)) in Hle.
        apply (Qlt_not_le _ _ Hone Hle). }
      destruct (Qleb (warning_threshold l) _); [|destruct (Qleb (5 # 10) _)]; simpl;
        (split; [discriminate | intros (_ & _ & Hle); contradiction]).
  - apply Qltb_ge in Hmax.
    change (Qleb 1 0) with false. cbv iota.
    destruct (Qleb (warning_threshold l) 0); [|destruct (Qleb (5 # 10) 0)]; simpl;
      (split; [discriminate
              | intros (_ & Hpos & _); exfalso; apply (Qlt_not_le _ _ Hpos Hmax)]).
Qed.

End RiskLimitProperties.

Section RiskVerdictProperties.

Import RiskControls RiskSummary.
Local Open Scope Q_scope.

Lemma raise_level_is_max (current seen : RiskLevel) :
  severity (raise_level current seen) = Nat.max (severity current) (severity seen).
Proof. destruct current, seen; reflexivity. Qed.

Lemma scan_checks_level now order (checks : list Check) :
  forall level failed rm,
    severity (fst (snd (scan_checks now order checks level failed rm)))
    = fold_left Nat.max (map (fun c => severity (snd (fst c))) checks)
        (severity level).
Proof.
  induction checks as [|[[ok lv] msg] checks IH]; intros level failed rm; simpl.
  - reflexivity.
  - rewrite IH, raise_level_is_max. reflexivity.
Qed.

(** X2. The level the loop of [validate_order] ends with is the most severe
    level among the checks it scanned (and the level it started from), in
    the order LOW < MEDIUM < HIGH < CRITICAL, whether the checks passed or
    failed. *)
Theorem scanned_level_is_maximum now order (checks : list Check) level failed rm :
  severity (fst (snd (scan_checks now order checks level failed rm)))
  = fold_left Nat.max (map (fun c => severity (snd (fst c))) checks)
      (severity level).
Proof. apply scan_checks_level. Qed.

Lemma scan_checks_effect now order (checks : list Check) :
  forall level failed rm,
    let out := scan_checks now order checks level failed rm in
    snd (snd out) = (failed ++ map snd (failing checks))%list
    /\ risk_events (fst out)
       = (risk_events rm
            ++ map (fun c => mkRiskEvent now order (snd c) (snd (fst c)))
                 (failing checks))%list
    /\ limits (fst out) = limits rm
    /\ daily_pnl (fst out) = daily_pnl rm
    /\ daily_trades (fst out) = daily_trades rm
    /\ trade_history (fst out) = trade_history rm
    /\ last_reset (fst out) = last_reset rm
    /\ circuit_breaker_active (fst out) = circuit_breaker_active rm.
Proof.
  induction checks as [|[[ok lv] msg] checks IH]; intros level failed rm; simpl.
  - rewrite !app_nil_r. repeat split.
  - destruct ok; simpl.
    + apply IH.
    + destruct (IH (raise_level level lv) (failed ++ [msg])%list
                  (_log_risk_event now order msg lv rm))
        as (Hf & He & Hrest).
      split; [rewrite Hf, <- app_assoc; reflexivity|].
      split; [rewrite He; simpl; rewrite <- app_assoc; reflexivity|].
      exact Hrest.
Qed.

(** X3. The loop of [validate_order] collects the messages of the failing
    checks, in order, and appends one risk event per failing check, with its
    message and level; passing checks, whatever their level, leave no event.
    Nothing else of the manager changes. *)
Theorem failing_checks_are_logged now order (checks : list Check) level failed rm :
  let out := scan_checks now order checks level failed rm in
  let bad := filter (fun c => negb (fst (fst c))) checks in
  snd (snd out) = (failed ++ map snd bad)%list
  /\ risk_events (fst out)
     = (risk_events rm
          ++ map (fun c => mkRiskEvent now order (snd c) (snd (fst c))) bad)%list
  /\ limits (fst out) = limits rm
  /\ daily_pnl (fst out) = daily_pnl rm
  /\ daily_trades (fst out) = daily_trades rm
  /\ trade_history (fst out) = trade_history rm
  /\ last_reset (fst out) = last_reset rm
  /\ circuit_breaker_active (fst out) = circuit_breaker_active rm.
Proof. apply scan_checks_effect. Qed.

Lemma position_size_value rm order account_info :
  fst (fst (_check_position_size rm order account_info)) = true
  <-> estimated_position_value order <= max_position_size (limits rm).
Proof.
  unfold _check_position_size, estimated_position_value.
  assert (Hv : match price order with
               | Some p => if truthy (Some p)
                           then inject_Z (quantity order) * p
                           else inject_Z (quantity order) * 100
               | None => inject_Z (quantity order) * 100
               end
               = (if truthy (price order)
                  then inject_Z (quantity order) * or_else (price order) 0
                  else inject_Z (quantity order) * 100)).
  { destruct (price order) as [p|]; [|reflexivity].
    unfold truthy, or_else. destruct (Qeq_bool p 0); reflexivity. }
  rewrite Hv. clear Hv.
  set (v := if truthy (price order) then _ else _).
  destruct (Qltb (max_position_size (limits rm)) v) eqn:E.
  - apply Qltb_lt in E. simpl. split; [discriminate|].
    intro Hle. exfalso. apply (Qlt_not_le _ _ E Hle).
  - apply Qltb_ge in E. destruct (Qltb _ v); simpl; tauto.
Qed.

Lemma position_size_not_critical rm order account_info :
  fst (fst (_check_position_size rm order account_info)) = true ->
  snd (fst (_check_position_size rm order account_info)) <> CRITICAL.
Proof.
  unfold _check_position_size.
  destruct (Qltb _ _); [discriminate|]. destruct (Qltb _ _); simpl; discriminate.
Qed.

Lemma cash_reserve_valid rm order account_info lv msg :
  _check_cash_reserve rm order account_info = Ret (true, lv, msg) ->
  lv <> CRITICAL
  /\ (side order = BUY ->
      exists c,
        getattr account_info "cash" = Ret c
        /\ min_cash_reserve (limits rm)
           <= c - inject_Z (quantity order) * or_else (price order) 0).
Proof.
  unfold _check_cash_reserve. destruct (side order).
  - destruct (getattr account_info "cash") as [c|e]; [|discriminate].
    destruct (Qltb _ _) eqn:E; [discriminate|]. apply Qltb_ge in E.
    destruct (Qltb _ _); intro Hret; injection Hret as <- <-;
      (split; [discriminate | intros _; exists c; split; [reflexivity | exact E]]).
  - intro Hret. injection Hret as <- <-. split; [discriminate | discriminate].
Qed.

Lemma daily_loss_valid account_info rm rm' lv msg :
  _check_daily_loss account_info rm = (rm', Ret (true, lv, msg)) ->
  rm' = rm /\ lv <> CRITICAL /\ - max_daily_loss (limits rm) <= daily_pnl rm.
Proof.
  unfold _check_daily_loss.
  destruct (Qltb (daily_pnl rm) (- max_daily_loss (limits rm))) eqn:E; [discriminate|].
  apply Qltb_ge in E.
  destruct (Qltb _ _); intro Hret; injection Hret as <- <-;
    (split; [reflexivity | split; [discriminate | exact E]]).
Qed.

Lemma daily_loss_never_raises account_info rm :
  exists rm' check, _check_daily_loss account_info rm = (rm', Ret check).
Proof.
  unfold _check_daily_loss. destruct (Qltb _ _); [eauto|]. destruct (Qltb _ _); eauto.
Qed.

Lemma trading_frequency_valid rm :
  fst (fst (_check_trading_frequency rm)) = true
  <-> inject_Z (daily_trades rm) < max_trades_per_day (limits rm).
Proof.
  unfold _check_trading_frequency.
  destruct (Qleb (max_trades_per_day (limits rm)) (inject_Z (daily_trades rm))) eqn:E.
  - apply Qleb_le in E. simpl. split; [discriminate|].
    intro Hlt. exfalso. apply (Qlt_not_le _ _ Hlt E).
  - apply Qleb_gt in E. destruct (Qleb _ _); simpl; tauto.
Qed.

Lemma trading_frequency_not_critical rm :
  fst (fst (_check_trading_frequency rm)) = true ->
  snd (fst (_check_trading_frequency rm)) <> CRITICAL.
Proof.
  unfold _check_trading_frequency.
  destruct (Qleb _ _); [discriminate|]. destruct (Qleb _ _); simpl; discriminate.
Qed.

Lemma concentration_valid rm order account_info positions lv msg :
  _check_position_concentration rm order account_info positions = Ret (true, lv, msg) ->
  lv <> CRITICAL
  /\ exists pv,
       getattr account_info "net_liquidation" = Ret pv
       /\ (0 < pv ->
           new_position_value order positions / pv
           <= max_position_concentration (limits rm)).
Proof.
  unfold _check_position_concentration.
  destruct (getattr account_info "net_liquidation") as [pv|e]; [|discriminate].
  destruct (Qleb pv 0) eqn:E0.
  - apply Qleb_le in E0. intro Hret. injection Hret as <- <-.
    split; [discriminate|]. exists pv. split; [reflexivity|].
    intro Hpos. exfalso. apply (Qlt_not_le _ _ Hpos E0).
  - apply Qleb_gt in E0. apply Qltb_lt in E0. rewrite E0.
    destruct (Qltb (max_position_concentration (limits rm)) _) eqn:E; [discriminate|].
    apply Qltb_ge in E. clear E0.
    destruct (Qltb _ _); intro Hret; injection Hret as <- <-;
      (split; [discriminate | exists pv; split; [reflexivity | intros _; exact E]]).
Qed.

Lemma scan_checks_all_valid now order (checks : list Check) :
  forall level failed rm,
    failing checks = [] ->
    fst (scan_checks now order checks level failed rm) = rm.
Proof.
  induction checks as [|[[ok lv] msg] checks IH]; intros level failed rm Hnone; simpl.
  - reflexivity.
  - unfold failing in Hnone. simpl in Hnone. destruct ok; simpl in *.
    + apply IH. exact Hnone.
    + discriminate Hnone.
Qed.

(** X4. An approval of [validate_order] is sound for the limits: when the
    verdict is approved, the circuit breaker is off, the estimated position
    value is within [max_position_size], the daily P&L is not below
    [-max_daily_loss], fewer than [max_trades_per_day] trades were recorded,
    a BUY leaves at least [min_cash_reserve] of the account's cash, and the
    projected concentration is within [max_position_concentration] when the
    portfolio value is positive.  The verdict's reason is "All risk checks
    passed", its level is not CRITICAL, and the manager is left in the state
    the daily reset check produced (no event logged). *)
Theorem approval_respects_limits order account_info positions now rm reason level :
  snd (validate_order order account_info positions now rm) = Ret (true, reason, level) ->
  let rm0 := _check_daily_reset now rm in
  fst (validate_order order account_info positions now rm) = rm0
  /\ reason = "All risk checks passed"%string
  /\ level <> CRITICAL
  /\ circuit_breaker_active rm0 = false
  /\ estimated_position_value order <= max_position_size (limits rm0)
  /\ - max_daily_loss (limits rm0) <= daily_pnl rm0
  /\ inject_Z (daily_trades rm0) < max_trades_per_day (limits rm0)
  /\ (side order = BUY ->
      exists c,
        getattr account_info "cash" = Ret c
        /\ min_cash_reserve (limits rm0)
           <= c - inject_Z (quantity order) * or_else (price order) 0)
  /\ exists pv,
       getattr account_info "net_liquidation" = Ret pv
       /\ (0 < pv ->
           new_position_value order positions / pv
           <= max_position_concentration (limits rm0)).
Proof.
  intro Hret. cbv zeta. unfold validate_order in *.
  set (rm0 := _check_daily_reset now rm) in *.
  unfold evaluate_order, bind, gets, ret in *.
  destruct (circuit_breaker_active rm0) eqn:Hcb; [discriminate Hret|].
  destruct (_check_cash_reserve rm0 order account_info) as [c2|e] eqn:E2;
    [|discriminate Hret].
  destruct (_check_daily_loss account_info rm0) as [rm1 [c3|e]] eqn:E3;
    [|discriminate Hret].
  destruct (_check_position_concentration rm1 order account_info positions)
    as [c5|e] eqn:E5; [|discriminate Hret].
  pose proof (scan_checks_effect now order
                [_check_position_size rm0 order account_info; c2; c3;
                 _check_trading_frequency rm1; c5] LOW [] rm1) as Heff.
  pose proof (scan_checks_level now order
                [_check_position_size rm0 order account_info; c2; c3;
                 _check_trading_frequency rm1; c5] LOW [] rm1) as Hlvl.
  pose proof (scan_checks_all_valid now order
                [_check_position_size rm0 order account_info; c2; c3;
                 _check_trading_frequency rm1; c5] LOW [] rm1) as Hsame.
  destruct (scan_checks now order _ LOW [] rm1) as [rm2 [lvl failed]].
  simpl fst in *. simpl snd in *.
  destruct Heff as (Hfailed & _).
  destruct failed as [|f failed]; [|discriminate Hret].
  injection Hret as <- <-.
  symmetry in Hfailed. simpl in Hfailed. apply map_eq_nil in Hfailed.
  specialize (Hsame Hfailed).
  unfold failing in Hfailed.
  destruct (_check_position_size rm0 order account_info) as [[b1 l1] m1] eqn:E1.
  destruct c2 as [[b2 l2] m2], c3 as [[b3 l3] m3], c5 as [[b5 l5] m5].
  destruct (_check_trading_frequency rm1) as [[b4 l4] m4] eqn:E4.
  simpl in Hfailed.
  destruct b1; [|discriminate Hfailed]. destruct b2; [|discriminate Hfailed].
  destruct b3; [|discriminate Hfailed]. destruct b4; [|discriminate Hfailed].
  destruct b5; [|discriminate Hfailed]. clear Hfailed.
  destruct (daily_loss_valid _ _ _ _ _ E3) as (-> & Hl3 & Hpnl).
  destruct (cash_reserve_valid _ _ _ _ _ E2) as (Hl2 & Hcash).
  destruct (concentration_valid _ _ _ _ _ _ E5) as (Hl5 & Hconc).
  assert (Hl1 : l1 <> CRITICAL).
  { pose proof (position_size_not_critical rm0 order account_info) as Hn.
    rewrite E1 in Hn. apply Hn. reflexivity. }
  assert (Hl4 : l4 <> CRITICAL).
  { pose proof (trading_frequency_not_critical rm0) as Hn.
    rewrite E4 in Hn. apply Hn. reflexivity. }
  split; [exact Hsame|]. split; [reflexivity|].
  split.
  { intro Hc. subst lvl. simpl in Hlvl.
    destruct l1, l2, l3, l4, l5; simpl in Hlvl; congruence. }
  split; [reflexivity|].
  split.
  { apply (position_size_value rm0 order account_info). rewrite E1. reflexivity. }
  split; [exact Hpnl|].
  split.
  { apply trading_frequency_valid. rewrite E4. reflexivity. }
  split; [exact Hcash | exact Hconc].
Qed.

End RiskVerdictProperties.

Section RiskStateProperties.

Import RiskControls RiskSummary.
Local Open Scope Q_scope.

Lemma concentration_returns rm order attributes positions (pv : Q) :
  lookup_attr "net_liquidation" attributes = Some pv ->
  exists check,
    _check_position_concentration rm order (AccountObject attributes) positions
    = Ret check.
Proof.
  intro Hattr. unfold _check_position_concentration. simpl. rewrite Hattr.
  destruct (Qleb pv 0); [eauto|].
  destruct (Qltb (max_position_concentration (limits rm)) _); [eauto|].
  destruct (Qltb (max_position_concentration (limits rm) * _) _); eauto.
Qed.

(** X5. A manual [reset_circuit_breaker] does not reopen trading while the
    loss persists: if [daily_pnl] is still below [-max_daily_loss], the next
    [validate_order] of the same day (on an account object carrying [cash]
    and [net_liquidation]) rejects at level CRITICAL and leaves the breaker
    active again. *)
Theorem manual_reset_rearmed_while_loss_persists
    rm order attributes positions now (cash_value pv : Q) :
  daily_pnl rm < - max_daily_loss (limits rm) ->
  (date now <= last_reset rm)%Z ->
  lookup_attr "cash" attributes = Some cash_value ->
  lookup_attr "net_liquidation" attributes = Some pv ->
  exists rm' reason,
    validate_order order (AccountObject attributes) positions now
      (reset_circuit_breaker rm)
    = (rm', Ret (false, reason, CRITICAL))
    /\ circuit_breaker_active rm' = true
    /\ circuit_breaker_active (reset_circuit_breaker rm) = false.
Proof.
  intros Hloss Hday Hcash Hnet.
  unfold validate_order.
  rewrite daily_reset_same_day by exact Hday.
  set (rm0 := reset_circuit_breaker rm).
  unfold evaluate_order, bind, gets, ret.
  change (circuit_breaker_active rm0) with false. cbv iota.
  destruct (cash_reserve_returns rm0 order attributes cash_value Hcash) as [c2 Hc2].
  rewrite Hc2.
  assert (Hc3 : _check_daily_loss (AccountObject attributes) rm0
                = (set_circuit_breaker true rm0,
                   Ret (false, CRITICAL,
                        ("Daily loss limit exceeded: $"
                           ++ format_f 2 (Qabs (daily_pnl rm0)))%string))).
  { unfold _check_daily_loss.
    assert (E : Qltb (daily_pnl rm0) (- max_daily_loss (limits rm0)) = true)
      by (apply Qltb_lt; exact Hloss).
    rewrite E. reflexivity. }
  rewrite Hc3.
  destruct (concentration_returns (set_circuit_breaker true rm0) order attributes
              positions pv Hnet) as [c5 Hc5].
  rewrite Hc5. cbv beta iota.
  match goal with
  | |- context [scan_checks now order ?cs LOW [] ?r] =>
      pose proof (scan_checks_effect now order cs LOW [] r) as Heff;
      pose proof (scan_checks_level now order cs LOW [] r) as Hlvl;
      destruct (scan_checks now order cs LOW [] r) as [rm2 [lvl failed]]
  end.
  simpl fst in *. simpl snd in *.
  destruct Heff as (Hfailed & _ & _ & _ & _ & _ & _ & Hcb).
  assert (Hcrit : lvl = CRITICAL).
  { simpl in Hlvl.
    destruct (snd (fst (_check_position_size rm0 order (AccountObject attributes))));
      destruct (snd (fst c2));
      destruct (snd (fst (_check_trading_frequency (set_circuit_breaker true rm0))));
      destruct (snd (fst c5)); destruct lvl; simpl in Hlvl; congruence. }
  assert (Hne : failed <> []).
  { rewrite Hfailed. unfold failing. simpl.
    destruct (fst (fst (_check_position_size rm0 order (AccountObject attributes))));
      destruct (fst (fst c2)); simpl; discriminate. }
  destruct failed as [|f failed]; [exfalso; apply Hne; reflexivity|].
  subst lvl. eexists _, _. split; [reflexivity|]. split; [exact Hcb | reflexivity].
Qed.

Lemma record_trades_count n order executed_qty execution_price now :
  forall rm,
    daily_trades (record_trades n order executed_qty execution_price now rm)
    = (daily_trades rm + Z.of_nat n)%Z
    /\ limits (record_trades n order executed_qty execution_price now rm) = limits rm
    /\ List.length
         (trade_history (record_trades n order executed_qty execution_price now rm))
       = (List.length (trade_history rm) + n)%nat.
Proof.
  induction n as [|n IH]; intro rm; simpl record_trades.
  - rewrite Z.add_0_r, Nat.add_0_r. auto.
  - destruct (IH (record_trade order executed_qty execution_price now rm))
      as (Hd & Hl & Hh).
    rewrite Hd, Hl, Hh. simpl. rewrite length_app. simpl.
    repeat split; lia.
Qed.

(** X6. Each [record_trade] raises [daily_trades] by one and adds one entry
    to [trade_history], so after [n] recorded trades the trading-frequency
    check fails exactly when [daily_trades + n] has reached
    [max_trades_per_day], and then at level CRITICAL. *)
Theorem trade_limit_after_recorded_trades n order executed_qty execution_price now rm :
  let rm' := record_trades n order executed_qty execution_price now rm in
  daily_trades rm' = (daily_trades rm + Z.of_nat n)%Z
  /\ List.length (trade_history rm') = (List.length (trade_history rm) + n)%nat
  /\ (fst (fst (_check_trading_frequency rm')) = false
      <-> max_trades_per_day (limits rm) <= inject_Z (daily_trades rm + Z.of_nat n))
  /\ (fst (fst (_check_trading_frequency rm')) = false ->
      snd (fst (_check_trading_frequency rm')) = CRITICAL).
Proof.
  intro rm'.
  destruct (record_trades_count n order executed_qty execution_price now rm)
    as (Hd & Hl & Hh).
  fold rm' in Hd, Hl, Hh.
  split; [exact Hd|]. split; [exact Hh|]. split.
  - unfold _check_trading_frequency. rewrite Hl, Hd.
    destruct (Qleb (max_trades_per_day (limits rm))
                (inject_Z (daily_trades rm + Z.of_nat n))) eqn:E.
    + apply Qleb_le in E. simpl. tauto.
    + apply Qleb_gt in E.
      destruct (Qleb _ _); simpl;
        (split; [discriminate | intro Hle; exfalso; apply (Qlt_not_le _ _ E Hle)]).
  - unfold _check_trading_frequency.
    destruct (Qleb _ _); [reflexivity|]. destruct (Qleb _ _); simpl; discriminate.
Qed.

Lemma volume_of_app history trade :
  volume_of (history ++ [trade])
  = volume_of history + inject_Z (tr_quantity trade) * tr_price trade.
Proof. unfold volume_of. rewrite fold_left_app. reflexivity. Qed.

(** X7. In the risk summary, a recorded trade adds its quantity times its
    price to the session's [total_volume] and one to its [trades_count];
    [emergency_stop] repeats [circuit_breaker_active], and the list of
    circuit breakers has its single entry exactly when the breaker is
    active. *)
Theorem summary_after_recorded_trade order executed_qty execution_price now rm :
  let before := get_risk_summary rm in
  let after := get_risk_summary (record_trade order executed_qty execution_price now rm) in
  total_volume (current_session after)
  = total_volume (current_session before) + inject_Z executed_qty * execution_price
  /\ trades_count (current_session after)
     = (trades_count (current_session before) + 1)%Z
  /\ emergency_stop after = circuit_breaker_active rm
  /\ (circuit_breakers after = [] <-> circuit_breaker_active rm = false)
  /\ (List.length (circuit_breakers after) <= 1)%nat.
Proof.
  simpl. rewrite volume_of_app. simpl.
  split; [reflexivity|]. split; [reflexivity|]. split; [reflexivity|].
  destruct (circuit_breaker_active rm); simpl; split;
    try (split; [discriminate | discriminate]); try tauto; lia.
Qed.

Lemma update_pnl_breaker_iff change rm :
  circuit_breaker_active (update_pnl change rm) = true
  <-> circuit_breaker_active rm = true
      \/ daily_pnl rm + change < - max_daily_loss (limits rm).
Proof.
  unfold update_pnl. simpl.
  destruct (Qltb (daily_pnl rm + change) (- max_daily_loss (limits rm))) eqn:E.
  - apply Qltb_lt in E. simpl. tauto.
  - apply Qltb_ge in E. simpl. split; [tauto|].
    intros [H | H]; [exact H | exfalso; apply (Qlt_not_le _ _ H E)].
Qed.

(** X8. The circuit breaker is a latch on the running P&L: after a sequence
    of [update_pnl] calls, [daily_pnl] is the running sum, and the breaker is
    active exactly when it was active before or the running P&L was below
    [-max_daily_loss] after one of the calls -- also when later gains brought
    the P&L back above the limit. *)
Theorem breaker_latches_on_running_pnl (changes : list Q) :
  forall rm,
    daily_pnl (update_pnls changes rm) = running_pnl (daily_pnl rm) changes
    /\ (circuit_breaker_active (update_pnls changes rm) = true
        <-> circuit_breaker_active rm = true
            \/ exists k,
                 (0 < k <= List.length changes)%nat
                 /\ running_pnl (daily_pnl rm) (firstn k changes)
                    < - max_daily_loss (limits rm)).
Proof.
  induction changes as [|c changes IH]; intro rm.
  - simpl. split; [reflexivity|]. split; [tauto|].
    intros [H | (k & Hk & _)]; [exact H | simpl in Hk; lia].
  - change (update_pnls (c :: changes) rm) with (update_pnls changes (update_pnl c rm)).
    destruct (IH (update_pnl c rm)) as (Hpnl & Hcb).
    rewrite update_pnl_daily_pnl, update_pnl_limits in *.
    split; [exact Hpnl|].
    rewrite Hcb, update_pnl_breaker_iff. split.
    + intros [[H | H] | (k & Hk & Hlow)].
      * left. exact H.
      * right. exists 1%nat. simpl. split; [lia | exact H].
      * right. exists (S k). simpl. split; [lia | exact Hlow].
    + intros [H | (k & Hk & Hlow)]; [left; left; exact H|].
      destruct k as [|k]; [lia|]. simpl in Hlow, Hk.
      destruct k as [|k].
      * left. right. simpl in Hlow. exact Hlow.
      * right. exists (S k). split; [lia | exact Hlow].
Qed.

End RiskStateProperties.

(** ** More on the trader *)

Section FutuTraderProperties.

Import BaseTrader.
Import FutuTrader.
Local Open Scope Q_scope.

(** X9. [connect] never raises.  It returns [True] exactly when it has
    marked the trader connected (with a quote context); when it returns
    [False], [is_connected] is as before.  It opens no trade context in
    dry-run mode and touches neither the configuration, the trade history
    nor the broker's orders. *)
Theorem connect_reports_connection (t : FutuTrader) :
  exists b,
    snd (connect t) = Ret b
    /\ (b = true ->
        is_connected (fst (connect t)) = true
        /\ quote_ctx (backend (fst (connect t))) = true)
    /\ (b = false -> is_connected (fst (connect t)) = is_connected t)
    /\ (dry_run (config t) = true ->
        trade_ctx (backend (fst (connect t))) = trade_ctx (backend t))
    /\ config (fst (connect t)) = config t
    /\ trade_history (fst (connect t)) = trade_history t
    /\ placed_orders (backend (fst (connect t))) = placed_orders (backend t).
Proof.
  unfold connect, try_except, bind, call, modify, gets, ret, raise.
  destruct (open_quote_context (gateway (backend t))); simpl;
    try (exists false; repeat split; intros; try discriminate; reflexivity).
  - destruct (subscribe (gateway (backend t)) "HK.00700"); simpl;
      try (exists false; repeat split; intros; try discriminate; reflexivity).
    + destruct (dry_run (config t)) eqn:Hdry; simpl.
      * exists true. repeat split; intros; try discriminate; reflexivity.
      * destruct (open_trade_context (gateway (backend t))); simpl;
          exists true; repeat split; intros; try discriminate; reflexivity.
    + destruct (dry_run (config t)) eqn:Hdry; simpl.
      * exists true. repeat split; intros; try discriminate; reflexivity.
      * destruct (open_trade_context (gateway (backend t))); simpl;
          exists true; repeat split; intros; try discriminate; reflexivity.
  - destruct (subscribe (gateway (backend t)) "HK.00700"); simpl;
      try (exists false; repeat split; intros; try discriminate; reflexivity).
    + destruct (dry_run (config t)) eqn:Hdry; simpl.
      * exists true. repeat split; intros; try discriminate; reflexivity.
      * destruct (open_trade_context (gateway (backend t))); simpl;
          exists true; repeat split; intros; try discriminate; reflexivity.
    + destruct (dry_run (config t)) eqn:Hdry; simpl.
      * exists true. repeat split; intros; try discriminate; reflexivity.
      * destruct (open_trade_context (gateway (backend t))); simpl;
          exists true; repeat split; intros; try discriminate; reflexivity.
Qed.

(** X10. A trader that is not connected answers no query and submits
    nothing: no account, no positions, no price, and [submit_order] returns
    a REJECTED result ("Not connected") with nothing filled, leaving the
    trader and the broker untouched. *)
Theorem disconnected_trader_does_nothing (t : FutuTrader) (order : TradeOrder) (sym : string) :
  is_connected t = false ->
  get_account_info t = (t, Ret None)
  /\ get_positions t = (t, Ret [])
  /\ get_market_price sym t = (t, Ret None)
  /\ submit_order order t
     = (t, Ret (unfilled order (uuid4 (gateway (backend t)))
                  (clock (gateway (backend t))) REJECTED (Some NotConnected))).
Proof.
  intro Hconn.
  unfold get_account_info, get_positions, get_market_price, gets,
    current_account_info, current_positions, quoted_price.
  rewrite Hconn. simpl. repeat split.
  apply submit_order_rejected.
  unfold validate_trade, bind, gets. rewrite Hconn. reflexivity.
Qed.

Lemma validate_trade_pure (order : TradeOrder) (t : FutuTrader) :
  validate_trade order t = (t, ExecutorSession.live_verdict order t).
Proof.
  unfold validate_trade, ExecutorSession.live_verdict, bind, gets, ret.
  destruct (is_connected t); simpl; [|reflexivity].
  destruct (dry_run (config t)); [reflexivity|].
  unfold get_account_info, gets.
  destruct (current_account_info t) as [account|]; reflexivity.
Qed.

(** [submit_order] on the Futu trader, by the outcome of the validation. *)
Lemma submit_order_outcome (t : FutuTrader) (order : TradeOrder) :
  submit_order order t
  = (t, match ExecutorSession.live_verdict order t with
        | Raise e => Raise e
        | Ret (false, msg) => Ret (refusal t order REJECTED msg)
        | Ret (true, _) =>
            Ret (refusal t order FAILED
                   (if truthy (quoted_price (symbol order) t)
                    then ExceptionText no_value_attribute
                    else NoMarketPriceForSimulation))
        end).
Proof.
  unfold submit_order. unfold bind at 1. unfold get. unfold bind at 1.
  rewrite validate_trade_pure. unfold ExecutorSession.live_verdict.
  destruct (is_connected t); simpl; [|reflexivity].
  destruct (dry_run (config t)) eqn:Hdry.
  - cbn [negb]. unfold bind, gets. rewrite Hdry. apply simulate_order_outcome.
  - destruct (current_account_info t); reflexivity.
Qed.

(** X11. In live mode [validate_trade] never approves an order, for any
    implementation of the queries.  Not connected, it rejects; without an
    account, it rejects; and once the account query has returned an
    account, the buying-power test reads [order.side.value] on a [str] and
    the call raises [AttributeError], leaving the trader as the account
    query left it.  The three checks that follow are never run. *)
Theorem live_validation_never_approves {B : Type} `{Queries B}
    (t : Trader B) (order : TradeOrder) :
  dry_run (config t) = false ->
  (forall t' msg, validate_trade order t <> (t', Ret (true, msg)))
  /\ (is_connected t = false -> validate_trade order t = (t, Ret (false, NotConnected)))
  /\ (is_connected t = true ->
      forall t',
        BaseTrader.get_account_info t = (t', Ret None) ->
        validate_trade order t = (t', Ret (false, NoAccountInformation)))
  /\ (is_connected t = true ->
      forall t' account,
        BaseTrader.get_account_info t = (t', Ret (Some account)) ->
        validate_trade order t = (t', Raise (AttributeError "value"))).
Proof.
  intro Hdry. unfold validate_trade, bind, gets, ret.
  destruct (is_connected t); simpl.
  - rewrite Hdry.
    destruct (BaseTrader.get_account_info t) as [t1 [[account|] | e]] eqn:Hacc.
    + split; [intros t' msg Heq; discriminate Heq|].
      split; [discriminate|].
      split; [intros _ t' Heq; discriminate Heq|].
      intros _ t' account' Heq. injection Heq as <- _. reflexivity.
    + split; [intros t' msg Heq; discriminate Heq|].
      split; [discriminate|].
      split; [intros _ t' Heq; injection Heq as <-; reflexivity|].
      intros _ t' account' Heq. discriminate Heq.
    + split; [intros t' msg Heq; discriminate Heq|].
      split; [discriminate|].
      split; [intros _ t' Heq; discriminate Heq|].
      intros _ t' account' Heq. discriminate Heq.
  - split; [intros t' msg Heq; discriminate Heq|].
    split; [reflexivity|]. split; discriminate.
Qed.

(** X12. A dry-run submission is all or nothing and touches nothing: the
    trader (and with it the trace of orders placed at the broker) is
    unchanged, and the result is either FILLED for the full quantity with a
    fill price and no error, or REJECTED / FAILED with nothing filled, no
    price and an error message. *)
Theorem dry_run_submission_all_or_nothing (t : FutuTrader) (order : TradeOrder) :
  dry_run (config t) = true ->
  exists r,
    submit_order order t = (t, Ret r)
    /\ r_quantity r = quantity order
    /\ ((status r = FILLED /\ filled_quantity r = quantity order
         /\ avg_price r <> None /\ error_msg r = None)
        \/ ((status r = REJECTED \/ status r = FAILED)
            /\ filled_quantity r = 0%Z /\ avg_price r = None
            /\ error_msg r <> None)).
Proof.
  intro Hdry. rewrite submit_order_outcome. unfold ExecutorSession.live_verdict.
  rewrite Hdry.
  destruct (is_connected t); simpl; eexists;
    (split; [reflexivity|]); (split; [reflexivity|]); right; simpl;
    repeat split; auto; discriminate.
Qed.

(** X13. [submit_order] of the Futu trader never reports a fill and never
    changes the trader, so it never sends an order to the broker.  It
    returns a result for the order with nothing filled, no price, status
    REJECTED or FAILED and an error message; or it raises.  It raises
    exactly in live mode on a connected trader whose account query returns
    an account: the validation, awaited before the [try] block, raises
    [AttributeError] there.  The code that places the real order is
    therefore never reached. *)
Theorem submit_order_never_fills (t : FutuTrader) (order : TradeOrder) :
  fst (submit_order order t) = t
  /\ match snd (submit_order order t) with
     | Ret r =>
         ExecutorSession.describes order r
         /\ filled_quantity r = 0%Z
         /\ avg_price r = None
         /\ (status r = REJECTED \/ status r = FAILED)
         /\ error_msg r <> None
     | Raise e => e = AttributeError "value"
     end
  /\ ((exists e, snd (submit_order order t) = Raise e)
      <-> (is_connected t = true
           /\ dry_run (config t) = false
           /\ current_account_info t <> None)).
Proof.
  rewrite submit_order_outcome. unfold ExecutorSession.live_verdict,
    ExecutorSession.describes.
  split; [reflexivity|]. simpl.
  destruct (is_connected t); simpl.
  2:{ split; [repeat split; auto; discriminate|].
      split; [intros [e He]; discriminate He | intros (Hc & _); discriminate Hc]. }
  destruct (dry_run (config t)); simpl.
  { split; [repeat split; auto; discriminate|].
    split; [intros [e He]; discriminate He | intros (_ & Hd & _); discriminate Hd]. }
  destruct (current_account_info t) as [account|]; simpl.
  - split; [reflexivity|]. split; [intros _; repeat split; discriminate|].
    intros _. eexists. reflexivity.
  - split; [repeat split; auto; discriminate|].
    split; [intros [e He]; discriminate He | intros (_ & _ & Hn); contradiction].
Qed.

End FutuTraderProperties.

(** ** More on the executor *)

Section ExecutorRunProperties.

Import BaseTrader LiveExecutor ExecutorSession.
Local Open Scope Q_scope.

Context {B P : Type} `{Submission B} `{PortfolioOps P}.

(** X14. For a missing or non-positive quantity, and for the action "hold",
    [execute_trade_async] returns 0 and changes nothing: the trader is not
    called, no counter moves, nothing is logged and the portfolio is left
    alone. *)
Theorem no_trade_without_quantity_or_on_hold now ticker action
    (quantity : option Q) (current_price : Q) (store : @Store B P) :
  (quantity = None \/ (exists q, quantity = Some q /\ q <= 0) \/ action = "hold"%string) ->
  execute_trade_async now ticker action quantity current_price store = (store, Ret 0%Z).
Proof.
  intros [-> | [(q & -> & Hq) | ->]]; unfold execute_trade_async.
  - reflexivity.
  - apply Qleb_le in Hq. rewrite Hq. reflexivity.
  - destruct quantity as [q|]; [|reflexivity].
    destruct (Qleb q 0); reflexivity.
Qed.

Lemma execute_trade_not_submitted ticker action (quantity : Z)
    (current_price : option Q) (t : Trader B) :
  (quantity <= 0)%Z
  \/ _convert_action_to_order ticker action quantity current_price = Ret None ->
  trader_execute_trade ticker action quantity current_price t = (t, Ret 0%Z).
Proof.
  intros [Hq | Hconv]; cbn [trader_execute_trade inherited_execution];
    unfold execute_trade.
  - destruct (Z.leb_spec quantity 0); [|lia].
    rewrite orb_true_r. reflexivity.
  - rewrite Hconv. destruct (_ || _); reflexivity.
Qed.

(** X15. A positive quantity below one share, or an action that is none of
    buy, sell, short, cover and hold, never reaches [submit_order]: the
    trader is unchanged and 0 is returned, but the call is counted in
    [total_trades] and logged in [failed_trades] (with no error text). *)
Theorem unsubmittable_trade_is_counted_as_failed now ticker action
    (requested current_price : Q) (ex : LiveTradeExecutor B) (pf : P) :
  0 < requested ->
  action <> "hold"%string ->
  (int requested <= 0)%Z
  \/ _convert_action_to_order ticker action (int requested) (Some current_price)
     = Ret None ->
  execute_trade_async now ticker action (Some requested) current_price (ex, pf)
  = ((mkExecutor (trader ex) (sync_portfolio ex) (execution_history ex)
        (failed_trades ex
           ++ [failure_entry now ticker action requested 0 current_price None])%list
        (total_trades ex + 1)%Z (successful_trades ex), pf), Ret 0%Z).
Proof.
  intros Hpos Hhold Hnot.
  rewrite execute_trade_async_cases.
  - rewrite (execute_trade_not_submitted _ _ _ _ _ Hnot). reflexivity.
  - apply Qleb_gt. exact Hpos.
  - destruct (String.eqb_spec action "hold"); [contradiction | reflexivity].
Qed.





End ExecutorRunProperties.

Section InheritedRunProperties.

Import BaseTrader LiveExecutor ExecutorSession.
Local Open Scope Q_scope.

Context {B P : Type} `{Submission B} `{PortfolioOps P}.

(** X19. The [execute_trade] that every trader inherits from [BaseTrader]
    never gets as far as [submit_order], whatever the subclass makes of
    that method: for a positive quantity of "buy", "sell", "short" or
    "cover" it raises [NameError] in [_detect_market], which reads the name
    [MarketType] that [base_trader.py] does not import; in every other
    case it returns 0.  The trader, and with it its trade history, is
    unchanged. *)
Theorem inherited_execute_trade_never_submits ticker action (quantity : Z)
    (current_price : option Q) (t : Trader B) :
  let out := execute_trade ticker action quantity current_price t in
  fst out = t
  /\ (snd out = Raise (NameError "MarketType")
      <-> ((0 < quantity)%Z /\ In action ["buy"; "sell"; "short"; "cover"]%string))
  /\ (snd out = Ret 0%Z
      <-> ~ ((0 < quantity)%Z /\ In action ["buy"; "sell"; "short"; "cover"]%string)).
Proof.
  cbv zeta. rewrite execute_trade_outcome. cbn [fst snd].
  split; [reflexivity|].
  pose proof (names_order_iff action) as Hn.
  destruct (Z.ltb_spec 0 quantity) as [Hpos | Hle];
    destruct (names_order action); cbn [andb].
  - split; [tauto|]. split; [discriminate|]. intro Hnot. exfalso. tauto.
  - split.
    + split; [discriminate|]. intros [_ Hin]. apply Hn in Hin. discriminate Hin.
    + split; [|reflexivity]. intros _ [_ Hin]. apply Hn in Hin. discriminate Hin.
  - split.
    + split; [discriminate | intros [Hq _]; lia].
    + split; [|reflexivity]. intros _ [Hq _]. lia.
  - split.
    + split; [discriminate | intros [Hq _]; lia].
    + split; [|reflexivity]. intros _ [Hq _]. lia.
Qed.

Lemma inherited_run_outcome (calls : list TradeCall) :
  forall (ex : LiveTradeExecutor B) (pf : P),
    trader (fst (execute_all calls (ex, pf))) = trader ex
    /\ snd (execute_all calls (ex, pf)) = pf
    /\ successful_trades (fst (execute_all calls (ex, pf))) = successful_trades ex.
Proof.
  induction calls as [|c calls IH]; intros ex pf.
  - repeat split.
  - unfold execute_all. simpl fold_left.
    destruct (inherited_call_outcome (c_now c) (c_ticker c) (c_action c)
                (c_quantity c) (c_price c) ex pf) as (ex1 & Hrun & Ht & Hs & _).
    rewrite Hrun. simpl fst.
    specialize (IH ex1 pf). unfold execute_all in IH.
    destruct IH as (Ht' & Hp' & Hs').
    split; [congruence|]. split; [exact Hp' | congruence].
Qed.

(** X20. Over a trader that inherits [execute_trade], the executor never
    executes anything: every call of [execute_trade_async] returns 0, and
    after any run of calls the trader is the one it started with, the
    portfolio is the one that was passed in, and [successful_trades] has
    not moved.  On a new executor every call that passes the guards is
    therefore a failed one. *)
Theorem executor_never_fills_over_inherited_trade (calls : list TradeCall)
    (ex : LiveTradeExecutor B) (pf : P) :
  (forall now ticker action quantity current_price,
      snd (execute_trade_async now ticker action quantity current_price (ex, pf))
      = Ret 0%Z)
  /\ trader (fst (execute_all calls (ex, pf))) = trader ex
  /\ snd (execute_all calls (ex, pf)) = pf
  /\ successful_trades (fst (execute_all calls (ex, pf))) = successful_trades ex.
Proof.
  split.
  - intros now ticker action quantity current_price.
    destruct (inherited_call_outcome now ticker action quantity current_price ex pf)
      as (ex1 & Hrun & _). rewrite Hrun. reflexivity.
  - apply inherited_run_outcome.
Qed.

End InheritedRunProperties.

Section FutuExecutorProperties.

Import BaseTrader LiveExecutor ExecutorSession.
Import FutuTrader.
Local Open Scope Q_scope.

Context {P : Type} `{PortfolioOps P}.

(** X18. Dry run never reaches the broker: after any run of
    [execute_trade_async] calls on an executor whose trader is in dry-run
    mode, the trader's gateway state is what it was, and in particular no
    [place_order] call was added to the trace of placed orders. *)
Theorem dry_run_never_places_orders (calls : list TradeCall) :
  forall (ex : LiveTradeExecutor Futu) (pf : P),
    dry_run (config (trader ex)) = true ->
    let ex' := fst (execute_all calls (ex, pf)) in
    backend (trader ex') = backend (trader ex)
    /\ placed_orders (backend (trader ex')) = placed_orders (backend (trader ex)).
Proof.
  intros ex pf _. cbv zeta.
  destruct (inherited_run_outcome (P:=P) calls ex pf) as (Ht & _).
  rewrite Ht. split; reflexivity.
Qed.

End FutuExecutorProperties.

(** ** Orders, symbols and summaries *)

Section OrderProperties.

Import BaseTrader FutuTrader TradeSummary.
Local Open Scope Q_scope.

Lemma substring_whole (s : string) : substring 0 (String.length s) s = s.
Proof. induction s as [|c s IH]; simpl; [reflexivity | rewrite IH; reflexivity]. Qed.

Lemma ratio_in_unit (part whole : nat) :
  (part <= whole)%nat -> (0 < whole)%nat ->
  0 <= inject_Z (Z.of_nat part) / inject_Z (Z.of_nat whole)
  /\ inject_Z (Z.of_nat part) / inject_Z (Z.of_nat whole) <= 1.
Proof.
  intros Hle Hpos. split.
  - apply Qle_shift_div_l; [unfold Qlt; simpl; lia|].
    rewrite Qmult_0_l. unfold Qle. simpl. lia.
  - apply Qle_shift_div_r; [unfold Qlt; simpl; lia|].
    rewrite Qmult_1_l. unfold Qle. simpl. lia.
Qed.

Ltac close_prefix :=
  repeat split; intros;
  repeat match goal with
         | E : _ \/ _ |- _ => destruct E
         end;
  try discriminate; eauto; try (simpl; tauto).

(** X21. For a symbol of ASCII text, the Futu symbol is the symbol behind a
    three-character market prefix, one of "HK.", "SH.", "SZ." and "US.", so
    dropping the prefix gives the symbol back.  The prefix is "HK." only
    for five decimal digits, "SH." or "SZ." only for six, "SH." only when
    the first of them is 6, and a symbol that is not all digits gets
    "US.". *)
Theorem futu_symbol_keeps_symbol (sym : string) :
  is_ascii sym = true ->
  exists market_prefix,
    _convert_to_futu_symbol sym = (market_prefix ++ sym)%string
    /\ substring 3 (String.length sym) (_convert_to_futu_symbol sym) = sym
    /\ In market_prefix ["HK."; "SH."; "SZ."; "US."]%string
    /\ (market_prefix = "HK."%string ->
        isdigit sym = true /\ String.length sym = 5%nat)
    /\ (market_prefix = "SH."%string \/ market_prefix = "SZ."%string ->
        isdigit sym = true /\ String.length sym = 6%nat)
    /\ (market_prefix = "SH."%string -> exists rest, sym = String "6"%char rest)
    /\ (isdigit sym = false -> market_prefix = "US."%string).
Proof.
  intros _. unfold _convert_to_futu_symbol.
  destruct (isdigit sym) eqn:Hdigit; cbn [andb].
  2:{ exists "US."%string. simpl. rewrite substring_whole. close_prefix. }
  destruct (Nat.eqb_spec (String.length sym) 5) as [H5 | H5].
  { exists "HK."%string. simpl. rewrite substring_whole. close_prefix. }
  destruct (Nat.eqb_spec (String.length sym) 6) as [H6 | H6].
  2:{ exists "US."%string. simpl. rewrite substring_whole. close_prefix. }
  destruct sym as [|c rest]; [discriminate H6|].
  destruct (Ascii.eqb_spec c "6"%char) as [-> | Hne].
  - exists "SH."%string.
    change (substring 3 (String.length (String "6" rest))
              ("SH." ++ String "6" rest))
      with (substring 0 (String.length (String "6" rest)) (String "6" rest)).
    rewrite substring_whole. close_prefix.
  - exists "SZ."%string.
    assert (Hs : match String c rest with
                 | String "6"%char _ => ("SH." ++ String c rest)%string
                 | _ => ("SZ." ++ String c rest)%string
                 end = ("SZ." ++ String c rest)%string).
    { destruct c as [[] [] [] [] [] [] [] []]; try reflexivity.
      exfalso. apply Hne. reflexivity. }
    rewrite Hs.
    change (substring 3 (String.length (String c rest))
              ("SZ." ++ String c rest))
      with (substring 0 (String.length (String c rest)) (String c rest)).
    rewrite substring_whole. close_prefix.
Qed.

End OrderProperties.

Section SummaryProperties.

Import BaseTrader LiveExecutor ExecutorSession TradeSummary.
Local Open Scope Q_scope.

Context {B P : Type} `{Submission B} `{PortfolioOps P}.

Lemma count_status_in_raises (names : list string) (r : TradeResult)
    (history : list TradeResult) :
  count_status_in names (r :: history) = Raise (AttributeError "value").
Proof. reflexivity. Qed.

(** X22. [get_trade_summary] returns only for a trader without trades.  On
    an empty history it returns the summary with three zeros and no success
    rate; on any other history it raises [AttributeError], because the
    count of successful trades reads [t.status.value] and the status of a
    [TradeResult] is a [str].  A trader that inherits [execute_trade]
    records no trade, so after any run of the executor on a trader that
    started without trades the summary is still the all-zero one. *)
Theorem trade_summary_needs_empty_history (t : Trader B) :
  (trade_history t = [] -> get_trade_summary t = Ret no_trades)
  /\ (trade_history t <> [] -> get_trade_summary t = Raise (AttributeError "value"))
  /\ (forall summary,
        get_trade_summary t = Ret summary ->
        trade_history t = [] /\ summary = no_trades)
  /\ (forall (calls : list TradeCall) (sync : bool) (pf : P),
        trade_history t = [] ->
        get_trade_summary
          (trader (fst (execute_all calls (LiveExecutor.init t sync, pf))))
        = Ret no_trades).
Proof.
  unfold get_trade_summary.
  split; [intros ->; reflexivity|].
  split.
  { destruct (trade_history t) as [|r history]; [intro Hne; contradiction|].
    intros _. rewrite count_status_in_raises. reflexivity. }
  split.
  { intros summary. destruct (trade_history t) as [|r history].
    - intro Heq. injection Heq as <-. split; reflexivity.
    - rewrite count_status_in_raises. intro Heq. discriminate Heq. }
  intros calls sync pf Hempty.
  destruct (inherited_run_outcome (P:=P) calls (LiveExecutor.init t sync) pf)
    as (Ht & _).
  rewrite Ht. simpl. rewrite Hempty. reflexivity.
Qed.

End SummaryProperties.

Section SessionProperties.

Import BaseTrader LiveExecutor ExecutorSession.
Local Open Scope Q_scope.

(** X23. [validate_trading_session] never raises, also when the account
    query does, and it reports the session ready exactly when the trader is
    connected and the account query returns an account with positive buying
    power. *)
Theorem session_ready_iff {B : Type} `{Queries B} (ex : LiveTradeExecutor B) :
  exists ex' ready msg,
    validate_trading_session ex = (ex', Ret (ready, msg))
    /\ (ready = true
        <-> is_connected (trader ex) = true
            /\ exists t' account,
                 get_account_info (trader ex) = (t', Ret (Some account))
                 /\ 0 < buying_power account).
Proof.
  unfold validate_trading_session, try_except, bind, gets, ret, with_trader.
  destruct (is_connected (trader ex)) eqn:Hconn; simpl.
  2:{ eexists _, _, _. split; [reflexivity|].
      split; [discriminate | intros [Hc _]; discriminate Hc]. }
  destruct (get_account_info (trader ex)) as [t' [[account|] | e]] eqn:Hacc.
  - destruct (Qleb (buying_power account) 0) eqn:Hbp;
      eexists _, _, _; (split; [reflexivity|]).
    + apply Qleb_le in Hbp. split; [discriminate|].
      intros (_ & t'' & a & Heq & Hpos). injection Heq as _ <-.
      exfalso. apply (Qlt_not_le _ _ Hpos Hbp).
    + apply Qleb_gt in Hbp. split; [|reflexivity].
      intros _. split; [reflexivity|]. exists t', account. split; [reflexivity | exact Hbp].
  - eexists _, _, _. split; [reflexivity|].
    split; [discriminate | intros (_ & t'' & a & Heq & _); discriminate Heq].
  - eexists _, _, _. split; [reflexivity|].
    split; [discriminate | intros (_ & t'' & a & Heq & _); discriminate Heq].
Qed.

End SessionProperties.

Section TradeLoopProperties.

Import BaseTrader LiveExecutor LiveMain.
Import FutuTrader.
Local Open Scope Q_scope.

Context {P : Type} `{PortfolioOps P}.

Lemma process_decision_counts now ticker action (quantity : Q) (s : Session Futu P) :
  (successful_trades s
   <= successful_trades (process_decision now ticker action quantity s)
   <= successful_trades s + 1)%Z.
Proof.
  unfold process_decision.
  destruct (String.eqb action "hold" || Qleb quantity 0); [lia|].
  destruct (attempt now ticker action quantity (executor s, portfolio_obj s))
    as [[ex pf] [[[k cp]|] | e]]; simpl; try lia.
  destruct (0 <? k)%Z; simpl; lia.
Qed.

(** X24. The whole trade loop of [run_live_hedge_fund] leaves the Risk
    Manager as it was: whatever the decisions and their outcomes, the
    manager built before the loop is the one summarised after it, so for a
    freshly built manager the summary shows no trade, no P&L and
    [emergency_stop = False].  The loop counts at most one successful trade
    per decision. *)
Theorem trade_loop_never_touches_risk_manager now
    (decisions : list (string * (string * Q))) :
  forall s : Session Futu P,
    risk_manager (process_decisions now decisions s) = risk_manager s
    /\ (successful_trades s
        <= successful_trades (process_decisions now decisions s)
        <= successful_trades s + Z.of_nat (List.length decisions))%Z
    /\ (forall config start,
          risk_manager s = RiskControls.init config start ->
          let summary :=
            RiskSummary.get_risk_summary
              (risk_manager (process_decisions now decisions s)) in
          RiskSummary.emergency_stop summary = false
          /\ RiskSummary.s_daily_trades summary = 0%Z
          /\ RiskSummary.circuit_breakers summary = []).
Proof.
  induction decisions as [|[ticker [action quantity]] decisions IH]; intro s.
  - simpl. split; [reflexivity|]. split; [lia|].
    intros config start ->. repeat split.
  - simpl process_decisions.
    destruct (IH (process_decision now ticker action quantity s)) as (Hrm & Hcount & _).
    pose proof (process_decision_keeps_risk_manager now ticker action quantity s) as Hone.
    pose proof (process_decision_counts now ticker action quantity s) as Hc1.
    assert (Hsame : risk_manager
                      (process_decisions now decisions
                         (process_decision now ticker action quantity s))
                    = risk_manager s) by congruence.
    split; [exact Hsame|]. split; [simpl List.length; lia|].
    intros config start Hinit. rewrite Hsame, Hinit. repeat split.
Qed.

End TradeLoopProperties.

(** ** The validation harness *)

Section ValidatorProperties.

Import Validator.
Local Open Scope Q_scope.

Lemma failed_of_app (rs extra : list ValidationResult) :
  filter (fun r => negb (passed r)) (rs ++ extra)
  = (filter (fun r => negb (passed r)) rs
     ++ filter (fun r => negb (passed r)) extra)%list.
Proof. apply filter_app. Qed.

(** X25. The risk-control section of the harness fails on every run,
    whatever the configuration: the summary has no key "risk_limits" (its
    key is "limits"), and [RiskManager] has no method [validate_trade] (its
    method is [validate_order]), so the section always appends the failed
    results "Risk Limits Initialization" and "Risk Controls".  A report made
    after it therefore never says that all validations passed and always
    recommends reviewing the risk control settings. *)
Theorem risk_control_section_always_fails now (before : list ValidationResult) :
  exists r1 r2,
    _validate_risk_controls now before = (before ++ [r1; r2])%list
    /\ test_name r1 = "Risk Limits Initialization"%string /\ passed r1 = false
    /\ test_name r2 = "Risk Controls"%string /\ passed r2 = false
    /\ (forall later,
          let rs := (_validate_risk_controls now before ++ later)%list in
          In rec_risk (_generate_recommendations rs)
          /\ In rec_address (_generate_recommendations rs)
          /\ ~ In rec_all_passed (_generate_recommendations rs)
          /\ (2 <= failed_tests (summary (_generate_report now rs)))%nat).
Proof.
  eexists _, _. split; [reflexivity|].
  split; [reflexivity|]. split; [reflexivity|].
  split; [reflexivity|]. split; [reflexivity|].
  intros later rs.
  set (r1 := mkValidationResult "Risk Limits Initialization" false
               "Failed to initialize risk limits" None now).
  set (r2 := mkValidationResult "Risk Controls" false
               ("Risk control validation error: "
                  ++ str_of_exc (AttributeError "validate_trade")) None now).
  assert (Hrs : rs = (before ++ [r1; r2] ++ later)%list).
  { unfold rs. change (_validate_risk_controls now before) with (before ++ [r1; r2])%list.
    rewrite <- app_assoc. reflexivity. }
  clearbody rs. subst rs.
  set (bad := fun r : ValidationResult => negb (passed r)).
  assert (Hfailed : filter bad (before ++ [r1; r2] ++ later)
                    = (filter bad before ++ r1 :: r2 :: filter bad later)%list).
  { rewrite filter_app. reflexivity. }
  assert (Hnonempty : exists f fs,
             filter bad (before ++ [r1; r2] ++ later) = f :: fs).
  { rewrite Hfailed. destruct (filter bad before); simpl; eauto. }
  assert (Hrisk : existsb (fun r => contains "Risk" (test_name r))
                    (filter bad (before ++ [r1; r2] ++ later)) = true).
  { rewrite Hfailed, existsb_app. apply orb_true_iff. right. reflexivity. }
  unfold _generate_recommendations. fold bad.
  rewrite Hrisk. destruct Hnonempty as (f & fs & Hf). rewrite Hf.
  split; [|split; [|split]].
  - apply in_or_app. right. apply in_or_app. right. apply in_or_app. right.
    apply in_or_app. left. left. reflexivity.
  - left. reflexivity.
  - intro Hin. simpl in Hin. destruct Hin as [Hin | Hin]; [discriminate Hin|].
    repeat (apply in_app_or in Hin; destruct Hin as [Hin | Hin]);
      repeat match type of Hin with
             | In _ (if ?c then _ else _) => destruct c
             end;
      simpl in Hin; repeat (destruct Hin as [Hin | Hin]; try discriminate Hin);
      try contradiction.
  - unfold _generate_report. cbn [summary failed_tests].
    assert (Hsplit : forall l : list ValidationResult,
               List.length l
               = (List.length (filter passed l) + List.length (filter bad l))%nat).
    { induction l as [|r l IHl]; simpl; [reflexivity|].
      unfold bad at 1. destruct (passed r); simpl; lia. }
    rewrite (Hsplit (before ++ [r1; r2] ++ later)%list), Hfailed.
    rewrite length_app. simpl. lia.
Qed.

(** X26. The recommendations are never empty.  They consist of the single
    line "All validations passed - system ready for trading" exactly when
    every result passed; otherwise they start with the line asking to
    address the failed tests and do not contain the all-passed line. *)
Theorem recommendations_reflect_failures (rs : list ValidationResult) :
  _generate_recommendations rs <> []
  /\ (forallb passed rs = true <-> _generate_recommendations rs = [rec_all_passed])
  /\ (forallb passed rs = false ->
      exists others,
        _generate_recommendations rs = rec_address :: others
        /\ ~ In rec_all_passed others).
Proof.
  set (bad := fun r : ValidationResult => negb (passed r)).
  assert (Hall : forallb passed rs = true <-> filter bad rs = []).
  { induction rs as [|r rs IH]; simpl; [tauto|].
    unfold bad at 1. destruct (passed r); simpl; [exact IH|].
    split; discriminate. }
  unfold _generate_recommendations. fold bad.
  destruct (filter bad rs) as [|f fs] eqn:Hf.
  - simpl. split; [discriminate|]. split; [tauto|].
    intro Hfalse. destruct Hall as [_ Hall]. rewrite Hall in Hfalse by reflexivity.
    discriminate Hfalse.
  - split; [discriminate|]. split.
    + split; [intro Hp; apply Hall in Hp; discriminate Hp | discriminate].
    + intros _. eexists. split; [reflexivity|].
      intro Hin.
      repeat (apply in_app_or in Hin; destruct Hin as [Hin | Hin]);
        repeat match type of Hin with
               | In _ (if ?c then _ else _) => destruct c
               end;
        simpl in Hin; repeat (destruct Hin as [Hin | Hin]; try discriminate Hin);
        try contradiction.
Qed.

(** X27. In the validation report the passed and failed counts add up to
    the number of results, the results are reported unchanged, and the
    success rate is 0 for an empty run and otherwise between 0 and 1, being
    1 exactly when nothing failed. *)
Theorem report_counts_add_up now (rs : list ValidationResult) :
  let s := summary (_generate_report now rs) in
  total_tests s = List.length rs
  /\ (passed_tests s + failed_tests s = total_tests s)%nat
  /\ results (_generate_report now rs) = rs
  /\ (rs = [] -> success_rate s == 0)
  /\ 0 <= success_rate s /\ success_rate s <= 1
  /\ (rs <> [] -> (success_rate s == 1 <-> failed_tests s = 0%nat)).
Proof.
  cbv zeta. unfold _generate_report.
  cbn [summary total_tests passed_tests failed_tests success_rate results].
  assert (Hle : (List.length (filter passed rs) <= List.length rs)%nat)
    by apply filter_length_le.
  split; [reflexivity|]. split; [lia|]. split; [reflexivity|].
  split; [intros ->; reflexivity|].
  destruct (Nat.ltb_spec 0 (List.length rs)) as [Hpos | Hzero].
  - destruct (ratio_in_unit _ _ Hle Hpos) as [H0 H1].
    split; [exact H0|]. split; [exact H1|].
    intros _. set (p := List.length (filter passed rs)) in *.
    set (n := List.length rs) in *. clearbody p n.
    assert (Hn : ~ inject_Z (Z.of_nat n) == 0).
    { unfold Qeq. simpl. lia. }
    split.
    + intro Hone.
      assert (Heq : inject_Z (Z.of_nat p) == inject_Z (Z.of_nat n)).
      { rewrite <- (Qmult_1_l (inject_Z (Z.of_nat n))), <- Hone. field. exact Hn. }
      unfold Qeq in Heq. simpl in Heq. lia.
    + intro Hdiff. assert (p = n) by lia. subst p. field. exact Hn.
  - split; [apply Qle_refl|]. split; [discriminate|].
    intro Hne. destruct rs; [contradiction | simpl in Hzero; lia].
Qed.

(** X28. The configuration section always appends exactly three results, in
    the order completeness, port, risk limits.  The completeness test
    always passes; the port test passes exactly for ports 1 to 65535; the
    risk-limit test passes exactly when [max_position_size] is positive. *)
Theorem configuration_section_results now (cfg : TradeConfig)
    (before : list ValidationResult) :
  exists completeness port limits,
    _validate_configuration now cfg before
    = (before ++ [completeness; port; limits])%list
    /\ test_name completeness = "Configuration Completeness"%string
    /\ passed completeness = true
    /\ test_name port = "Port Configuration"%string
    /\ (passed port = true <-> (1 <= futu_port cfg <= 65535)%Z)
    /\ test_name limits = "Risk Limits"%string
    /\ (passed limits = true <-> 0 < cfg_max_position_size cfg).
Proof.
  unfold _validate_configuration. cbv zeta.
  eexists _, _, _. split; [reflexivity|].
  split; [reflexivity|]. split; [reflexivity|].
  split.
  { destruct ((futu_port cfg <=? 0)%Z || (65535 <? futu_port cfg)%Z); reflexivity. }
  split.
  { destruct (Z.leb_spec (futu_port cfg) 0); simpl.
    - split; [discriminate | lia].
    - destruct (Z.ltb_spec 65535 (futu_port cfg)); simpl.
      + split; [discriminate | lia].
      + split; [intros _; lia | reflexivity]. }
  split.
  { destruct (Qleb (cfg_max_position_size cfg) 0); reflexivity. }
  destruct (Qleb (cfg_max_position_size cfg) 0) eqn:E; simpl.
  - apply Qleb_le in E. split; [discriminate|].
    intro Hpos. exfalso. apply (Qlt_not_le _ _ Hpos E).
  - apply Qleb_gt in E. split; [intros _; exact E | reflexivity].
Qed.

End ValidatorProperties.

Section RiskConfigProperties.

Import RiskControls.
Local Open Scope Q_scope.

(** The keys [RiskManager.__init__] reads. *)
Lemma config_get_skips (before after : list (string * Q)) (key : string) (value : Q)
    (wanted : string) (default : Q) :
  key <> wanted ->
  config_get (before ++ (key, value) :: after) wanted default
  = config_get (before ++ after) wanted default.
Proof.
  intro Hne. induction before as [|[k v] before IH]; simpl.
  - destruct (String.eqb_spec key wanted); [contradiction | reflexivity].
  - destruct (String.eqb k wanted); [reflexivity | exact IH].
Qed.

(** X29. [RiskManager.__init__] reads six keys only: an entry under any
    other key -- such as the "max_daily_trades" that [main] and the
    validator put in the risk configuration -- changes nothing, so the
    trade-frequency limit stays the value under "max_trades_per_day", or 100
    when that key is absent. *)
Theorem risk_config_ignores_other_keys (before after : list (string * Q))
    (key : string) (value : Q) (now : Z) :
  ~ In key ["max_position_size"; "max_portfolio_value"; "max_daily_loss";
            "max_position_concentration"; "max_trades_per_day";
            "min_cash_reserve"]%string ->
  init (before ++ (key, value) :: after) now = init (before ++ after) now
  /\ max_trades_per_day (limits (init [(key, value)] now)) = 100.
Proof.
  intro Hnot.
  assert (Hk : forall wanted,
             In wanted ["max_position_size"; "max_portfolio_value"; "max_daily_loss";
                        "max_position_concentration"; "max_trades_per_day";
                        "min_cash_reserve"]%string ->
             key <> wanted).
  { intros wanted Hin Heq. apply Hnot. rewrite Heq. exact Hin. }
  split.
  - unfold init. rewrite !config_get_skips by (apply Hk; simpl; tauto). reflexivity.
  - pose proof (config_get_skips [] [] key value "max_trades_per_day" 100) as Hskip.
    simpl in Hskip. unfold init. simpl. apply Hskip. apply Hk. simpl. tauto.
Qed.

End RiskConfigProperties.

(** ** More scenarios, evaluated *)

Section MoreScenariosEvaluated.

Import BaseTrader LiveExecutor LiveMain Scenario MoreScenarios ExecutorSession.
Import FutuTrader.
Local Open Scope Q_scope.

Lemma approval_respects_limits_witness :
  let order := market_order "AAPL" BUY 10 (Some 150) in
  let rm0 := RiskControls._check_daily_reset 1700000000 default_risk_manager in
  fst (RiskControls.validate_order order account_object [] 1700000000
         default_risk_manager) = rm0
  /\ RiskControls.circuit_breaker_active rm0 = false
  /\ RiskSummary.estimated_position_value order
     <= RiskControls.max_position_size (RiskControls.limits rm0).
Proof.
  intros order rm0.
  assert (Hv : snd (RiskControls.validate_order order account_object [] 1700000000
                      default_risk_manager)
               = Ret (true, "All risk checks passed"%string, RiskControls.LOW))
    by (vm_compute; reflexivity).
  destruct (approval_respects_limits order account_object [] 1700000000
              default_risk_manager _ _ Hv) as (H1 & _ & _ & H4 & H5 & _).
  split; [exact H1|]. split; [exact H4 | exact H5].
Defined.

Lemma manual_reset_rearmed_while_loss_persists_witness :
  exists rm' reason,
    RiskControls.validate_order (market_order "AAPL" BUY 10 (Some 150))
      account_object [] 1700000100
      (RiskControls.reset_circuit_breaker losing_risk_manager)
    = (rm', Ret (false, reason, RiskControls.CRITICAL))
    /\ RiskControls.circuit_breaker_active rm' = true.
Proof.
  destruct (manual_reset_rearmed_while_loss_persists losing_risk_manager
              (market_order "AAPL" BUY 10 (Some 150))
              [("cash", 50000); ("net_liquidation", 100000)] [] 1700000100
              50000 100000)
    as (rm' & reason & Hrun & Hcb & _).
  - vm_compute. reflexivity.
  - vm_compute. discriminate.
  - reflexivity.
  - reflexivity.
  - exists rm', reason. split; [exact Hrun | exact Hcb].
Defined.

Lemma disconnected_trader_does_nothing_witness :
  let t := FutuTrader.init default_config (gateway_with (Some 150) []) in
  get_market_price "AAPL" t = (t, Ret None)
  /\ exists r, submit_order (market_order "AAPL" BUY 10 (Some 150)) t = (t, Ret r)
               /\ status r = REJECTED.
Proof.
  intro t.
  destruct (disconnected_trader_does_nothing t (market_order "AAPL" BUY 10 (Some 150))
              "AAPL" eq_refl) as (_ & _ & Hprice & Hsubmit).
  split; [exact Hprice|]. eexists. split; [exact Hsubmit | reflexivity].
Defined.

Lemma dry_run_never_places_orders_witness :
  let ex := connected_executor default_config (gateway_with (Some 150) []) in
  placed_orders (backend (trader (fst (execute_all three_calls (ex, ([] : CallLog))))))
  = [].
Proof.
  intro ex.
  destruct (dry_run_never_places_orders (P:=CallLog) three_calls ex [] eq_refl)
    as (_ & Hplaced).
  exact Hplaced.
Defined.

Lemma dry_run_submission_all_or_nothing_witness :
  let t := trader (connected_executor default_config (gateway_with (Some 150) [])) in
  exists r, submit_order (market_order "AAPL" SELL 7 None) t = (t, Ret r)
            /\ r_quantity r = 7%Z.
Proof.
  intro t.
  destruct (dry_run_submission_all_or_nothing t (market_order "AAPL" SELL 7 None)
              eq_refl) as (r & Hrun & Hq & _).
  exists r. split; [exact Hrun | exact Hq].
Defined.

Lemma live_validation_never_approves_witness :
  let t := trader (connected_executor live_config
                     (gateway_with (Some 150) [aapl_position 100])) in
  let order := market_order "AAPL" SELL 50 (Some 150) in
  is_connected t = true
  /\ validate_trade order t = (t, Raise (AttributeError "value")).
Proof.
  intros t order.
  destruct (live_validation_never_approves t order eq_refl) as (_ & _ & _ & Hraise).
  split; [reflexivity|].
  apply (Hraise eq_refl t
           {| account_id := "ACC1"; total_assets := 100000; cash := 50000;
              market_value := 50000; unrealized_pnl := 0; realized_pnl := 0;
              buying_power := 50000 |}).
  vm_compute. reflexivity.
Defined.

Lemma futu_symbol_keeps_symbol_witness :
  _convert_to_futu_symbol "00700" = "HK.00700"%string
  /\ substring 3 5 (_convert_to_futu_symbol "00700") = "00700"%string.
Proof.
  destruct (futu_symbol_keeps_symbol "00700" eq_refl) as (market_prefix & _ & Hsub & _).
  split; [reflexivity | exact Hsub].
Defined.

Lemma no_trade_without_quantity_or_on_hold_witness :
  let store := (connected_executor default_config (gateway_with (Some 150) []),
                ([] : CallLog)) in
  execute_trade_async 1700000000 "AAPL" "buy" (Some 0) 150 store = (store, Ret 0%Z).
Proof.
  intro store.
  apply (no_trade_without_quantity_or_on_hold (B:=Futu) (P:=CallLog)).
  right. left. exists 0. split; [reflexivity|]. unfold Qle. simpl. lia.
Defined.

Lemma unsubmittable_trade_is_counted_as_failed_witness :
  let ex := connected_executor default_config (gateway_with (Some 150) []) in
  snd (execute_trade_async 1700000000 "AAPL" "buy" (Some (1 # 2)) 150
         (ex, ([] : CallLog)))
  = Ret 0%Z
  /\ total_trades
       (fst (fst (execute_trade_async 1700000000 "AAPL" "buy" (Some (1 # 2)) 150
                    (ex, ([] : CallLog)))))
     = 1%Z.
Proof.
  intro ex.
  rewrite (unsubmittable_trade_is_counted_as_failed (B:=Futu) (P:=CallLog)
             1700000000 "AAPL" "buy" (1 # 2) 150 ex []).
  - split; reflexivity.
  - reflexivity.
  - discriminate.
  - left. vm_compute. discriminate.
Defined.

Lemma risk_config_ignores_other_keys_witness :
  RiskControls.max_trades_per_day
    (RiskControls.limits (RiskControls.init [("max_daily_trades", 20)] 1700000000))
  = 100.
Proof.
  apply (proj2 (risk_config_ignores_other_keys [] [] "max_daily_trades" 20 1700000000
                  ltac:(simpl; intuition discriminate))).
Defined.

End MoreScenariosEvaluated.
